(** * SudoDev: the issue-resolution agent and its feedback loop

    A shallow embedding of [sudodev/core/agent.py] and
    [sudodev/core/feedback_loop.py].

    Conventions of the embedding:
    - a Python [str] is a [string]; one [ascii] stands for one code point
      below 256, so [len] is [String.length];
    - a method that reads or mutates [self] is a computation in the monad
      [Py S], a state monad over the object's fields whose result is either a
      value or a raised exception;
    - the exceptions of the model are instances of Python's [Exception]
      class, the ones an [except Exception] clause handles;
    - console narration ([log_step], [log_error], [print], the logger) is
      left out: it has no influence on values, files or control flow. *)

From Stdlib Require Import Ascii String ZArith NArith Floats DecimalString.
From stdpp Require Import base option list strings gmap.

Local Open Scope Z_scope.
Local Set Warnings "-inexact-float,-abstract-large-number".

(** ** Results and the monad of methods *)

(** An instance of Python's [Exception]: class name and message. *)
Record exn := Exn { exn_class : string; exn_msg : string }.

Inductive outcome (A : Type) : Type :=
| Ok (a : A)
| Raise (e : exn).
Arguments Ok {A} a.
Arguments Raise {A} e.

Definition Py (S A : Type) : Type := S -> outcome A * S.

Definition ret {S A} (a : A) : Py S A := fun s => (Ok a, s).
Definition raise {S A} (e : exn) : Py S A := fun s => (Raise e, s).
Definition bind {S A B} (m : Py S A) (k : A -> Py S B) : Py S B :=
  fun s => match m s with
           | (Ok a, s') => k a s'
           | (Raise e, s') => (Raise e, s')
           end.
Definition get {S} : Py S S := fun s => (Ok s, s).
Definition modify {S} (f : S -> S) : Py S unit := fun s => (Ok tt, f s).

(** [try: body  except Exception as e: handler e  finally: final].
    [final] runs on every way out of [body] and of [handler]; the model's
    finalisers do not raise. *)
Definition try_except_finally {S A}
    (body : Py S A) (handler : exn -> Py S A) (final : S -> S) : Py S A :=
  fun s => match body s with
           | (Ok a, s') => (Ok a, final s')
           | (Raise e, s') =>
               match handler e s' with
               | (r, s'') => (r, final s'')
               end
           end.

Declare Scope py_scope.
Delimit Scope py_scope with py.
Notation "'let*' x ':=' m 'in' k" := (bind m (fun x => k))
  (at level 10, x pattern, m at level 100, k at level 200) : py_scope.
Notation "'do' m 'in' k" := (bind m (fun _ => k))
  (at level 10, m at level 100, k at level 200) : py_scope.

(** ** Python string operations used by the sources *)

Module PyStr.

(** [str.isspace] on one code point below 256. *)
Definition isspace (c : ascii) : bool :=
  let n := N_of_ascii c in
  (((9 <=? n) && (n <=? 13)) || ((28 <=? n) && (n <=? 32))
   || (n =? 133) || (n =? 160))%N.

Fixpoint lstrip (s : string) : string :=
  match s with
  | EmptyString => EmptyString
  | String c s' => if isspace c then lstrip s' else s
  end.

Fixpoint rstrip (s : string) : string :=
  match s with
  | EmptyString => EmptyString
  | String c s' =>
      match rstrip s' with
      | EmptyString => if isspace c then EmptyString else String c EmptyString
      | r => String c r
      end
  end.

(** [s.strip()] *)
Definition strip (s : string) : string := rstrip (lstrip s).

(** [s[:n]] *)
Fixpoint take (n : nat) (s : string) : string :=
  match n, s with
  | S n', String c s' => String c (take n' s')
  | _, _ => EmptyString
  end.

(** [len(s)] *)
Definition len (s : string) : Z := Z.of_nat (String.length s).

(** [s.split(sep)] for a one-character separator. *)
Fixpoint split (sep : ascii) (s : string) : list string :=
  match s with
  | EmptyString => [EmptyString]
  | String c s' =>
      if Ascii.eqb c sep then EmptyString :: split sep s'
      else match split sep s' with
           | h :: t => String c h :: t
           | [] => [String c EmptyString]
           end
  end.

(** [sep.join(l)] *)
Fixpoint join (sep : string) (l : list string) : string :=
  match l with
  | [] => EmptyString
  | [x] => x
  | x :: l' => x +:+ sep +:+ join sep l'
  end.

Fixpoint replace_from (old new : string) (skip : nat) (s : string) : string :=
  match s with
  | EmptyString => EmptyString
  | String c s' =>
      match skip with
      | S k => replace_from old new k s'
      | O =>
          if String.prefix old s
          then new +:+ replace_from old new (String.length old - 1) s'
          else String c (replace_from old new O s')
      end
  end.

(** [s.replace(old, new)] for a non-empty [old]: the occurrences are taken
    from the left and do not overlap. *)
Definition replace (old new s : string) : string := replace_from old new O s.

(** [sub in s] *)
Fixpoint contains (sub s : string) : bool :=
  String.prefix sub s ||
  match s with
  | EmptyString => false
  | String _ s' => contains sub s'
  end.

(** [str(n)] for a non-negative integer. *)
Definition of_N (n : N) : string := NilZero.string_of_uint (N.to_uint n).

Definition digit_value (c : ascii) : N := (N_of_ascii c - 48)%N.

(** The default of [sys.get_int_max_str_digits()]. *)
Definition int_max_str_digits : nat := 4300.

(** [int(s)] for a non-empty string of the digits 0-9: CPython refuses a
    string of more than [int_max_str_digits] digits with a [ValueError]. *)
Definition to_int {S} (s : string) : Py S Z :=
  if (int_max_str_digits <? String.length s)%nat then
    raise (Exn "ValueError" "Exceeds the limit for integer string conversion")
  else
    ret (Z.of_N (fold_left (fun acc c => (10 * acc + digit_value c)%N)
                           (list_ascii_of_string s) 0%N)).

(** Truth value of a string: the empty string is false. *)
Definition truthy (s : string) : bool :=
  match s with EmptyString => false | _ => true end.

(** [s[n:]] *)
Fixpoint drop (n : nat) (s : string) : string :=
  match n, s with
  | S n', String _ s' => drop n' s'
  | _, _ => s
  end.

(** [s[-n:]] for a positive [n]: the last [n] characters, or all of [s]. *)
Definition take_last (n : nat) (s : string) : string :=
  drop (String.length s - n) s.

(** [str(z)] for an integer. *)
Definition of_Z (z : Z) : string :=
  match z with
  | Z0 => "0"
  | Zpos p => of_N (Npos p)
  | Zneg p => "-" +:+ of_N (Npos p)
  end.

End PyStr.

(** ** The fragment of [re] the feedback loop uses

    A backtracking matcher in the style of Python's: alternatives are tried
    in priority order, [+] is greedy, and [search] returns the match that
    starts leftmost. *)

Module Re.

Inductive t : Type :=
| Eps                             (* the empty pattern *)
| Lit (c : ascii)                 (* one literal character *)
| Plus (cls : ascii -> bool)      (* [cls+], greedy, e.g. [\w+] *)
| Cat (r1 r2 : t)
| Group (r : t).                  (* a capture group *)

(** [\w] on code points below 256: [str.isalnum] or underscore. *)
Definition word (c : ascii) : bool :=
  let n := N_of_ascii c in
  (((48 <=? n) && (n <=? 57)) || ((65 <=? n) && (n <=? 90))
   || ((97 <=? n) && (n <=? 122)) || (n =? 95)
   || (n =? 170) || (n =? 178) || (n =? 179) || (n =? 181)
   || (n =? 185) || (n =? 186) || ((188 <=? n) && (n <=? 190))
   || ((192 <=? n) && (n <=? 214)) || ((216 <=? n) && (n <=? 246))
   || (248 <=? n))%N.

(** [\d] on code points below 256. *)
Definition digit (c : ascii) : bool :=
  let n := N_of_ascii c in ((48 <=? n) && (n <=? 57))%N.

(** [.] without DOTALL: anything but a newline. *)
Definition dot (c : ascii) : bool := negb (Ascii.eqb c "010"%char).

Fixpoint lit (s : string) : t :=
  match s with
  | EmptyString => Eps
  | String c s' => Cat (Lit c) (lit s')
  end.

(** The groups closed so far, in closing order. *)
Definition captures := list string.

Section Matcher.
Context {R : Type}.

(** Zero or more [cls], the longest run first. *)
Fixpoint star (cls : ascii -> bool) (s : string)
    (k : string -> option R) : option R :=
  match s with
  | String c s' =>
      if cls c
      then match star cls s' k with
           | Some r => Some r
           | None => k s
           end
      else k s
  | EmptyString => k s
  end.

(** [go r s caps k]: match [r] at the front of [s], then continue with
    [k] on the rest of the input; [None] when every alternative fails. *)
Fixpoint go (r : t) (s : string) (caps : captures)
    (k : string -> captures -> option R) : option R :=
  match r with
  | Eps => k s caps
  | Lit c =>
      match s with
      | String x s' => if Ascii.eqb x c then k s' caps else None
      | EmptyString => None
      end
  | Plus cls =>
      match s with
      | String x s' => if cls x then star cls s' (fun rest => k rest caps) else None
      | EmptyString => None
      end
  | Cat r1 r2 => go r1 s caps (fun rest caps' => go r2 rest caps' k)
  | Group r' =>
      go r' s caps
         (fun rest caps' =>
            k rest (caps' ++ [PyStr.take (String.length s - String.length rest) s]))
  end.
End Matcher.

(** [re.match(r, s)]: the groups of the first successful alternative. *)
Definition match_here (r : t) (s : string) : option captures :=
  go r s [] (fun _ caps => Some caps).

(** [re.search(r, s)]: the groups of the leftmost match. *)
Fixpoint search (r : t) (s : string) : option captures :=
  match match_here r s with
  | Some caps => Some caps
  | None =>
      match s with
      | EmptyString => None
      | String _ s' => search r s'
      end
  end.

(** [m.group(i)], groups numbered from 1. *)
Definition group (caps : captures) (i : nat) : string :=
  nth (i - 1) caps EmptyString.

(** The least number of characters a match of [r] consumes. *)
Fixpoint min_len (r : t) : nat :=
  match r with
  | Eps => 0
  | Lit _ => 1
  | Plus _ => 1
  | Cat r1 r2 => min_len r1 + min_len r2
  | Group r' => min_len r'
  end.

(** The number of groups of [r]. *)
Fixpoint groups (r : t) : nat :=
  match r with
  | Cat r1 r2 => groups r1 + groups r2
  | Group r' => groups r' + 1
  | _ => 0
  end.

(** No group of [r] can match the empty string. *)
Fixpoint groups_consume (r : t) : Prop :=
  match r with
  | Cat r1 r2 => groups_consume r1 /\ groups_consume r2
  | Group r' => groups_consume r' /\ (1 <= min_len r')%nat
  | _ => True
  end.

(** Every character of [s] is in [cls]. *)
Fixpoint all_in (cls : ascii -> bool) (s : string) : bool :=
  match s with
  | EmptyString => true
  | String c s' => cls c && all_in cls s'
  end.

(** The longest prefix of [s] made of characters in [cls], and what
    follows it. *)
Fixpoint span (cls : ascii -> bool) (s : string) : string :=
  match s with
  | EmptyString => EmptyString
  | String c s' => if cls c then String c (span cls s') else EmptyString
  end.

Fixpoint skip (cls : ascii -> bool) (s : string) : string :=
  match s with
  | EmptyString => EmptyString
  | String c s' => if cls c then skip cls s' else s
  end.

(** [matches r w caps]: the text [w] is matched by [r], and [caps] are the
    texts of the groups of [r], in closing order. *)
Inductive matches : t -> string -> captures -> Prop :=
| matches_eps : matches Eps EmptyString []
| matches_lit c : matches (Lit c) (String c EmptyString) []
| matches_plus cls w :
    w <> EmptyString -> all_in cls w = true -> matches (Plus cls) w []
| matches_cat r1 r2 w1 w2 caps1 caps2 :
    matches r1 w1 caps1 -> matches r2 w2 caps2 ->
    matches (Cat r1 r2) (w1 +:+ w2) (caps1 ++ caps2)
| matches_group r w caps :
    matches r w caps -> matches (Group r) w (caps ++ [w]).

End Re.


(** The newline character and the one-character string holding it. *)
Definition nl_char : ascii := "010"%char.
Definition nl : string := String nl_char EmptyString.

(** ** [sudodev/core/feedback_loop.py] *)

Module FeedbackLoop.

(** One entry of [attempts_history]: the dict built by [add_attempt]. *)
Record Attempt := {
  attempt : Z;
  file_path : string;
  code_applied : string;
  error_output : string;
  success : bool;
  timestamp : float
}.

(** The fields of a [FeedbackLoop] object. *)
Record t := {
  max_attempts : Z;
  attempts_history : list Attempt
}.

(** The [analysis] dict of [analyze_errors]; [None] is Python's [None]. *)
Record Analysis := {
  error_type : option string;
  error_message : option string;
  failed_line : option Z;
  suggestions : list string
}.

Definition default_max_attempts : Z := 3.

(** [FeedbackLoop(max_attempts)] *)
Definition __init__ (max_attempts : Z) : t :=
  {| max_attempts := max_attempts; attempts_history := [] |}.

(** [add_attempt]; [now] is the value [time.time()] returns. *)
Definition add_attempt (attempt_num : Z) (path applied error : string)
    (ok : bool) (now : float) : Py t unit :=
  modify (fun self =>
    {| max_attempts := max_attempts self;
       attempts_history :=
         attempts_history self ++
         [ {| attempt := attempt_num;
              file_path := path;
              code_applied := PyStr.take 500 applied;
              error_output := error;
              success := ok;
              timestamp := now |} ] |}).

Definition should_retry (current_attempt : Z) : Py t bool :=
  (let* self := get in
   ret (current_attempt <? max_attempts self))%py.

Inductive category := exception | assertion | test_failure.

(** [(\w+Error): (.+)] *)
Definition exception_pattern : Re.t :=
  Re.Cat (Re.Group (Re.Cat (Re.Plus Re.word) (Re.lit "Error")))
         (Re.Cat (Re.lit ": ") (Re.Group (Re.Plus Re.dot))).

(** [AssertionError: (.+)] *)
Definition assertion_pattern : Re.t :=
  Re.Cat (Re.lit "AssertionError: ") (Re.Group (Re.Plus Re.dot)).

(** [FAILED (.+)] *)
Definition test_failure_pattern : Re.t :=
  Re.Cat (Re.lit "FAILED ") (Re.Group (Re.Plus Re.dot)).

(** [line (\d+)] *)
Definition line_pattern : Re.t :=
  Re.Cat (Re.lit "line ") (Re.Group (Re.Plus Re.digit)).

Definition error_patterns : list (Re.t * category) :=
  [ (exception_pattern, exception);
    (assertion_pattern, assertion);
    (test_failure_pattern, test_failure) ].

(** The [for pattern, error_category in error_patterns] loop: the first
    pattern that matches sets [error_type] and [error_message] and breaks. *)
Fixpoint classify (patterns : list (Re.t * category)) (error : string)
    : option string * option string :=
  match patterns with
  | [] => (None, None)
  | (pattern, error_category) :: rest =>
      match Re.search pattern error with
      | Some m =>
          match error_category with
          | exception => (Some (Re.group m 1), Some (Re.group m 2))
          | assertion => (Some "AssertionError", Some (Re.group m 1))
          | test_failure => (Some "TestFailure", Some (Re.group m 1))
          end
      | None => classify rest error
      end
  end.

(** [x == name] for a value that is a string or [None]. *)
Definition is_str (x : option string) (name : string) : bool :=
  match x with
  | Some s => String.eqb s name
  | None => false
  end.

(** Truth value of a string or [None]. *)
Definition truthy (x : option string) : bool :=
  match x with
  | Some s => PyStr.truthy s
  | None => false
  end.

(** [sub in s] where [sub] may be [None]: Python raises [TypeError] then. *)
Definition py_in {S} (sub : option string) (s : string) : Py S bool :=
  match sub with
  | Some k => ret (PyStr.contains k s)
  | None =>
      raise (Exn "TypeError"
                 "'in <string>' requires string as left operand, not NoneType")
  end.

(** [sub in x] where [x] may be [None]. *)
Definition in_opt {S} (sub : string) (x : option string) : Py S bool :=
  match x with
  | Some s => ret (PyStr.contains sub s)
  | None => raise (Exn "TypeError" "argument of type 'NoneType' is not iterable")
  end.

Definition same_error_suggestion : string :=
  "CRITICAL: Same error repeating - try a different approach".

(** The [if]/[elif] chain on [error_type]. *)
Definition kind_suggestions (analysis : Analysis) : Py t (list string) :=
  let error_type := error_type analysis in
  if is_str error_type "NameError" then
    ret ["Check for undefined variables or missing imports"]
  else if is_str error_type "AttributeError" then
    ret ["Verify object has the expected attributes/methods"]
  else if is_str error_type "TypeError" then
    ret ["Check function arguments and type compatibility"]
  else if is_str error_type "ImportError"
          || is_str error_type "ModuleNotFoundError" then
    ret ["Verify import paths and module availability"]
  else if is_str error_type "SyntaxError" then
    ret ["Review code syntax and indentation"]
  else if is_str error_type "AssertionError" then
    ret ["The fix didn't achieve expected behavior - review logic"]
  else
    (let* django := in_opt "Django" (error_message analysis) in
     if django then ret ["Ensure Django settings are properly configured"]
     else ret [])%py.

Definition _generate_suggestions (analysis : Analysis) : Py t (list string) :=
  (let* suggestions := kind_suggestions analysis in
   let* self := get in
   if 1 <? Z.of_nat (length (attempts_history self)) then
     match last (attempts_history self) with
     | Some last_attempt =>
         let last_error := error_output last_attempt in
         let* repeating := py_in (error_type analysis) last_error in
         if repeating then ret (suggestions ++ [same_error_suggestion])
         else ret suggestions
     | None => ret suggestions
     end
   else ret suggestions)%py.

(** [re.search(r'line (\d+)', error_output)] and the conversion of its
    group: the value stored under [failed_line]. *)
Definition find_failed_line (error : string) : Py t (option Z) :=
  match Re.search line_pattern error with
  | Some line_match =>
      (let* n := PyStr.to_int (Re.group line_match 1) in ret (Some n))%py
  | None => ret None
  end.

Definition analyze_errors (error : string) : Py t Analysis :=
  let '(ty, msg) := classify error_patterns error in
  (let* line := find_failed_line error in
   let analysis :=
     {| error_type := ty; error_message := msg;
        failed_line := line; suggestions := [] |} in
   if truthy ty then
     let* suggestions := _generate_suggestions analysis in
     ret {| error_type := ty; error_message := msg;
            failed_line := line; suggestions := suggestions |}
   else ret analysis)%py.

(** The number of attempt records stored for [path]. *)
Definition records_for (path : string) (self : t) : Z :=
  Z.of_nat (length (filter (fun a => file_path a = path) (attempts_history self))).

(** A call of one of the public methods. *)
Inductive op :=
| AddAttempt (attempt_num : Z) (path applied error : string) (ok : bool) (now : float)
| ShouldRetry (current_attempt : Z)
| AnalyzeErrors (error : string).

(** The object after a call (the returned value is dropped). *)
Definition step (o : op) (self : t) : t :=
  match o with
  | AddAttempt n path applied error ok now =>
      snd (add_attempt n path applied error ok now self)
  | ShouldRetry n => snd (should_retry n self)
  | AnalyzeErrors error => snd (analyze_errors error self)
  end.

Definition run_ops (ops : list op) (self : t) : t :=
  fold_left (fun s o => step o s) ops self.

(** A caller that records an attempt for a file only after [should_retry]
    answered true for the number of records already stored for it. *)
Fixpoint guarded (ops : list op) (self : t) : Prop :=
  match ops with
  | [] => True
  | o :: rest =>
      match o with
      | AddAttempt _ path _ _ _ _ =>
          fst (should_retry (records_for path self) self) = Ok true
      | _ => True
      end /\ guarded rest (step o self)
  end.

(** The rule about repeated errors, for one object and one transcript:
    if the analysis finds an error kind and that kind occurs in the
    transcript of the last recorded attempt, the analysis carries the
    suggestion to change approach. *)
Definition repeats_flagged (self : t) (error : string) : Prop :=
  forall analysis self' previous kind,
    analyze_errors error self = (Ok analysis, self') ->
    last (attempts_history self) = Some previous ->
    error_type analysis = Some kind ->
    PyStr.contains kind (error_output previous) = true ->
    In same_error_suggestion (suggestions analysis).

(** The ceiling on the records of one file after a sequence of calls on a
    fresh object. *)
Definition records_bounded (limit : Z) (ops : list op) (path : string) : Prop :=
  records_for path (run_ops ops (__init__ limit)) <= limit.

(** [analyze_errors] called twice in a row: both outcomes, and the object
    after each call. *)
Definition analyze_twice (error : string) (self : t)
    : (outcome Analysis * t) * (outcome Analysis * t) :=
  let first := analyze_errors error self in
  let second := analyze_errors error (snd first) in
  (first, second).

(** [x or default] for a value that is a string or [None]. *)
Definition or_else (x : option string) (d : string) : string :=
  match x with
  | Some s => if PyStr.truthy s then s else d
  | None => d
  end.

(** [l[-2:]] *)
Definition last_two {A} (l : list A) : list A := drop (length l - 2) l.

(** [attempt['error_output'][:200].split('\n')[-1]] *)
Definition brief_error (a : Attempt) : string :=
  List.last (PyStr.split nl_char (PyStr.take 200 (error_output a))) EmptyString.

(** The f-string that opens the prompt. *)
Definition retry_opening (original_issue file_content path current_error : string)
    (analysis : Analysis) : string :=
  "You are debugging a fix that FAILED. Learn from the error and try a different approach.

Original Issue:
" +:+ PyStr.take 1000 original_issue +:+ "

File: " +:+ path +:+ "

Current Code (that failed):
```python
" +:+ PyStr.take 10000 file_content +:+ "
```

VERIFICATION FAILED with this error:
```
" +:+ PyStr.take_last 1500 current_error +:+ "
```

Error Analysis:
- Type: " +:+ or_else (error_type analysis) "Unknown" +:+ "
- Message: " +:+ or_else (error_message analysis) "See above" +:+ "
".

(** The closing instructions. *)
Definition retry_closing : string :=
  "
Your Task:
1. Carefully review the error and understand why the previous fix failed
2. Think about what needs to change differently
3. Provide a COMPLETE fixed version of the file

**IMPORTANT:**
- Do NOT repeat the same fix that just failed
- Try a fundamentally different approach if needed
- Ensure all syntax is correct
- Provide the ENTIRE file content

Output Format:
First explain what you're changing differently this time (3-4 sentences).

Then provide the complete fixed code in a ```python block.
".

(** [if analysis['failed_line']: prompt += ...]: the number 0 is false. *)
Definition add_failed_line (analysis : Analysis) (prompt : string) : string :=
  match failed_line analysis with
  | Some n =>
      if n =? 0 then prompt
      else prompt +:+ "- Failed at line: " +:+ PyStr.of_Z n +:+ nl
  | None => prompt
  end.

Definition add_suggestions (analysis : Analysis) (prompt : string) : string :=
  match suggestions analysis with
  | [] => prompt
  | l =>
      fold_left (fun p suggestion => p +:+ "- " +:+ suggestion +:+ nl)
                l (prompt +:+ nl +:+ "Suggestions:" +:+ nl)
  end.

Definition add_previous_attempts (history : list Attempt) (prompt : string) : string :=
  if 0 <? Z.of_nat (length history) then
    fold_left
      (fun p a =>
         p +:+ "  Attempt " +:+ PyStr.of_Z (attempt a) +:+ ": " +:+ brief_error a +:+ nl)
      (last_two history)
      (prompt +:+ nl +:+ "**Previous Attempts**: "
              +:+ PyStr.of_Z (Z.of_nat (length history)) +:+ " failed" +:+ nl)
  else prompt.

Definition build_retry_prompt
    (original_issue file_content path current_error : string) : Py t string :=
  (let* analysis := analyze_errors current_error in
   let* self := get in
   let prompt :=
     retry_opening original_issue file_content path current_error analysis in
   let prompt := add_failed_line analysis prompt in
   let prompt := add_suggestions analysis prompt in
   let prompt := add_previous_attempts (attempts_history self) prompt in
   ret (prompt +:+ retry_closing))%py.

Definition is_add_attempt (o : op) : bool :=
  match o with AddAttempt _ _ _ _ _ _ => true | _ => false end.

End FeedbackLoop.

(** ** The collaborators of the agent

    [sudodev.runtime.container.Sandbox], [sudodev.core.client.LLMClient] and
    [sudodev.core.tools] are used by [agent.py] through the interfaces
    below. A method of a collaborator takes the collaborator's state and
    returns a value or an exception together with the new state. *)

Class SandboxAPI (Sandbox : Type) := {
  (** [Sandbox(instance_id)] *)
  sb_new : string -> Sandbox;
  sb_start : Sandbox -> outcome unit * Sandbox;
  (** [run_command(cmd, timeout=...)]: exit code and combined output;
      [None] is the default timeout. *)
  sb_run_command : string -> option Z -> Sandbox -> outcome (Z * string) * Sandbox;
  (** [read_file(path)]: the content, or [None]. *)
  sb_read_file : string -> Sandbox -> outcome (option string) * Sandbox;
  sb_write_file : string -> string -> Sandbox -> outcome unit * Sandbox;
  (** Modelled from the spec: [cleanup()] of the [Sandbox] class, which is
      not among the sources, must be safe to call multiple times and must
      never raise; it only changes the state of the sandbox. *)
  sb_cleanup : Sandbox -> Sandbox
}.

Class LLMAPI (LLMClient : Type) := {
  (** [LLMClient()] *)
  llm_new : LLMClient;
  (** [get_completion(system_prompt, user_prompt, temperature, max_tokens)];
      [None] is the default [max_tokens]. *)
  llm_get_completion :
    string -> string -> float -> option Z -> LLMClient -> outcome string * LLMClient
}.

Class Tools := {
  build_reproduce_prompt : string -> string -> string;
  build_fix_prompt : string -> string -> string -> string -> string;
  (** [from sudodev.tools import build_locate_files_prompt], executed inside
      [_locate_files]: the function, or the import's exception. *)
  import_build_locate_files_prompt : outcome (string -> string -> string);
  extract_python_code : string -> string;
  extract_file_paths : string -> list string;
  validate_python_code : string -> bool * string;
  extract_error_messages : string -> list string
}.

(** A call made to a collaborator, with what it returned. *)
Inductive event :=
| Start (r : outcome unit)
| RunCommand (cmd : string) (timeout : option Z) (r : outcome (Z * string))
| ReadFile (path : string) (r : outcome (option string))
| WriteFile (path content : string) (r : outcome unit)
| Cleanup
| GetCompletion (system_prompt user_prompt : string) (temperature : float)
                (max_tokens : option Z) (r : outcome string).


(** The paths read, in order. *)
Fixpoint reads (evs : list event) : list string :=
  match evs with
  | [] => []
  | ReadFile path _ :: rest => path :: reads rest
  | _ :: rest => reads rest
  end.

(** The files written, in order: path and content. *)
Fixpoint writes (evs : list event) : list (string * string) :=
  match evs with
  | [] => []
  | WriteFile path content _ :: rest => (path, content) :: writes rest
  | _ :: rest => writes rest
  end.

(** The number of completions asked of the model. *)
Fixpoint completions (evs : list event) : nat :=
  match evs with
  | [] => 0
  | GetCompletion _ _ _ _ _ :: rest => S (completions rest)
  | _ :: rest => completions rest
  end.

(** ** A small concrete world

    One repository file with a bug, a model that always answers with the
    same text, and the simplest tools. It serves to run the agent on
    concrete inputs. *)

Module Fixture.

Record sandbox := {
  files : list (string * string);
  broken : bool
}.

Fixpoint lookup_file (path : string) (fs : list (string * string)) : option string :=
  match fs with
  | [] => None
  | (p, c) :: rest => if String.eqb p path then Some c else lookup_file path rest
  end.

Definition new (instance_id : string) : sandbox :=
  {| files := [("app/models.py", "BUG"); ("empty.py", EmptyString)];
     broken := String.eqb instance_id "broken" |}.

Definition start (sb : sandbox) : outcome unit * sandbox :=
  if broken sb then (Raise (Exn "SandboxStartError" "no container"), sb)
  else (Ok tt, sb).

(** The file listing succeeds; the reproduction script fails for as long as
    [app/models.py] holds the bug. *)
Definition run_command (cmd : string) (timeout : option Z) (sb : sandbox)
    : outcome (Z * string) * sandbox :=
  if String.prefix "find " cmd then (Ok (0, "/testbed/app/models.py" +:+ nl), sb)
  else match lookup_file "app/models.py" (files sb) with
       | Some "BUG" => (Ok (1, "TypeError: boom"), sb)
       | _ => (Ok (0, "ok"), sb)
       end.

Definition read_file (path : string) (sb : sandbox) : outcome (option string) * sandbox :=
  (Ok (lookup_file path (files sb)), sb).

Definition write_file (path content : string) (sb : sandbox) : outcome unit * sandbox :=
  (Ok tt, {| files := (path, content) :: files sb; broken := broken sb |}).

#[global] Instance sandbox_api : SandboxAPI sandbox := {|
  sb_new := new;
  sb_start := start;
  sb_run_command := run_command;
  sb_read_file := read_file;
  sb_write_file := write_file;
  sb_cleanup := fun sb => {| files := []; broken := broken sb |}
|}.

#[global] Instance llm_api : LLMAPI unit := {|
  llm_new := tt;
  llm_get_completion := fun _ _ _ _ l => (Ok "FIXED", l)
|}.

(** The elements of [l] not in [seen], each kept where it first occurs. *)
Fixpoint first_occurrences (seen l : list string) : list string :=
  match l with
  | [] => []
  | x :: rest =>
      if existsb (String.eqb x) seen then first_occurrences seen rest
      else x :: first_occurrences (x :: seen) rest
  end.

(** Modelled from the spec: [extract_file_paths] of [sudodev/core/tools.py],
    which is not among the sources: the path-like tokens of the text, in the
    order of their first occurrence, duplicates removed. A token is path-like
    here when it contains [.py]. *)
Definition file_paths (text : string) : list string :=
  first_occurrences [] (List.filter (PyStr.contains ".py") (PyStr.split " " text)).

#[global] Instance tools : Tools := {|
  build_reproduce_prompt := fun issue_desc hints => issue_desc +:+ nl +:+ hints;
  build_fix_prompt := fun issue content path error_trace =>
    issue +:+ nl +:+ path +:+ nl +:+ content +:+ nl +:+ error_trace;
  import_build_locate_files_prompt :=
    Ok (fun issue repo_structure => issue +:+ nl +:+ repo_structure);
  extract_python_code := fun response => response;
  extract_file_paths := file_paths;
  validate_python_code := fun code => (true, EmptyString);
  extract_error_messages := fun output =>
    if PyStr.contains "Error" output then [output] else []
|}.

Definition issue_data : gmap string string :=
  {[ "instance_id" := "demo__demo-1";
     "problem_statement" := "Crash in app/models.py on save" ]}.

(** An issue that names four files. *)
Definition issue_four_files : gmap string string :=
  {[ "instance_id" := "demo__demo-2";
     "problem_statement" := "a.py b.py c.py d.py" ]}.

(** A model whose state is the text it answers with. *)
#[global] Instance canned_llm_api : LLMAPI string := {|
  llm_new := "Look at a.py b.py c.py d.py";
  llm_get_completion := fun _ _ _ _ l => (Ok l, l)
|}.

(** An issue whose sandbox cannot be started. *)
Definition issue_broken : gmap string string :=
  {[ "instance_id" := "broken";
     "problem_statement" := "Crash in app/models.py on save" ]}.

(** An issue without a problem statement. *)
Definition issue_bare : gmap string string :=
  {[ "instance_id" := "demo__demo-3" ]}.

(** An issue that names no file. *)
Definition issue_vague : gmap string string :=
  {[ "instance_id" := "demo__demo-4";
     "problem_statement" := "Saving crashes" ]}.

(** A file of 40,000 characters. *)
Definition big_file : string :=
  string_of_list_ascii (repeat "x"%char (200 * 200)).

(** A sandbox with a file too large to fix, a file that already holds what
    the model answers, and the file with the bug. *)
Definition crowded : sandbox :=
  {| files := [("big.py", big_file); ("done.py", " FIXED" +:+ nl);
               ("app/models.py", "BUG")];
     broken := false |}.

(** A sandbox in which every command fails and no file exists. *)
Inductive offline := Offline.

#[global] Instance offline_api : SandboxAPI offline := {|
  sb_new := fun _ => Offline;
  sb_start := fun sb => (Ok tt, sb);
  sb_run_command := fun _ _ sb => (Ok (127, "command not found"), sb);
  sb_read_file := fun _ sb => (Ok None, sb);
  sb_write_file := fun _ _ sb => (Ok tt, sb);
  sb_cleanup := fun sb => sb
|}.

End Fixture.

(** ** [sudodev/core/agent.py] *)

Module Agent.

Definition SYSTEM_PROMPT : string :=
"You are SudoDev, an Senior software engineer.
You are running inside a Linux environment with the repository checked out at /testbed.

YOUR PROCESS:
1. You will be given a GitHub Issue.
2. You must first create a reproduction script named `reproduce_issue.py` that fails when the bug is present.
3. You will then modify the source code to fix the bug by providing the COMPLETE fixed file content.
".

Definition MAX_FILE_CHARS : Z := 32000.

(** The fields of an [Agent] object. *)
Record t (Sandbox LLMClient : Type) := {
  issue : gmap string string;
  llm : LLMClient;
  sandbox : Sandbox;
  repro_script : string;
  repro_output : string;
  target_files : list string
}.
Arguments issue {Sandbox LLMClient} _.
Arguments llm {Sandbox LLMClient} _.
Arguments sandbox {Sandbox LLMClient} _.
Arguments repro_script {Sandbox LLMClient} _.
Arguments repro_output {Sandbox LLMClient} _.
Arguments target_files {Sandbox LLMClient} _.

(** The agent together with the history of the calls it made. *)
Record state (Sandbox LLMClient : Type) := {
  self : t Sandbox LLMClient;
  trace : list event
}.
Arguments self {Sandbox LLMClient} _.
Arguments trace {Sandbox LLMClient} _.

Section WithCollaborators.
Context {Sandbox LLMClient : Type}.
Context {sandbox_api : SandboxAPI Sandbox} {llm_api : LLMAPI LLMClient}.
Context {tools : Tools}.

Abbreviation agent := (t Sandbox LLMClient).
Abbreviation M := (Py (state Sandbox LLMClient)).

Definition with_sandbox (sb : Sandbox) (a : agent) : agent :=
  {| issue := issue a; llm := llm a; sandbox := sb;
     repro_script := repro_script a; repro_output := repro_output a;
     target_files := target_files a |}.

Definition with_llm (l : LLMClient) (a : agent) : agent :=
  {| issue := issue a; llm := l; sandbox := sandbox a;
     repro_script := repro_script a; repro_output := repro_output a;
     target_files := target_files a |}.

Definition with_repro_output (out : string) (a : agent) : agent :=
  {| issue := issue a; llm := llm a; sandbox := sandbox a;
     repro_script := repro_script a; repro_output := out;
     target_files := target_files a |}.

Definition with_target_files (files : list string) (a : agent) : agent :=
  {| issue := issue a; llm := llm a; sandbox := sandbox a;
     repro_script := repro_script a; repro_output := repro_output a;
     target_files := files |}.

(** A call of a method of [self.sandbox]: the sandbox moves to its new state
    and the call is appended to the trace. *)
Definition sandbox_call {A} (f : Sandbox -> outcome A * Sandbox)
    (ev : outcome A -> event) : M A :=
  fun s =>
    let '(r, sb) := f (sandbox (self s)) in
    (r, {| self := with_sandbox sb (self s); trace := trace s ++ [ev r] |}).

Definition sandbox_start : M unit := sandbox_call sb_start Start.

Definition sandbox_run_command (cmd : string) (timeout : option Z) : M (Z * string) :=
  sandbox_call (sb_run_command cmd timeout) (RunCommand cmd timeout).

Definition sandbox_read_file (path : string) : M (option string) :=
  sandbox_call (sb_read_file path) (ReadFile path).

Definition sandbox_write_file (path content : string) : M unit :=
  sandbox_call (sb_write_file path content) (WriteFile path content).

(** [self.sandbox.cleanup()] *)
Definition sandbox_cleanup (s : state Sandbox LLMClient) : state Sandbox LLMClient :=
  {| self := with_sandbox (sb_cleanup (sandbox (self s))) (self s);
     trace := trace s ++ [Cleanup] |}.

(** [self.llm.get_completion(...)] *)
Definition llm_call (system_prompt user_prompt : string) (temperature : float)
    (max_tokens : option Z) : M string :=
  fun s =>
    let '(r, l) :=
      llm_get_completion system_prompt user_prompt temperature max_tokens
                         (llm (self s)) in
    (r, {| self := with_llm l (self s);
           trace := trace s ++
                    [GetCompletion system_prompt user_prompt temperature max_tokens r] |}).

(** [self.issue[key]] *)
Definition issue_item (key : string) : M string :=
  fun s =>
    match issue (self s) !! key with
    | Some v => (Ok v, s)
    | None => (Raise (Exn "KeyError" key), s)
    end.

Definition set_repro_output (out : string) : M unit :=
  modify (fun s => {| self := with_repro_output out (self s); trace := trace s |}).

Definition set_target_files (files : list string) : M unit :=
  modify (fun s => {| self := with_target_files files (self s); trace := trace s |}).

(** [Agent(issue_data)] *)
Definition __init__ (issue_data : gmap string string) : outcome agent :=
  match issue_data !! "instance_id" with
  | Some instance_id =>
      Ok {| issue := issue_data;
            llm := llm_new;
            sandbox := sb_new instance_id;
            repro_script := "reproduce_issue.py";
            repro_output := EmptyString;
            target_files := [] |}
  | None => Raise (Exn "KeyError" "instance_id")
  end.

Definition file_tree_command (max_files : N) : string :=
  "find /testbed -type f -name '*.py' " +:+
  "! -path '*/.git/*' " +:+
  "! -path '*/__pycache__/*' " +:+
  "! -path '*/venv/*' " +:+
  "! -path '*/env/*' " +:+
  "! -name '*.pyc' " +:+
  "| head -n " +:+ PyStr.of_N max_files +:+ " " +:+
  "| sort".

Definition _get_file_tree (max_files : N) : M string :=
  (let* (exit_code, output) := sandbox_run_command (file_tree_command max_files) None in
   if exit_code =? 0 then
     let files :=
       map (PyStr.replace "/testbed/" EmptyString)
           (List.filter (fun line => PyStr.truthy (PyStr.strip line))
                        (PyStr.split nl_char (PyStr.strip output))) in
     ret (PyStr.join nl files)
   else ret "Error getting file list")%py.

Definition nonempty {A} (l : list A) : bool :=
  match l with [] => false | _ => true end.

Definition run_script_command (a : agent) : string :=
  "python " +:+ repro_script a.

Definition _reproduce_bug : M bool :=
  (let* file_list := _get_file_tree 100 in
   let* problem_statement := issue_item "problem_statement" in
   let prompt :=
     build_reproduce_prompt problem_statement
       ("Repository files (sample):" +:+ nl +:+ PyStr.take 1000 file_list) in
   let* response := llm_call SYSTEM_PROMPT prompt 0.3%float None in
   let code := extract_python_code response in
   let '(is_valid, error) := validate_python_code code in
   if negb is_valid then ret false
   else
     let* s := get in
     do sandbox_write_file (repro_script (self s)) code in
     let* (exit_code, output) :=
       sandbox_run_command (run_script_command (self s)) (Some 30) in
     if negb (exit_code =? 0) then
       do set_repro_output output in ret true
     else
       let errors := extract_error_messages output in
       if nonempty errors then
         do set_repro_output output in ret true
       else ret false)%py.

Definition _locate_files : M bool :=
  (let* issue_text := issue_item "problem_statement" in
   let potential_files := extract_file_paths issue_text in
   if nonempty potential_files then
     do set_target_files potential_files in ret true
   else
     let* file_tree := _get_file_tree 150 in
     let* build_locate_files_prompt :=
       (fun s => (import_build_locate_files_prompt, s)) in
     let* problem_statement := issue_item "problem_statement" in
     let prompt := build_locate_files_prompt problem_statement file_tree in
     let* response := llm_call SYSTEM_PROMPT prompt 0.2%float None in
     let files := extract_file_paths response in
     if nonempty files then
       do set_target_files (take 3 files) in ret true
     else ret false)%py.

(** [not original_content]: [None] and the empty string are both false. *)
Definition falsy (content : option string) : bool :=
  match content with
  | Some s => negb (PyStr.truthy s)
  | None => true
  end.

(** The body of the [for filepath in self.target_files] loop. The result is
    the value of [fixed_any] after the iteration: unchanged where the source
    says [continue], [True] at the end of the body. The diff of
    [create_diff_patch] is only printed and is left out. *)
Definition fix_file (filepath : string) (fixed_any : bool) : M bool :=
  (let* original := sandbox_read_file filepath in
   if falsy original then ret fixed_any
   else
     let original_content := default EmptyString original in
     if MAX_FILE_CHARS <? PyStr.len original_content then ret fixed_any
     else
       let* problem_statement := issue_item "problem_statement" in
       let* s := get in
       let prompt :=
         build_fix_prompt problem_statement original_content filepath
                          (repro_output (self s)) in
       let* response := llm_call SYSTEM_PROMPT prompt 0.2%float (Some 8192) in
       let fixed_code := extract_python_code response in
       if negb (PyStr.truthy fixed_code) then ret fixed_any
       else
         let '(is_valid, error) := validate_python_code fixed_code in
         if negb is_valid then ret fixed_any
         else if String.eqb (PyStr.strip fixed_code) (PyStr.strip original_content)
         then ret fixed_any
         else
           do sandbox_write_file filepath fixed_code in
           ret true)%py.

Fixpoint fix_files (files : list string) (fixed_any : bool) : M bool :=
  match files with
  | [] => ret fixed_any
  | filepath :: rest =>
      (let* fixed_any' := fix_file filepath fixed_any in
       fix_files rest fixed_any')%py
  end.

Definition _generate_fix : M bool :=
  (let* s := get in
   fix_files (target_files (self s)) false)%py.

Definition _verify_fix : M bool :=
  (let* s := get in
   let* (exit_code, output) :=
     sandbox_run_command (run_script_command (self s)) (Some 30) in
   if exit_code =? 0 then
     let errors := extract_error_messages output in
     if negb (nonempty errors) then ret true else ret false
   else ret false)%py.

(** The [try] block of [run]. *)
Definition run_body : M bool :=
  (do sandbox_start in
   let* reproduced := _reproduce_bug in
   if negb reproduced then ret false
   else
     let* located := _locate_files in
     if negb located then ret false
     else
       let* fixed := _generate_fix in
       if negb fixed then ret false
       else _verify_fix)%py.

(** [run]: the argument of [log_step] is evaluated before the [try]. *)
Definition run : M bool :=
  (do issue_item "instance_id" in
   try_except_finally run_body (fun e => ret false) sandbox_cleanup)%py.


(** *** Vocabulary of the statements *)



(** What stands behind a write of [content] to [path] in the Fix phase:
    the calls just before it are the read of [path], which returned
    [original], and the completion from which [content] was extracted;
    [content] is not empty, is valid, and differs from [original] once both
    are trimmed. *)
Definition write_guarded (before : list event) (path content : string) : Prop :=
  exists earlier original system_prompt user_prompt temperature max_tokens response,
    before = earlier ++
             [ReadFile path (Ok (Some original));
              GetCompletion system_prompt user_prompt temperature max_tokens (Ok response)]
    /\ content = extract_python_code response
    /\ content <> EmptyString
    /\ fst (validate_python_code content) = true
    /\ PyStr.strip content <> PyStr.strip original.

(** Every write among [evs] is guarded. *)
Definition writes_guarded (evs : list event) : Prop :=
  forall before path content r after,
    evs = before ++ WriteFile path content r :: after ->
    write_guarded before path content.

(** What [_get_file_tree] makes of the answer of the listing command. *)
Definition file_listing (exit_code : Z) (output : string) : string :=
  if exit_code =? 0 then
    PyStr.join nl
      (map (PyStr.replace "/testbed/" EmptyString)
           (List.filter (fun line => PyStr.truthy (PyStr.strip line))
                        (PyStr.split nl_char (PyStr.strip output))))
  else "Error getting file list".

(** *** The Fix phase as the specification tells it

    The specification describes the phase file by file: a file is read;
    it is skipped when it cannot be read or has more than 32,000
    characters; otherwise the model is asked for the fixed file, and the
    file is skipped when the answer holds no code, invalid code or the
    content the file already has; otherwise the code is written back. The
    definitions below say this in terms of what the sandbox and the model
    answer. They are compared with [_generate_fix] further down. *)

Inductive skip_reason :=
| Unreadable
| Oversized
| EmptyOutput
| InvalidOutput
| UnchangedOutput.

(** What becomes of one target file. *)
Inductive fix_outcome :=
| FixSkipped (why : skip_reason)
| FixWritten (code : string).

Definition is_written (o : fix_outcome) : bool :=
  match o with FixWritten _ => true | FixSkipped _ => false end.

(** The files written and their new content, for target files [files] with
    outcomes [outcomes]. *)
Fixpoint written (files : list string) (outcomes : list fix_outcome)
    : list (string * string) :=
  match files, outcomes with
  | filepath :: files', FixWritten code :: outcomes' =>
      (filepath, code) :: written files' outcomes'
  | _ :: files', FixSkipped _ :: outcomes' => written files' outcomes'
  | _, _ => []
  end.

(** The read of [filepath] returned [content], which is not empty and has
    at most 32,000 characters, and the model, asked for the fix of this
    file, answered [response]; [s1] is the state after these two calls. *)
Definition asked_for_fix (filepath : string) (s : state Sandbox LLMClient)
    (content response : string) (s1 : state Sandbox LLMClient) : Prop :=
  exists (sb : Sandbox) (issue_text : string) (l : LLMClient),
    sb_read_file filepath (sandbox (self s)) = (Ok (Some content), sb)
    /\ content <> EmptyString
    /\ PyStr.len content <= 32000
    /\ issue (self s) !! "problem_statement" = Some issue_text
    /\ llm_get_completion SYSTEM_PROMPT
         (build_fix_prompt issue_text content filepath (repro_output (self s)))
         0.2%float (Some 8192) (llm (self s)) = (Ok response, l)
    /\ s1 = {| self := with_llm l (with_sandbox sb (self s));
               trace := trace s
                        ++ [ReadFile filepath (Ok (Some content));
                            GetCompletion SYSTEM_PROMPT
                              (build_fix_prompt issue_text content filepath
                                                (repro_output (self s)))
                              0.2%float (Some 8192) (Ok response)] |}.

(** One target file, from state [s]: its outcome and the state afterwards. *)
Inductive fix_file_spec (filepath : string) (s : state Sandbox LLMClient)
    : fix_outcome -> state Sandbox LLMClient -> Prop :=
| skip_unreadable (content : option string) (sb : Sandbox) :
    sb_read_file filepath (sandbox (self s)) = (Ok content, sb) ->
    content = None \/ content = Some EmptyString ->
    fix_file_spec filepath s (FixSkipped Unreadable)
      {| self := with_sandbox sb (self s);
         trace := trace s ++ [ReadFile filepath (Ok content)] |}
| skip_oversized (content : string) (sb : Sandbox) :
    sb_read_file filepath (sandbox (self s)) = (Ok (Some content), sb) ->
    32000 < PyStr.len content ->
    fix_file_spec filepath s (FixSkipped Oversized)
      {| self := with_sandbox sb (self s);
         trace := trace s ++ [ReadFile filepath (Ok (Some content))] |}
| skip_empty_output (content response : string) (s1 : state Sandbox LLMClient) :
    asked_for_fix filepath s content response s1 ->
    extract_python_code response = EmptyString ->
    fix_file_spec filepath s (FixSkipped EmptyOutput) s1
| skip_invalid_output (content response : string) (s1 : state Sandbox LLMClient) :
    asked_for_fix filepath s content response s1 ->
    fst (validate_python_code (extract_python_code response)) = false ->
    fix_file_spec filepath s (FixSkipped InvalidOutput) s1
| skip_unchanged_output (content response : string) (s1 : state Sandbox LLMClient) :
    asked_for_fix filepath s content response s1 ->
    PyStr.strip (extract_python_code response) = PyStr.strip content ->
    fix_file_spec filepath s (FixSkipped UnchangedOutput) s1
| write_fix (content response : string) (s1 : state Sandbox LLMClient)
    (sb : Sandbox) :
    asked_for_fix filepath s content response s1 ->
    extract_python_code response <> EmptyString ->
    fst (validate_python_code (extract_python_code response)) = true ->
    PyStr.strip (extract_python_code response) <> PyStr.strip content ->
    sb_write_file filepath (extract_python_code response) (sandbox (self s1))
    = (Ok tt, sb) ->
    fix_file_spec filepath s (FixWritten (extract_python_code response))
      {| self := with_sandbox sb (self s1);
         trace := trace s1
                  ++ [WriteFile filepath (extract_python_code response) (Ok tt)] |}.

(** The target files one after the other, each from the state the one
    before it left. *)
Inductive fix_phase_spec
    : list string -> state Sandbox LLMClient -> list fix_outcome ->
      state Sandbox LLMClient -> Prop :=
| phase_done (s : state Sandbox LLMClient) : fix_phase_spec [] s [] s
| phase_next (filepath : string) (rest : list string)
    (s s1 s' : state Sandbox LLMClient) (o : fix_outcome) (os : list fix_outcome) :
    fix_file_spec filepath s o s1 ->
    fix_phase_spec rest s1 os s' ->
    fix_phase_spec (filepath :: rest) s (o :: os) s'.

End WithCollaborators.
End Agent.

(** ** [src/sudodev/agent.py]: the first version of the agent

    Its [run] starts the sandbox and cleans up; the phases are stubs. *)

Module StubAgent.

Record t (Sandbox LLMClient : Type) := {
  issue : gmap string string;
  llm : LLMClient;
  sandbox : Sandbox
}.
Arguments issue {Sandbox LLMClient} _.
Arguments llm {Sandbox LLMClient} _.
Arguments sandbox {Sandbox LLMClient} _.

Record state (Sandbox LLMClient : Type) := {
  self : t Sandbox LLMClient;
  trace : list event
}.
Arguments self {Sandbox LLMClient} _.
Arguments trace {Sandbox LLMClient} _.

Section WithCollaborators.
Context {Sandbox LLMClient : Type}.
Context {sandbox_api : SandboxAPI Sandbox} {llm_api : LLMAPI LLMClient}.

Abbreviation M := (Py (state Sandbox LLMClient)).

(** [Agent(issue_data)] *)
Definition __init__ (issue_data : gmap string string)
    : outcome (t Sandbox LLMClient) :=
  match issue_data !! "instance_id" with
  | Some instance_id =>
      Ok {| issue := issue_data; llm := llm_new; sandbox := sb_new instance_id |}
  | None => Raise (Exn "KeyError" "instance_id")
  end.

Definition issue_item (key : string) : M string :=
  fun s =>
    match issue (self s) !! key with
    | Some v => (Ok v, s)
    | None => (Raise (Exn "KeyError" key), s)
    end.

(** [self.sandbox.start()] *)
Definition sandbox_start : M unit :=
  fun s =>
    let '(r, sb) := sb_start (sandbox (self s)) in
    (r, {| self := {| issue := issue (self s); llm := llm (self s); sandbox := sb |};
           trace := trace s ++ [Start r] |}).

(** [self.sandbox.cleanup()] *)
Definition sandbox_cleanup (s : state Sandbox LLMClient) : state Sandbox LLMClient :=
  {| self := {| issue := issue (self s); llm := llm (self s);
                sandbox := sb_cleanup (sandbox (self s)) |};
     trace := trace s ++ [Cleanup] |}.

(** [run]: it returns [None] on every path. *)
Definition run : M unit :=
  (do issue_item "instance_id" in
   try_except_finally (do sandbox_start in ret tt) (fun e => ret tt) sandbox_cleanup)%py.

(** [_reproduce_bug], [_generate_fix] and [_verify_fix]: [pass]. *)
Definition _reproduce_bug : M unit := ret tt.
Definition _generate_fix : M unit := ret tt.
Definition _verify_fix : M unit := ret tt.

End WithCollaborators.
End StubAgent.

(** ** [sudodev/core/utils/logger.py]: [setup_logger]

    The loggers of the [logging] module are shared objects found by name;
    the model keeps them in a registry and names them. As in [logging],
    the empty name and the name [root] stand for the root logger, and a
    logger that is asked for the first time is created with level [NOTSET]
    and no handler. *)

Module Logger.

(** A [StreamHandler] with its [Formatter]. *)
Record Handler := {
  stream : string;
  fmt : string;
  datefmt : string
}.

(** What [setup_logger] reads and sets of a logger: the level and the
    handlers of the logger itself. The parent of a logger, the level it
    inherits and the handlers its records propagate to are not part of this
    model, so the statements below speak of the named logger only. *)
Record logger := {
  level : Z;
  handlers : list Handler
}.

Record registry := {
  root : logger;
  loggers : gmap string logger
}.

Definition NOTSET : Z := 0.
Definition INFO : Z := 20.

Definition is_root (name : string) : bool :=
  String.eqb name EmptyString || String.eqb name "root".

Definition fresh : logger := {| level := NOTSET; handlers := [] |}.

(** The state of the logger [logging.getLogger(name)] returns. *)
Definition getLogger (name : string) (reg : registry) : logger :=
  if is_root name then root reg else default fresh (loggers reg !! name).

(** A change made to that logger. *)
Definition update (name : string) (f : logger -> logger) (reg : registry) : registry :=
  if is_root name then {| root := f (root reg); loggers := loggers reg |}
  else {| root := root reg;
          loggers := <[name := f (getLogger name reg)]> (loggers reg) |}.

Definition setLevel (lvl : Z) (l : logger) : logger :=
  {| level := lvl; handlers := handlers l |}.

Definition addHandler (h : Handler) (l : logger) : logger :=
  {| level := level l; handlers := handlers l ++ [h] |}.

Definition stdout_handler : Handler :=
  {| stream := "sys.stdout";
     fmt := "%(asctime)s - %(levelname)s - %(message)s";
     datefmt := "%H:%M:%S" |}.

(** [setup_logger(name)]: the registry afterwards; the logger returned is
    the one of that name. *)
Definition setup_logger (name : string) (reg : registry) : registry :=
  let reg := update name (fun l => l) reg in
  let reg := update name (setLevel INFO) reg in
  match handlers (getLogger name reg) with
  | [] => update name (addHandler stdout_handler) reg
  | _ => reg
  end.

(** The logger of that name once set up: level [INFO], and one handler
    to standard output unless it had handlers. *)
Definition configured (l : logger) : logger :=
  match handlers l with
  | [] => {| level := INFO; handlers := [stdout_handler] |}
  | hs => {| level := INFO; handlers := hs |}
  end.

End Logger.

(** ** Concrete agents for the small world *)

Module Demo.
Import Fixture.

Definition agent_of (issue : gmap string string) (instance_id : string)
    : Agent.t sandbox unit :=
  {| Agent.issue := issue;
     Agent.llm := tt;
     Agent.sandbox := new instance_id;
     Agent.repro_script := "reproduce_issue.py";
     Agent.repro_output := EmptyString;
     Agent.target_files := [] |}.

(** The agent [Agent(issue_data)] builds. *)
Definition agent : Agent.t sandbox unit := agent_of issue_data "demo__demo-1".

Definition initial : Agent.state sandbox unit :=
  {| Agent.self := agent; Agent.trace := [] |}.

(** The agent for the issue that names four files. *)
Definition four_files : Agent.state sandbox unit :=
  {| Agent.self := agent_of issue_four_files "demo__demo-2"; Agent.trace := [] |}.

(** The state [_reproduce_bug] leaves behind. *)
Definition reproduced : Agent.state sandbox unit :=
  snd (Agent._reproduce_bug initial).

(** Three target files: one to fix, one that is empty, one that is absent. *)
Definition located : Agent.state sandbox unit :=
  {| Agent.self :=
       Agent.with_target_files ["empty.py"; "app/models.py"; "missing.py"]
                               (Agent.self reproduced);
     Agent.trace := [] |}.

(** The state [_generate_fix] leaves behind. *)
Definition fixed : Agent.state sandbox unit :=
  snd (Agent._generate_fix located).

(** Four target files in the crowded sandbox: too large, absent, already
    as the model answers, and one to fix. *)
Definition crowded_targets : Agent.state sandbox unit :=
  {| Agent.self :=
       {| Agent.issue := issue_data;
          Agent.llm := tt;
          Agent.sandbox := crowded;
          Agent.repro_script := "reproduce_issue.py";
          Agent.repro_output := "TypeError: boom";
          Agent.target_files := ["big.py"; "missing.py"; "done.py"; "app/models.py"] |};
     Agent.trace := [] |}.

(** The state the Fix phase leaves behind there. *)
Definition crowded_fixed : Agent.state sandbox unit :=
  snd (Agent._generate_fix crowded_targets).

(** The state a whole run leaves behind. *)
Definition finished : Agent.state sandbox unit :=
  snd (Agent.run initial).

Definition broken_start : Agent.state sandbox unit :=
  {| Agent.self := agent_of issue_broken "broken"; Agent.trace := [] |}.

Definition bare : Agent.state sandbox unit :=
  {| Agent.self := agent_of issue_bare "demo__demo-3"; Agent.trace := [] |}.

(** An agent whose issue names no file and whose model names four. *)
Definition vague : Agent.state sandbox string :=
  {| Agent.self :=
       {| Agent.issue := issue_vague;
          Agent.llm := "Look at a.py b.py c.py d.py";
          Agent.sandbox := new "demo__demo-4";
          Agent.repro_script := "reproduce_issue.py";
          Agent.repro_output := EmptyString;
          Agent.target_files := [] |};
     Agent.trace := [] |}.

(** The agent of the first issue in the sandbox where commands fail. *)
Definition offline_agent : Agent.state offline unit :=
  {| Agent.self :=
       {| Agent.issue := issue_data;
          Agent.llm := tt;
          Agent.sandbox := Offline;
          Agent.repro_script := "reproduce_issue.py";
          Agent.repro_output := EmptyString;
          Agent.target_files := [] |};
     Agent.trace := [] |}.

(** The first version of the agent, on the first issue. *)
Definition stub : StubAgent.state sandbox unit :=
  {| StubAgent.self :=
       {| StubAgent.issue := issue_data; StubAgent.llm := tt;
          StubAgent.sandbox := new "demo__demo-1" |};
     StubAgent.trace := [] |}.

(** A feedback loop with one recorded attempt that failed on a
    [TypeError], and one with two such attempts. *)
Definition type_error : string :=
  "Traceback (most recent call last):" +:+ nl +:+
  "  File reproduce_issue.py, line 7, in <module>" +:+ nl +:+
  "TypeError: unsupported operand".

Definition record_failure (n : Z) : FeedbackLoop.op :=
  FeedbackLoop.AddAttempt n "app/models.py" "FIXED" type_error false 0%float.

Definition one_attempt : FeedbackLoop.t :=
  FeedbackLoop.run_ops [record_failure 1]
    (FeedbackLoop.__init__ FeedbackLoop.default_max_attempts).

Definition two_attempts : FeedbackLoop.t :=
  FeedbackLoop.run_ops [record_failure 1; record_failure 2]
    (FeedbackLoop.__init__ FeedbackLoop.default_max_attempts).

(** Four attempts on one file. *)
Definition four_failures : list FeedbackLoop.op :=
  [record_failure 1; record_failure 2; record_failure 3; record_failure 4].

(** Three attempts, each made after [should_retry] allowed it. *)
Definition three_failures : list FeedbackLoop.op :=
  [FeedbackLoop.ShouldRetry 0; record_failure 1;
   FeedbackLoop.ShouldRetry 1; record_failure 2;
   FeedbackLoop.AnalyzeErrors type_error;
   FeedbackLoop.ShouldRetry 2; record_failure 3].

End Demo.

(** * Properties of the agent *)

Import Agent.

Section AgentFacts.
Context {Sandbox LLMClient : Type}.
Context {sandbox_api : SandboxAPI Sandbox} {llm_api : LLMAPI LLMClient}.
Context {tools : Tools}.

Abbreviation agent := (Agent.t Sandbox LLMClient).
Abbreviation M := (Py (Agent.state Sandbox LLMClient)).

(** *** The trace only grows *)




















(** *** The run as a whole *)



(** *** Reproduce and Verify *)

(** Runs a method on a state: unfolds the monad and splits on the results of
    the calls it makes. *)
Ltac reduce_state H :=
  cbv beta iota zeta in H;
  cbn [self trace issue llm sandbox repro_script repro_output target_files
       with_sandbox with_llm with_repro_output with_target_files fst snd] in H.

Ltac run_method H :=
  unfold bind, ret, raise, get, modify, issue_item, llm_call,
    sandbox_run_command, sandbox_read_file, sandbox_write_file, sandbox_start,
    sandbox_call, set_repro_output, set_target_files in H;
  reduce_state H;
  repeat
    (match type of H with
     | context [sb_start ?c] =>
         destruct (sb_start c) as [[[] | ?] ?] eqn:?
     | context [sb_run_command ?a ?b ?c] =>
         destruct (sb_run_command a b c) as [[[? ?] | ?] ?] eqn:?
     | context [sb_read_file ?a ?c] =>
         destruct (sb_read_file a c) as [[? | ?] ?] eqn:?
     | context [sb_write_file ?a ?b ?c] =>
         destruct (sb_write_file a b c) as [[[] | ?] ?] eqn:?
     | context [llm_get_completion ?a ?b ?c ?d ?e] =>
         destruct (llm_get_completion a b c d e) as [[? | ?] ?] eqn:?
     | context [issue ?a !! ?k] => destruct (issue a !! k) eqn:?
     | context [validate_python_code ?c] =>
         destruct (validate_python_code c) as [[] ?] eqn:?
     | context [import_build_locate_files_prompt] =>
         destruct import_build_locate_files_prompt eqn:?
     | context [if ?b then _ else _] => destruct b eqn:?
     end;
     reduce_state H).

Lemma nonempty_true {A} (l : list A) : nonempty l = true <-> l <> [].
Proof. destruct l; simpl; split; done. Qed.

Lemma nonempty_false {A} (l : list A) : nonempty l = false <-> l = [].
Proof. destruct l; simpl; split; done. Qed.

Lemma last_event_eq (l l' : list event) (x y : event) :
  l ++ [x] = l' ++ [y] -> x = y.
Proof. intros H. apply app_inj_tail in H. tauto. Qed.

Lemma get_file_tree_result (max_files : N) (s : state Sandbox LLMClient)
    (exit_code : Z) (output : string) (sb : Sandbox) :
  sb_run_command (file_tree_command max_files) None (sandbox (self s))
  = (Ok (exit_code, output), sb) ->
  _get_file_tree max_files s
  = (Ok (file_listing exit_code output),
     {| self := with_sandbox sb (self s);
        trace := trace s
                 ++ [RunCommand (file_tree_command max_files) None
                                (Ok (exit_code, output))] |}).
Proof.
  intros Hlist. unfold _get_file_tree, bind, sandbox_run_command, sandbox_call.
  rewrite Hlist. unfold file_listing. destruct (exit_code =? 0); reflexivity.
Qed.

(** C3. When the re-execution of the reproduction script returns its exit
    code and output, [_verify_fix] returns, and it returns [True] exactly
    when the exit code is zero and [extract_error_messages] finds nothing in
    the output; so a zero exit with error text left in the output is a
    failure. *)
Theorem verify_fix_result
    (s : state Sandbox LLMClient) (exit_code : Z) (output : string) (sb : Sandbox) :
  sb_run_command ("python " +:+ repro_script (self s)) (Some 30) (sandbox (self s))
  = (Ok (exit_code, output), sb) ->
  exists (b : bool) (s' : state Sandbox LLMClient),
    _verify_fix s = (Ok b, s')
    /\ (b = true <-> exit_code = 0 /\ extract_error_messages output = [])
    /\ (exit_code = 0 -> extract_error_messages output <> [] -> b = false).
Proof.
  intros Hrun. unfold _verify_fix, bind, get, sandbox_run_command, sandbox_call,
    run_script_command. simpl. rewrite Hrun. simpl.
  destruct (exit_code =? 0) eqn:Ez.
  - apply Z.eqb_eq in Ez.
    destruct (nonempty (extract_error_messages output)) eqn:En; simpl;
      eexists _, _; (split; [reflexivity |]).
    + apply nonempty_true in En. split; [split; [done | tauto] | done].
    + apply nonempty_false in En. split; [split; done | done].
  - apply Z.eqb_neq in Ez. eexists _, _. split; [reflexivity |].
    split; [split; [done | tauto] | done].
Qed.

(** C2. Take a reproduction attempt in which the generated script passes
    validation and is executed: the file listing is answered, the issue has
    its text, the model answers, the code extracted from the answer is
    valid, the script is written and its run returns an exit code and an
    output. Then [_reproduce_bug] returns, the run of the script under the
    30 second timeout is the last call it makes, and the result is [True]
    exactly when the exit code is not zero or [extract_error_messages]
    finds something in the output, and [False] otherwise. *)
Theorem reproduce_bug_result
    (s : state Sandbox LLMClient) (listing_code exit_code : Z)
    (listing issue_text response output : string)
    (sb1 sb2 sb3 : Sandbox) (l : LLMClient) :
  let prompt :=
    build_reproduce_prompt issue_text
      ("Repository files (sample):" +:+ nl
       +:+ PyStr.take 1000 (file_listing listing_code listing)) in
  let code := extract_python_code response in
  sb_run_command (file_tree_command 100) None (sandbox (self s))
  = (Ok (listing_code, listing), sb1) ->
  issue (self s) !! "problem_statement" = Some issue_text ->
  llm_get_completion SYSTEM_PROMPT prompt 0.3%float None (llm (self s))
  = (Ok response, l) ->
  fst (validate_python_code code) = true ->
  sb_write_file (repro_script (self s)) code sb1 = (Ok tt, sb2) ->
  sb_run_command ("python " +:+ repro_script (self s)) (Some 30) sb2
  = (Ok (exit_code, output), sb3) ->
  exists (b : bool) (s' : state Sandbox LLMClient),
    _reproduce_bug s = (Ok b, s')
    /\ (b = true <-> exit_code <> 0 \/ extract_error_messages output <> [])
    /\ (b = false <-> exit_code = 0 /\ extract_error_messages output = [])
    /\ trace s'
       = trace s
         ++ [RunCommand (file_tree_command 100) None (Ok (listing_code, listing));
             GetCompletion SYSTEM_PROMPT prompt 0.3%float None (Ok response);
             WriteFile (repro_script (self s)) code (Ok tt);
             RunCommand ("python " +:+ repro_script (self s)) (Some 30)
                        (Ok (exit_code, output))].
Proof.
  intros prompt code Hlist Hissue Hllm Hvalid Hwrite Hrun.
  subst prompt code.
  remember (PyStr.take 1000 (file_listing listing_code listing)) as sample eqn:Hsample.
  destruct (_reproduce_bug s) as [r s'] eqn:E.
  unfold _reproduce_bug, run_script_command in E.
  unfold bind at 1 in E. rewrite (get_file_tree_result _ _ _ _ _ Hlist) in E.
  rewrite <- Hsample in E.
  unfold bind at 1, issue_item at 1 in E.
  cbn [self issue with_sandbox] in E. rewrite Hissue in E.
  unfold bind at 1, llm_call at 1 in E.
  cbn [self llm with_sandbox] in E. rewrite Hllm in E.
  destruct (validate_python_code (extract_python_code response))
    as [is_valid error] eqn:Ev; cbn [fst] in Hvalid; subst is_valid.
  cbn [negb] in E.
  unfold bind at 1, get at 1 in E. unfold bind at 1 in E.
  unfold sandbox_write_file at 1, sandbox_call at 1 in E.
  cbn [self sandbox repro_script with_sandbox with_llm] in E.
  rewrite Hwrite in E.
  unfold bind at 1, sandbox_run_command at 1, sandbox_call at 1 in E.
  cbn [self sandbox repro_script with_sandbox with_llm] in E.
  rewrite Hrun in E.
  unfold bind, set_repro_output, modify, ret in E.
  destruct (exit_code =? 0) eqn:Ec;
    [apply Z.eqb_eq in Ec | apply Z.eqb_neq in Ec]; cbn [negb] in E.
  1: destruct (nonempty (extract_error_messages output)) eqn:En;
       [apply nonempty_true in En | apply nonempty_false in En].
  all: injection E as <- <-; eexists _, _; (split; [reflexivity |]).
  all: cbn [self trace repro_script with_sandbox with_llm with_repro_output].
  all: rewrite <- ?app_assoc; cbn [app].
  all: split; [| split; [| reflexivity]].
  all: split; try done; try tauto.
  all: intros [? ?]; done.
Qed.

(** *** The Fix phase *)

(** C10. A file whose read returns the empty string is treated as one whose
    read returns [None]: the iteration leaves [fixed_any] as it was, and
    the read is the only call it makes, so no completion is asked for and
    nothing is written. *)
Theorem fix_file_empty_content_skipped
    (s : state Sandbox LLMClient) (filepath : string) (fixed_any : bool)
    (content : option string) (sb : Sandbox) :
  sb_read_file filepath (sandbox (self s)) = (Ok content, sb) ->
  content = None \/ content = Some EmptyString ->
  fix_file filepath fixed_any s
  = (Ok fixed_any,
     {| self := with_sandbox sb (self s);
        trace := trace s ++ [ReadFile filepath (Ok content)] |}).
Proof.
  intros Hread Hcontent.
  unfold fix_file, bind, sandbox_read_file, sandbox_call. rewrite Hread.
  destruct Hcontent as [-> | ->]; reflexivity.
Qed.

Lemma write_guarded_later (earlier before : list event) (path content : string) :
  write_guarded before path content ->
  write_guarded (earlier ++ before) path content.
Proof.
  intros (e0 & original & sp & up & t & mt & response & -> & H).
  exists (earlier ++ e0), original, sp, up, t, mt, response.
  rewrite <- app_assoc. split; [reflexivity | exact H].
Qed.

Lemma writes_guarded_nil : writes_guarded [].
Proof. intros [| ? ?] ? ? ? ? [=]. Qed.

Lemma writes_guarded_app (evs1 evs2 : list event) :
  writes_guarded evs1 -> writes_guarded evs2 -> writes_guarded (evs1 ++ evs2).
Proof.
  intros H1 H2 before path content r after Heq.
  apply app_eq_app in Heq as [l [[E1 E2] | [E1 E2]]].
  - destruct l as [| x l'].
    + rewrite app_nil_r in E1. subst evs1. simpl in E2.
      rewrite <- (app_nil_r before). apply write_guarded_later.
      apply (H2 [] path content r after). symmetry. exact E2.
    + injection E2 as <- ->.
      apply (H1 before path content r l'). exact E1.
  - subst before. apply write_guarded_later.
    apply (H2 l path content r after). exact E2.
Qed.

Lemma writes_guarded_one (e : event) :
  (forall path content r, e <> WriteFile path content r) -> writes_guarded [e].
Proof.
  intros Hne [| x [| ? ?]] path content r after [=]. subst.
  exfalso. by eapply Hne.
Qed.

Lemma writes_guarded_two (e1 e2 : event) :
  (forall path content r, e1 <> WriteFile path content r) ->
  (forall path content r, e2 <> WriteFile path content r) ->
  writes_guarded [e1; e2].
Proof.
  intros H1 H2. apply (writes_guarded_app [e1] [e2]); by apply writes_guarded_one.
Qed.

Lemma truthy_not_empty (x : string) : PyStr.truthy x = true -> x <> EmptyString.
Proof. destruct x; simpl; done. Qed.

Lemma writes_guarded_iteration (path original sp up : string) (t : float)
    (mt : option Z) (response : string) (r : outcome unit) :
  PyStr.truthy (extract_python_code response) = true ->
  fst (validate_python_code (extract_python_code response)) = true ->
  String.eqb (PyStr.strip (extract_python_code response)) (PyStr.strip original) = false ->
  writes_guarded
    [ReadFile path (Ok (Some original));
     GetCompletion sp up t mt (Ok response);
     WriteFile path (extract_python_code response) r].
Proof.
  intros Hne Hvalid Hdiff before p c r' after Heq.
  destruct before as [| x [| y [| z before']]]; try discriminate Heq.
  - injection Heq as <- <- <- <- <-.
    exists [], original, sp, up, t, mt, response.
    split; [reflexivity |]. split; [reflexivity |].
    split; [by apply truthy_not_empty |]. split; [exact Hvalid |].
    by apply String.eqb_neq.
  - injection Heq as _ _ _ Heq. by destruct before'.
Qed.

Lemma fix_file_writes_guarded (filepath : string) (fixed_any : bool)
    (s s' : state Sandbox LLMClient) (r : outcome bool) :
  fix_file filepath fixed_any s = (r, s') ->
  exists evs, trace s' = trace s ++ evs /\ writes_guarded evs.
Proof.
  intros Hrun. unfold fix_file in Hrun. run_method Hrun.
  all: injection Hrun as <- <-; cbn [trace]; rewrite <- ?app_assoc.
  all: eexists; (split; [reflexivity |]); simpl.
  all: try (apply writes_guarded_one; intros; discriminate).
  all: try (apply writes_guarded_two; intros; discriminate).
  all: match goal with
       | H : falsy ?a = false |- _ => destruct a as [original |]; [| discriminate H]
       end.
  all: apply writes_guarded_iteration;
    repeat match goal with
           | H : negb _ = false |- _ => apply negb_false_iff in H
           | H : validate_python_code _ = _ |- _ => rewrite H
           end; done.
Qed.

Lemma fix_files_writes_guarded (files : list string) (fixed_any : bool)
    (s s' : state Sandbox LLMClient) (r : outcome bool) :
  fix_files files fixed_any s = (r, s') ->
  exists evs, trace s' = trace s ++ evs /\ writes_guarded evs.
Proof.
  revert fixed_any s. induction files as [| f rest IH]; intros fixed_any s; simpl.
  - intros [= <- <-]. exists []. rewrite app_nil_r.
    split; [reflexivity | apply writes_guarded_nil].
  - unfold bind. destruct (fix_file f fixed_any s) as [[b | e] s1] eqn:E.
    + intros Hrest.
      destruct (fix_file_writes_guarded _ _ _ _ _ E) as (evs1 & T1 & G1).
      destruct (IH _ _ Hrest) as (evs2 & T2 & G2).
      exists (evs1 ++ evs2). rewrite T2, T1, <- app_assoc.
      split; [reflexivity | by apply writes_guarded_app].
    + intros [= <- <-]. exact (fix_file_writes_guarded _ _ _ _ _ E).
Qed.

(** C5. In the Fix phase every write is preceded by the read of the same
    file and by the completion the written code was extracted from, and the
    written code is not empty, passed [validate_python_code], and differs
    from the content read once both are trimmed. Code that equals the
    content read after trimming is therefore never written. This holds
    however the phase ends. *)
Theorem generate_fix_writes_guarded
    (s s' : state Sandbox LLMClient) (r : outcome bool) :
  _generate_fix s = (r, s') ->
  exists evs, trace s' = trace s ++ evs /\ writes_guarded evs.
Proof.
  unfold _generate_fix, bind, get. apply fix_files_writes_guarded.
Qed.

(** A file of more than [MAX_FILE_CHARS] characters is skipped after the
    read. *)
Lemma fix_file_too_large_skipped
    (s : state Sandbox LLMClient) (filepath : string) (fixed_any : bool)
    (content : string) (sb : Sandbox) :
  sb_read_file filepath (sandbox (self s)) = (Ok (Some content), sb) ->
  MAX_FILE_CHARS < PyStr.len content ->
  fix_file filepath fixed_any s
  = (Ok fixed_any,
     {| self := with_sandbox sb (self s);
        trace := trace s ++ [ReadFile filepath (Ok (Some content))] |}).
Proof.
  intros Hread Hlen.
  unfold fix_file, bind, sandbox_read_file, sandbox_call. rewrite Hread.
  apply Z.ltb_lt in Hlen. simpl. rewrite Hlen.
  destruct (negb (PyStr.truthy content)); reflexivity.
Qed.

(** Model output that is empty, invalid or equal to the content read after
    trimming is skipped after the completion. *)
Lemma fix_file_rejected_output_skipped
    (s : state Sandbox LLMClient) (filepath : string) (fixed_any : bool)
    (content issue_text response : string) (sb : Sandbox) (l : LLMClient) :
  sb_read_file filepath (sandbox (self s)) = (Ok (Some content), sb) ->
  content <> EmptyString ->
  PyStr.len content <= MAX_FILE_CHARS ->
  issue (self s) !! "problem_statement" = Some issue_text ->
  llm_get_completion SYSTEM_PROMPT
    (build_fix_prompt issue_text content filepath (repro_output (self s)))
    0.2%float (Some 8192) (llm (self s)) = (Ok response, l) ->
  extract_python_code response = EmptyString
  \/ fst (validate_python_code (extract_python_code response)) = false
  \/ PyStr.strip (extract_python_code response) = PyStr.strip content ->
  fix_file filepath fixed_any s
  = (Ok fixed_any,
     {| self := with_llm l (with_sandbox sb (self s));
        trace := trace s
                 ++ [ReadFile filepath (Ok (Some content));
                     GetCompletion SYSTEM_PROMPT
                       (build_fix_prompt issue_text content filepath
                                         (repro_output (self s)))
                       0.2%float (Some 8192) (Ok response)] |}).
Proof.
  intros Hread Hne Hlen Hissue Hllm Hreject.
  unfold fix_file, bind, sandbox_read_file, sandbox_call, issue_item, get, llm_call.
  rewrite Hread.
  assert (Ht : falsy (Some content) = false) by (destruct content; done).
  rewrite Ht. apply Z.ltb_ge in Hlen.
  change (default EmptyString (Some content)) with content.
  rewrite Hlen. cbv beta iota zeta.
  cbn [self issue llm repro_output trace with_sandbox with_llm].
  rewrite Hissue. cbv beta iota zeta.
  cbn [self issue llm repro_output trace with_sandbox with_llm].
  rewrite Hllm. rewrite <- app_assoc. simpl.
  destruct (PyStr.truthy (extract_python_code response)) eqn:Etruthy; simpl;
    [| reflexivity].
  destruct (validate_python_code (extract_python_code response)) as [[] err] eqn:Ev;
    simpl; [| reflexivity].
  destruct Hreject as [He | [Hv | Hsame]].
  - rewrite He in Etruthy. discriminate Etruthy.
  - simpl in Hv. discriminate Hv.
  - rewrite Hsame, String.eqb_refl. reflexivity.
Qed.

Lemma reads_app (evs1 evs2 : list event) :
  reads (evs1 ++ evs2) = reads evs1 ++ reads evs2.
Proof.
  induction evs1 as [| [] rest IH]; simpl; rewrite ?IH; reflexivity.
Qed.

Lemma writes_app (evs1 evs2 : list event) :
  writes (evs1 ++ evs2) = writes evs1 ++ writes evs2.
Proof.
  induction evs1 as [| [] rest IH]; simpl; rewrite ?IH; reflexivity.
Qed.

(** One iteration that returns reads its file and nothing else; it either
    writes nothing and leaves [fixed_any] alone, or writes and sets it. *)
Lemma fix_file_reads_writes (filepath : string) (fixed_any b : bool)
    (s s' : state Sandbox LLMClient) :
  fix_file filepath fixed_any s = (Ok b, s') ->
  exists evs,
    trace s' = trace s ++ evs
    /\ reads evs = [filepath]
    /\ ((b = fixed_any /\ writes evs = []) \/ (b = true /\ writes evs <> [])).
Proof.
  intros Hrun. unfold fix_file in Hrun. run_method Hrun.
  all: try discriminate Hrun.
  all: injection Hrun as <- <-; cbn [trace]; rewrite <- ?app_assoc.
  all: eexists; (split; [reflexivity |]); simpl.
  all: split; [reflexivity |].
  all: first [left; split; reflexivity | right; split; [reflexivity | discriminate]].
Qed.

Lemma fix_files_reads_writes (files : list string) (fixed_any b : bool)
    (s s' : state Sandbox LLMClient) :
  fix_files files fixed_any s = (Ok b, s') ->
  exists evs,
    trace s' = trace s ++ evs
    /\ reads evs = files
    /\ (b = true <-> fixed_any = true \/ writes evs <> []).
Proof.
  revert fixed_any s. induction files as [| f rest IH]; intros fixed_any s; simpl.
  - intros [= <- <-]. exists []. rewrite app_nil_r. simpl.
    split; [reflexivity |]. split; [reflexivity |]. split; [tauto | intros [|]; done].
  - unfold bind. destruct (fix_file f fixed_any s) as [[b1 | e] s1] eqn:E; [| done].
    intros Hrest.
    destruct (fix_file_reads_writes _ _ _ _ _ E) as (evs1 & T1 & R1 & W1).
    destruct (IH _ _ Hrest) as (evs2 & T2 & R2 & W2).
    exists (evs1 ++ evs2). rewrite T2, T1, <- app_assoc, reads_app, writes_app, R1, R2.
    split; [reflexivity |]. split; [reflexivity |].
    rewrite W2. destruct W1 as [[-> W1] | [-> W1]].
    + rewrite W1. simpl. tauto.
    + split; [intros _; right | tauto].
      destruct (writes evs1); [done | discriminate].
Qed.

(** After the read and the completion of [asked_for_fix], the iteration
    goes on with the checks of the extracted code. *)
Lemma fix_file_asked (filepath : string) (fixed_any : bool)
    (s s1 : state Sandbox LLMClient) (content response : string) :
  asked_for_fix filepath s content response s1 ->
  fix_file filepath fixed_any s
  = (if negb (PyStr.truthy (extract_python_code response)) then ret fixed_any
     else if negb (fst (validate_python_code (extract_python_code response)))
     then ret fixed_any
     else if String.eqb (PyStr.strip (extract_python_code response))
                        (PyStr.strip content)
     then ret fixed_any
     else bind (sandbox_write_file filepath (extract_python_code response))
               (fun _ => ret true)) s1.
Proof.
  intros (sb & issue_text & l & Hread & Hne & Hlen & Hissue & Hllm & ->).
  unfold fix_file. unfold bind at 1. unfold sandbox_read_file at 1, sandbox_call at 1.
  rewrite Hread.
  assert (Ht : falsy (Some content) = false) by (destruct content; done).
  rewrite Ht. change (default EmptyString (Some content)) with content.
  apply Z.ltb_ge in Hlen. unfold MAX_FILE_CHARS. rewrite Hlen.
  unfold bind at 1, issue_item at 1. cbn [self issue with_sandbox]. rewrite Hissue.
  unfold bind at 1, get at 1. unfold bind at 1, llm_call at 1.
  cbn [self llm repro_output trace with_sandbox]. rewrite Hllm.
  rewrite <- app_assoc. cbn [app].
  destruct (negb (PyStr.truthy (extract_python_code response))); [reflexivity |].
  destruct (validate_python_code (extract_python_code response)) as [[] error];
    reflexivity.
Qed.

(** One target file: the iteration does what the specification says. *)
Lemma fix_file_refines (filepath : string) (fixed_any : bool)
    (s s' : state Sandbox LLMClient) (o : fix_outcome) :
  fix_file_spec filepath s o s' ->
  fix_file filepath fixed_any s = (Ok (fixed_any || is_written o), s')
  /\ exists evs,
       trace s' = trace s ++ evs
       /\ reads evs = [filepath]
       /\ writes evs = written [filepath] [o].
Proof.
  intros Hspec.
  destruct Hspec as [content sb Hread Hcontent | content sb Hread Hlen
                    | content response s1 Hasked Hcode
                    | content response s1 Hasked Hcode
                    | content response s1 Hasked Hcode
                    | content response s1 sb Hasked Hne Hvalid Hdiff Hwrite].
  - split.
    + unfold fix_file, bind, sandbox_read_file, sandbox_call. rewrite Hread.
      rewrite orb_false_r. destruct Hcontent as [-> | ->]; reflexivity.
    + eexists. split; [reflexivity |]. split; reflexivity.
  - split.
    + rewrite orb_false_r. apply fix_file_too_large_skipped; assumption.
    + eexists. split; [reflexivity |]. split; reflexivity.
  - split.
    + rewrite (fix_file_asked _ _ _ _ _ _ Hasked), Hcode, orb_false_r. reflexivity.
    + destruct Hasked as (sb & issue_text & l & _ & _ & _ & _ & _ & ->).
      eexists. split; [reflexivity |]. split; reflexivity.
  - split.
    + rewrite (fix_file_asked _ _ _ _ _ _ Hasked), Hcode, orb_false_r.
      destruct (negb (PyStr.truthy (extract_python_code response))); reflexivity.
    + destruct Hasked as (sb & issue_text & l & _ & _ & _ & _ & _ & ->).
      eexists. split; [reflexivity |]. split; reflexivity.
  - split.
    + rewrite (fix_file_asked _ _ _ _ _ _ Hasked), Hcode, String.eqb_refl, orb_false_r.
      destruct (negb (PyStr.truthy (extract_python_code response))); [reflexivity |].
      destruct (negb (fst (validate_python_code (extract_python_code response))));
        reflexivity.
    + destruct Hasked as (sb & issue_text & l & _ & _ & _ & _ & _ & ->).
      eexists. split; [reflexivity |]. split; reflexivity.
  - split.
    + rewrite (fix_file_asked _ _ _ _ _ _ Hasked), Hvalid, orb_true_r.
      assert (Ht : PyStr.truthy (extract_python_code response) = true)
        by (destruct (extract_python_code response); done).
      rewrite Ht. apply String.eqb_neq in Hdiff. rewrite Hdiff. cbn [negb].
      unfold bind, sandbox_write_file, sandbox_call. rewrite Hwrite. reflexivity.
    + destruct Hasked as (sb0 & issue_text & l & _ & _ & _ & _ & _ & ->).
      cbn [trace]. rewrite <- app_assoc. cbn [app].
      eexists. split; [reflexivity |]. split; reflexivity.
Qed.

Lemma written_cons (filepath : string) (rest : list string)
    (o : fix_outcome) (os : list fix_outcome) :
  written (filepath :: rest) (o :: os) = written [filepath] [o] ++ written rest os.
Proof. destruct o; reflexivity. Qed.

(** The loop does what the specification says, file after file. *)
Lemma fix_files_refine (files : list string) (s s' : state Sandbox LLMClient)
    (outcomes : list fix_outcome) :
  fix_phase_spec files s outcomes s' ->
  (forall fixed_any,
     fix_files files fixed_any s
     = (Ok (fixed_any || existsb is_written outcomes), s'))
  /\ (existsb is_written outcomes = true <-> written files outcomes <> [])
  /\ exists evs,
       trace s' = trace s ++ evs
       /\ reads evs = files
       /\ writes evs = written files outcomes.
Proof.
  induction 1 as [s | filepath rest s s1 s' o os Hfile Hrest IH].
  - split; [intros fixed_any; simpl; rewrite orb_false_r; reflexivity |].
    split; [simpl; split; done |].
    exists []. rewrite app_nil_r. repeat split.
  - destruct IH as (IHrun & IHiff & evs2 & T2 & R2 & W2).
    split; [| split].
    + intros fixed_any. cbn [fix_files]. unfold bind.
      destruct (fix_file_refines filepath fixed_any _ _ _ Hfile) as [-> _].
      rewrite IHrun. cbn [existsb]. rewrite orb_assoc. reflexivity.
    + rewrite written_cons. cbn [existsb]. rewrite orb_true_iff, IHiff.
      destruct o as [why | code]; simpl.
      * split; [intros [Hf | Hne]; [discriminate Hf | exact Hne] | by right].
      * split; [discriminate | by left].
    + destruct (fix_file_refines filepath false _ _ _ Hfile)
        as (_ & evs1 & T1 & R1 & W1).
      exists (evs1 ++ evs2).
      rewrite T2, T1, <- app_assoc, reads_app, writes_app, R1, R2, W1, W2.
      split; [reflexivity |]. split; [reflexivity |].
      symmetry. apply written_cons.
Qed.

(** C6. Let the sandbox and the model answer so that each target file, in
    the order of the list, is either skipped (its read returns nothing or
    the empty string; it has more than 32,000 characters; the model's
    answer holds no code, code that does not pass validation, or the
    content the file has once both are trimmed) or is written with the
    code extracted from the answer. Then the Fix phase returns: a skipped
    file does not stop the files after it. It has read every target file,
    once and in order, it has written exactly the files the specification
    says are written, and it returns [True] exactly when at least one file
    was written. *)
Theorem generate_fix_result
    (s s' : state Sandbox LLMClient) (outcomes : list fix_outcome) :
  fix_phase_spec (target_files (self s)) s outcomes s' ->
  exists (b : bool) (evs : list event),
    _generate_fix s = (Ok b, s')
    /\ trace s' = trace s ++ evs
    /\ reads evs = target_files (self s)
    /\ writes evs = written (target_files (self s)) outcomes
    /\ (b = true <-> writes evs <> [])
    /\ (b = true <-> existsb is_written outcomes = true).
Proof.
  intros Hspec.
  destruct (fix_files_refine _ _ _ _ Hspec) as (Hrun & Hiff & evs & T & R & W).
  exists (existsb is_written outcomes), evs.
  split; [unfold _generate_fix, bind, get; apply (Hrun false) |].
  split; [exact T |]. split; [exact R |]. split; [exact W |].
  split; [rewrite W; exact Hiff | tauto].
Qed.

Lemma fix_file_returns_as_specified (filepath : string) (fixed_any b : bool)
    (s s' : state Sandbox LLMClient) :
  fix_file filepath fixed_any s = (Ok b, s') ->
  exists o, fix_file_spec filepath s o s'.
Proof.
  intros Hrun.
  destruct (sb_read_file filepath (sandbox (self s))) as [[content | e] sb] eqn:Hread.
  2: { unfold fix_file, bind, sandbox_read_file, sandbox_call in Hrun.
       rewrite Hread in Hrun. discriminate Hrun. }
  assert (Hskip : content = None \/ content = Some EmptyString ->
                  exists o, fix_file_spec filepath s o s').
  { intros Hcontent. exists (FixSkipped Unreadable).
    assert (Hs : s' = {| self := with_sandbox sb (self s);
                         trace := trace s ++ [ReadFile filepath (Ok content)] |}).
    { unfold fix_file, bind, sandbox_read_file, sandbox_call in Hrun.
      rewrite Hread in Hrun. destruct Hcontent as [-> | ->]; by injection Hrun. }
    rewrite Hs. by apply skip_unreadable. }
  destruct content as [[| c content] |]; [by apply Hskip; right | | by apply Hskip; left].
  clear Hskip. set (text := String c content) in *.
  destruct (Z.ltb_spec 32000 (PyStr.len text)) as [Hlen | Hlen].
  { rewrite (fix_file_too_large_skipped _ _ _ _ _ Hread Hlen) in Hrun.
    injection Hrun as _ <-. exists (FixSkipped Oversized). by apply skip_oversized. }
  destruct (issue (self s) !! "problem_statement") as [issue_text |] eqn:Hissue.
  2: { unfold fix_file, bind, sandbox_read_file, sandbox_call, issue_item in Hrun.
       rewrite Hread in Hrun. apply Z.ltb_ge in Hlen. unfold MAX_FILE_CHARS in Hrun.
       cbn [falsy PyStr.truthy text negb default option_map id] in Hrun.
       change (default EmptyString (Some text)) with text in Hrun.
       rewrite Hlen in Hrun. cbn [self issue with_sandbox] in Hrun.
       rewrite Hissue in Hrun. discriminate Hrun. }
  destruct (llm_get_completion SYSTEM_PROMPT
              (build_fix_prompt issue_text text filepath (repro_output (self s)))
              0.2%float (Some 8192) (llm (self s))) as [[response | e] l] eqn:Hllm.
  2: { unfold fix_file, bind, sandbox_read_file, sandbox_call, issue_item, get,
         llm_call in Hrun.
       rewrite Hread in Hrun. apply Z.ltb_ge in Hlen. unfold MAX_FILE_CHARS in Hrun.
       cbn [falsy PyStr.truthy text negb] in Hrun.
       change (default EmptyString (Some text)) with text in Hrun.
       rewrite Hlen in Hrun. cbn [self issue llm repro_output with_sandbox] in Hrun.
       rewrite Hissue in Hrun. cbn [self issue llm repro_output with_sandbox] in Hrun.
       rewrite Hllm in Hrun. discriminate Hrun. }
  assert (Hasked : asked_for_fix filepath s text response
            {| self := with_llm l (with_sandbox sb (self s));
               trace := trace s
                        ++ [ReadFile filepath (Ok (Some text));
                            GetCompletion SYSTEM_PROMPT
                              (build_fix_prompt issue_text text filepath
                                                (repro_output (self s)))
                              0.2%float (Some 8192) (Ok response)] |}).
  { exists sb, issue_text, l. repeat (split; [done |]). reflexivity. }
  rewrite (fix_file_asked _ _ _ _ _ _ Hasked) in Hrun.
  destruct (PyStr.truthy (extract_python_code response)) eqn:Ht; cbn [negb] in Hrun.
  2: { injection Hrun as _ <-. exists (FixSkipped EmptyOutput).
       apply (skip_empty_output _ _ text response); [exact Hasked |].
       by destruct (extract_python_code response). }
  destruct (fst (validate_python_code (extract_python_code response))) eqn:Hv;
    cbn [negb] in Hrun.
  2: { injection Hrun as _ <-. exists (FixSkipped InvalidOutput).
       by apply (skip_invalid_output _ _ text response). }
  destruct (String.eqb_spec (PyStr.strip (extract_python_code response))
                            (PyStr.strip text)) as [Hsame | Hdiff].
  { injection Hrun as _ <-. exists (FixSkipped UnchangedOutput).
    by apply (skip_unchanged_output _ _ text response). }
  unfold bind, sandbox_write_file, sandbox_call in Hrun.
  cbn [self sandbox trace with_llm with_sandbox] in Hrun.
  destruct (sb_write_file filepath (extract_python_code response) sb)
    as [[[] | e] sb'] eqn:Hwrite; [| discriminate Hrun].
  injection Hrun as _ <-. exists (FixWritten (extract_python_code response)).
  apply (write_fix _ _ text response _ sb' Hasked); try done.
  by destruct (extract_python_code response).
Qed.

(** Every run of the Fix phase that returns is one the specification
    describes: the statement above leaves out only the runs in which a
    collaborator raises or the issue has no problem statement. *)
Lemma generate_fix_returns_as_specified
    (s s' : state Sandbox LLMClient) (b : bool) :
  _generate_fix s = (Ok b, s') ->
  exists outcomes, fix_phase_spec (target_files (self s)) s outcomes s'.
Proof.
  unfold _generate_fix, bind, get.
  generalize (target_files (self s)) as files. generalize false as fixed_any.
  intros fixed_any files. revert fixed_any s.
  induction files as [| filepath rest IH]; intros fixed_any s; simpl.
  - intros [= _ <-]. exists []. constructor.
  - unfold bind. destruct (fix_file filepath fixed_any s) as [[b1 | e] s1] eqn:E;
      [| discriminate].
    intros Hrest.
    destruct (fix_file_returns_as_specified _ _ _ _ _ E) as [o Ho].
    destruct (IH _ _ Hrest) as [os Hos].
    exists (o :: os). by econstructor.
Qed.


(** *** The Locate phase *)

(** The heuristic branch: the paths found in the issue text become the
    target files as they are. *)
Lemma locate_files_heuristic (s : state Sandbox LLMClient) (issue_text : string) :
  issue (self s) !! "problem_statement" = Some issue_text ->
  extract_file_paths issue_text <> [] ->
  _locate_files s
  = (Ok true,
     {| self := with_target_files (extract_file_paths issue_text) (self s);
        trace := trace s |}).
Proof.
  intros Hissue Hpaths. unfold _locate_files, bind, issue_item. rewrite Hissue.
  apply nonempty_true in Hpaths. rewrite Hpaths. reflexivity.
Qed.

(** The fallback branch: the paths found in the completion are cut to 3. *)
Lemma locate_files_fallback_capped
    (s s' : state Sandbox LLMClient) (issue_text : string) :
  issue (self s) !! "problem_statement" = Some issue_text ->
  extract_file_paths issue_text = [] ->
  _locate_files s = (Ok true, s') ->
  (length (target_files (self s')) <= 3)%nat.
Proof.
  intros Hissue Hpaths Hrun. unfold _locate_files, _get_file_tree in Hrun.
  run_method Hrun.
  all: try discriminate Hrun.
  all: try (rewrite Hissue in *; simplify_eq).
  all: try match goal with
           | H : nonempty (extract_file_paths _) = true |- _ =>
               apply nonempty_true in H; congruence
           end.
  all: injection Hrun as <-; cbn [self target_files with_target_files].
  all: rewrite length_take; lia.
Qed.

(** *** What the phases leave alone *)

Lemma completions_app (evs1 evs2 : list event) :
  completions (evs1 ++ evs2) = (completions evs1 + completions evs2)%nat.
Proof.
  induction evs1 as [| [] rest IH]; simpl; rewrite ?IH; reflexivity.
Qed.

(** Closes the goals left by [run_method]: the fields, the events added
    and what is asked of them. *)
Ltac close_trace :=
  cbn [self trace issue llm sandbox repro_script repro_output target_files
       with_sandbox with_llm with_repro_output with_target_files];
  rewrite <- ?app_assoc; cbn [app].

Lemma reproduce_bug_frame (s s' : state Sandbox LLMClient) (r : outcome bool) :
  _reproduce_bug s = (r, s') ->
  issue (self s') = issue (self s)
  /\ repro_script (self s') = repro_script (self s)
  /\ target_files (self s') = target_files (self s)
  /\ exists evs,
       trace s' = trace s ++ evs
       /\ (forall p c, In (p, c) (writes evs) -> p = repro_script (self s))
       /\ (completions evs <= 1)%nat.
Proof.
  intros Hrun. unfold _reproduce_bug, _get_file_tree in Hrun. run_method Hrun.
  all: injection Hrun as <- <-; close_trace.
  all: repeat (split; [reflexivity |]).
  all: first [ eexists; split; [reflexivity |]
             | exists []; split; [symmetry; apply app_nil_r |] ].
  all: simpl; split; [| lia].
  all: intros p c Hin; repeat destruct Hin as [Hin | Hin]; try done.
  all: injection Hin as <- _; reflexivity.
Qed.

(** [_locate_files] writes nothing, asks the model at most once, and
    changes the target files only when it succeeds, to a list that is not
    empty. *)
Lemma locate_files_frame (s s' : state Sandbox LLMClient) (r : outcome bool) :
  _locate_files s = (r, s') ->
  issue (self s') = issue (self s)
  /\ repro_script (self s') = repro_script (self s)
  /\ repro_output (self s') = repro_output (self s)
  /\ (r = Ok true -> target_files (self s') <> [])
  /\ (r <> Ok true -> target_files (self s') = target_files (self s))
  /\ exists evs,
       trace s' = trace s ++ evs
       /\ writes evs = []
       /\ (completions evs <= 1)%nat.
Proof.
  intros Hrun. unfold _locate_files, _get_file_tree in Hrun. run_method Hrun.
  all: injection Hrun as <- <-; close_trace.
  all: repeat (split; [reflexivity |]).
  all: split;
    [ intros Hr;
      first [ discriminate Hr
            | match goal with
              | H : nonempty ?l = true |- ?l <> [] => by apply nonempty_true
              | H : nonempty ?l = true |- take 3 ?l <> [] =>
                  destruct l; [discriminate H | discriminate]
              end ] |].
  all: split; [first [intros _; reflexivity | intros Hne; by destruct Hne] |].
  all: first [ eexists; split; [reflexivity |]
             | exists []; split; [symmetry; apply app_nil_r |] ].
  all: simpl; split; [reflexivity | lia].
Qed.

(** [_verify_fix] makes one call, the run of the script; it succeeds only
    on exit code 0 and an output without error messages. *)
Lemma verify_fix_frame (s s' : state Sandbox LLMClient) (r : outcome bool) :
  _verify_fix s = (r, s') ->
  issue (self s') = issue (self s)
  /\ repro_script (self s') = repro_script (self s)
  /\ repro_output (self s') = repro_output (self s)
  /\ target_files (self s') = target_files (self s)
  /\ exists res,
       trace s' = trace s
                  ++ [RunCommand ("python " +:+ repro_script (self s)) (Some 30) res]
       /\ (r = Ok true ->
           exists output, res = Ok (0, output)
                          /\ extract_error_messages output = []).
Proof.
  intros Hrun. unfold _verify_fix, run_script_command in Hrun. run_method Hrun.
  all: injection Hrun as <- <-; close_trace.
  all: repeat (split; [reflexivity |]).
  all: eexists; split; [reflexivity |].
  all: intros Hr; try discriminate Hr.
  eexists. split.
  - repeat f_equal. by apply Z.eqb_eq.
  - apply nonempty_false. by apply negb_true_iff.
Qed.

Lemma fix_file_frame (filepath : string) (fixed_any : bool)
    (s s' : state Sandbox LLMClient) (r : outcome bool) :
  fix_file filepath fixed_any s = (r, s') ->
  issue (self s') = issue (self s)
  /\ repro_script (self s') = repro_script (self s)
  /\ repro_output (self s') = repro_output (self s)
  /\ target_files (self s') = target_files (self s)
  /\ exists evs,
       trace s' = trace s ++ evs
       /\ (forall p c, In (p, c) (writes evs) -> p = filepath)
       /\ (completions evs <= 1)%nat.
Proof.
  intros Hrun. unfold fix_file in Hrun. run_method Hrun.
  all: injection Hrun as <- <-; close_trace.
  all: repeat (split; [reflexivity |]).
  all: eexists; split; [reflexivity |].
  all: simpl; split; [| lia].
  all: intros p c Hin; repeat destruct Hin as [Hin | Hin]; try done.
  all: injection Hin as <- _; reflexivity.
Qed.

Lemma fix_files_frame (files : list string) (fixed_any : bool)
    (s s' : state Sandbox LLMClient) (r : outcome bool) :
  fix_files files fixed_any s = (r, s') ->
  issue (self s') = issue (self s)
  /\ repro_script (self s') = repro_script (self s)
  /\ repro_output (self s') = repro_output (self s)
  /\ target_files (self s') = target_files (self s)
  /\ exists evs,
       trace s' = trace s ++ evs
       /\ (forall p c, In (p, c) (writes evs) -> In p files)
       /\ (completions evs <= length files)%nat.
Proof.
  revert fixed_any s. induction files as [| f rest IH]; intros fixed_any s; simpl.
  - intros [= <- <-]. repeat (split; [reflexivity |]).
    exists []. rewrite app_nil_r. simpl. split; [reflexivity |]. split; [done | lia].
  - unfold bind. destruct (fix_file f fixed_any s) as [[b | e] s1] eqn:E.
    + intros Hrest.
      destruct (fix_file_frame _ _ _ _ _ E)
        as (I1 & S1 & O1 & T1 & evs1 & Tr1 & W1 & C1).
      destruct (IH _ _ Hrest) as (I2 & S2 & O2 & T2 & evs2 & Tr2 & W2 & C2).
      rewrite I2, S2, O2, T2. repeat (split; [assumption |]).
      exists (evs1 ++ evs2). rewrite Tr2, Tr1, <- app_assoc, writes_app, completions_app.
      split; [reflexivity |]. split; [| lia].
      intros p c Hin. apply in_app_or in Hin as [Hin | Hin].
      * left. symmetry. exact (W1 _ _ Hin).
      * right. exact (W2 _ _ Hin).
    + intros [= <- <-].
      destruct (fix_file_frame _ _ _ _ _ E)
        as (I1 & S1 & O1 & T1 & evs1 & Tr1 & W1 & C1).
      repeat (split; [assumption |]). exists evs1.
      split; [exact Tr1 |]. split; [| lia].
      intros p c Hin. left. symmetry. exact (W1 _ _ Hin).
Qed.

(** However the Fix phase ends, it leaves the issue, the script name, the
    reproduction output and the target list as they were; the only files
    it writes are target files; and it asks the model at most once for
    each target file. *)
Theorem generate_fix_touches_only_targets
    (s s' : state Sandbox LLMClient) (r : outcome bool) :
  _generate_fix s = (r, s') ->
  issue (self s') = issue (self s)
  /\ repro_script (self s') = repro_script (self s)
  /\ repro_output (self s') = repro_output (self s)
  /\ target_files (self s') = target_files (self s)
  /\ exists evs,
       trace s' = trace s ++ evs
       /\ (forall p c, In (p, c) (writes evs) -> In p (target_files (self s)))
       /\ (completions evs <= length (target_files (self s)))%nat.
Proof.
  unfold _generate_fix, bind, get. apply fix_files_frame.
Qed.

(** [_reproduce_bug] succeeds only after writing a script that passed
    [validate_python_code] and running it, and then keeps the output of
    that run in [repro_output]; when it returns [False], [repro_output] is
    as it was. *)
Theorem reproduce_bug_keeps_output (s s' : state Sandbox LLMClient) (b : bool) :
  _reproduce_bug s = (Ok b, s') ->
  if b then
    exists evs code exit_code output,
      trace s' = trace s ++ evs
                 ++ [WriteFile (repro_script (self s)) code (Ok tt);
                     RunCommand ("python " +:+ repro_script (self s)) (Some 30)
                                (Ok (exit_code, output))]
      /\ writes evs = []
      /\ fst (validate_python_code code) = true
      /\ repro_output (self s') = output
  else repro_output (self s') = repro_output (self s).
Proof.
  intros Hrun. unfold _reproduce_bug, _get_file_tree, run_script_command in Hrun.
  run_method Hrun.
  all: try discriminate Hrun.
  all: injection Hrun as <- <-; close_trace.
  all: try reflexivity.
  all: try match goal with H : negb _ = _ |- _ => discriminate H end.
  all: eexists [_; _], _, _, _; split; [reflexivity |].
  all: split; [reflexivity |].
  all: split; [| reflexivity].
  all: match goal with H : validate_python_code _ = _ |- _ => rewrite H end.
  all: reflexivity.
Qed.

Lemma sandbox_start_frame (s s' : state Sandbox LLMClient) (r : outcome unit) :
  sandbox_start s = (r, s') ->
  issue (self s') = issue (self s)
  /\ repro_script (self s') = repro_script (self s)
  /\ target_files (self s') = target_files (self s)
  /\ trace s' = trace s ++ [Start r].
Proof.
  unfold sandbox_start, sandbox_call.
  destruct (sb_start (sandbox (self s))) as [r0 sb]. intros [= <- <-]. done.
Qed.

(** The [try] block as a whole. *)
Lemma run_body_frame (s s' : state Sandbox LLMClient) (r : outcome bool) :
  run_body s = (r, s') ->
  issue (self s') = issue (self s)
  /\ repro_script (self s') = repro_script (self s)
  /\ exists evs,
       trace s' = trace s ++ evs
       /\ (forall p c, In (p, c) (writes evs) ->
                       p = repro_script (self s) \/ In p (target_files (self s')))
       /\ (completions evs <= 2 + length (target_files (self s')))%nat
       /\ (r = Ok true ->
           exists evs0 output,
             evs = evs0 ++ [RunCommand ("python " +:+ repro_script (self s))
                                       (Some 30) (Ok (0, output))]
             /\ extract_error_messages output = []
             /\ exists p c, In (p, c) (writes evs0)
                            /\ In p (target_files (self s'))).
Proof.
  unfold run_body, bind.
  destruct (sandbox_start s) as [[[] | e] s0] eqn:E0;
    destruct (sandbox_start_frame _ _ _ E0) as (I0 & S0 & T0 & Tr0).
  2: { intros [= <- <-]. split; [exact I0 |]. split; [exact S0 |].
       eexists. split; [exact Tr0 |]. simpl. split; [done |]. split; [lia | done]. }
  destruct (_reproduce_bug s0) as [[b1 | e] s1] eqn:E1;
    destruct (reproduce_bug_frame _ _ _ E1) as (I1 & S1 & T1 & evs1 & Tr1 & W1 & C1).
  2: { intros [= <- <-]. split; [congruence |]. split; [congruence |].
       exists (Start (Ok tt) :: evs1). rewrite Tr1, Tr0, <- app_assoc.
       split; [reflexivity |]. simpl.
       split; [intros p c Hin; left; rewrite <- S0; by eapply W1 |].
       split; [lia | done]. }
  destruct b1; simpl.
  2: { intros [= <- <-]. split; [congruence |]. split; [congruence |].
       exists (Start (Ok tt) :: evs1). rewrite Tr1, Tr0, <- app_assoc.
       split; [reflexivity |]. simpl.
       split; [intros p c Hin; left; rewrite <- S0; by eapply W1 |].
       split; [lia | done]. }
  destruct (_locate_files s1) as [[b2 | e] s2] eqn:E2;
    destruct (locate_files_frame _ _ _ E2)
      as (I2 & S2 & _ & Tne & _ & evs2 & Tr2 & W2 & C2).
  2: { intros [= <- <-]. split; [congruence |]. split; [congruence |].
       exists (Start (Ok tt) :: evs1 ++ evs2).
       rewrite Tr2, Tr1, Tr0, <- !app_assoc. split; [reflexivity |].
       cbn [app writes completions]. rewrite writes_app, completions_app, W2, app_nil_r.
       split; [intros p c Hin; left; rewrite <- S0; by eapply W1 |].
       split; [lia | done]. }
  destruct b2; simpl.
  2: { intros [= <- <-]. split; [congruence |]. split; [congruence |].
       exists (Start (Ok tt) :: evs1 ++ evs2).
       rewrite Tr2, Tr1, Tr0, <- !app_assoc. split; [reflexivity |].
       cbn [app writes completions]. rewrite writes_app, completions_app, W2, app_nil_r.
       split; [intros p c Hin; left; rewrite <- S0; by eapply W1 |].
       split; [lia | done]. }
  destruct (_generate_fix s2) as [[b3 | e] s3] eqn:E3;
    pose proof E3 as E3'; unfold _generate_fix, bind, get in E3';
    destruct (fix_files_frame _ _ _ _ _ E3')
      as (I3 & S3 & _ & T3 & evs3 & Tr3 & W3 & C3).
  2: { intros [= <- <-]. split; [congruence |]. split; [congruence |].
       exists (Start (Ok tt) :: evs1 ++ evs2 ++ evs3).
       rewrite Tr3, Tr2, Tr1, Tr0, <- !app_assoc. split; [reflexivity |].
       cbn [app writes completions].
       rewrite !writes_app, !completions_app, W2, T3. simpl.
       split; [| split; [lia | done]].
       intros p c Hin. apply in_app_or in Hin as [Hin | Hin].
       - left. rewrite <- S0. by eapply W1.
       - right. by eapply W3. }
  destruct b3; simpl.
  2: { intros [= <- <-]. split; [congruence |]. split; [congruence |].
       exists (Start (Ok tt) :: evs1 ++ evs2 ++ evs3).
       rewrite Tr3, Tr2, Tr1, Tr0, <- !app_assoc. split; [reflexivity |].
       cbn [app writes completions].
       rewrite !writes_app, !completions_app, W2, T3. simpl.
       split; [| split; [lia | done]].
       intros p c Hin. apply in_app_or in Hin as [Hin | Hin].
       - left. rewrite <- S0. by eapply W1.
       - right. by eapply W3. }
  intros E4.
  destruct (verify_fix_frame _ _ _ E4) as (I4 & S4 & _ & T4 & res & Tr4 & Hok).
  destruct (fix_files_reads_writes _ _ _ _ _ E3') as (evs3' & Tr3' & _ & Hw).
  assert (evs3' = evs3) as -> by (rewrite Tr3 in Tr3'; by apply app_inv_head in Tr3').
  split; [congruence |]. split; [congruence |].
  exists (Start (Ok tt) :: evs1 ++ evs2 ++ evs3 ++ [RunCommand
            ("python " +:+ repro_script (self s3)) (Some 30) res]).
  rewrite Tr4, Tr3, Tr2, Tr1, Tr0, <- !app_assoc. split; [reflexivity |].
  cbn [app writes completions].
  rewrite !writes_app, !completions_app, W2, T4, T3. simpl. rewrite app_nil_r.
  split; [| split; [lia |]].
  - intros p c Hin. apply in_app_or in Hin as [Hin | Hin].
    + left. rewrite <- S0. by eapply W1.
    + right. by eapply W3.
  - intros Hr. destruct (Hok Hr) as (output & -> & Herr).
    exists (Start (Ok tt) :: evs1 ++ evs2 ++ evs3), output.
    split.
    { replace (repro_script (self s3)) with (repro_script (self s)) by congruence.
      cbn [app]. rewrite <- !app_assoc. reflexivity. }
    split; [exact Herr |].
    assert (Hne : writes evs3 <> [])
      by (destruct Hw as [Hw _]; destruct (Hw eq_refl) as [Hf | Hne]; done).
    destruct (writes evs3) as [| [p c] rest] eqn:Ew; [done |].
    exists p, c. split.
    + change (In (p, c) (writes (evs1 ++ evs2 ++ evs3))).
      rewrite !writes_app. apply in_or_app. right.
      apply in_or_app. right. rewrite Ew. left. reflexivity.
    + apply (W3 p c). left. reflexivity.
Qed.

(** *** More on the run as a whole *)

(** A run that returns [True] ended with the reproduction script exiting
    with code 0 and an output free of error messages, followed by the
    cleanup, and before that it rewrote at least one of its target files. *)
Theorem run_success_means_verified (s s' : state Sandbox LLMClient) :
  run s = (Ok true, s') ->
  exists evs output,
    trace s' = trace s ++ evs
               ++ [RunCommand ("python " +:+ repro_script (self s)) (Some 30)
                              (Ok (0, output));
                   Cleanup]
    /\ extract_error_messages output = []
    /\ exists p c, In (p, c) (writes evs) /\ In p (target_files (self s')).
Proof.
  unfold run, bind, issue_item, try_except_finally.
  destruct (issue (self s) !! "instance_id"); [| done].
  destruct (run_body s) as [[b | e] s1] eqn:E; [| done].
  intros [= -> <-].
  destruct (run_body_frame _ _ _ E) as (_ & _ & evs & Tr & _ & _ & Hok).
  destruct (Hok eq_refl) as (evs0 & output & -> & Herr & p & c & Hin & Ht).
  exists evs0, output. unfold sandbox_cleanup. cbn [trace self target_files with_sandbox].
  rewrite Tr, <- !app_assoc. split; [reflexivity |]. split; [exact Herr |].
  by exists p, c.
Qed.

(** However a run ends, the issue and the script name are as before; the
    only files written are the reproduction script and target files; and
    the model is asked at most twice more than there are target files. *)
Theorem run_touches_only_its_files
    (s s' : state Sandbox LLMClient) (r : outcome bool) :
  run s = (r, s') ->
  issue (self s') = issue (self s)
  /\ repro_script (self s') = repro_script (self s)
  /\ exists evs,
       trace s' = trace s ++ evs
       /\ (forall p c, In (p, c) (writes evs) ->
                       p = repro_script (self s) \/ In p (target_files (self s')))
       /\ (completions evs <= 2 + length (target_files (self s')))%nat.
Proof.
  unfold run, bind, issue_item, try_except_finally.
  destruct (issue (self s) !! "instance_id").
  - destruct (run_body s) as [[b | e] s1] eqn:E;
      destruct (run_body_frame _ _ _ E) as (I & S & evs & Tr & W & C & _);
      intros [= <- <-]; unfold sandbox_cleanup;
      cbn [trace self issue repro_script target_files with_sandbox].
    all: split; [exact I |]; split; [exact S |].
    all: exists (evs ++ [Cleanup]); rewrite Tr, <- app_assoc.
    all: split; [reflexivity |].
    all: rewrite writes_app, completions_app; simpl; rewrite app_nil_r.
    all: split; [exact W | lia].
  - intros [= <- <-]. split; [reflexivity |]. split; [reflexivity |].
    exists []. rewrite app_nil_r. simpl. split; [reflexivity |]. split; [done | lia].
Qed.

(** When the sandbox cannot be started, the run returns [False] after two
    calls: the failed start and the cleanup. *)
Theorem run_when_start_fails
    (s : state Sandbox LLMClient) (instance_id : string) (e : exn) (sb : Sandbox) :
  issue (self s) !! "instance_id" = Some instance_id ->
  sb_start (sandbox (self s)) = (Raise e, sb) ->
  run s = (Ok false,
           {| self := with_sandbox (sb_cleanup sb) (self s);
              trace := trace s ++ [Start (Raise e); Cleanup] |}).
Proof.
  intros Hid Hstart.
  unfold run, bind, issue_item, try_except_finally, run_body, bind,
    sandbox_start, sandbox_call, sandbox_cleanup.
  rewrite Hid, Hstart. cbn [ret self trace sandbox with_sandbox].
  rewrite <- app_assoc. reflexivity.
Qed.

(** An issue without a problem statement: the run returns [False] without
    asking the model, reading or writing a file; the [KeyError] is raised
    after the file listing and is absorbed. *)
Theorem run_without_problem_statement
    (s : state Sandbox LLMClient) (instance_id : string) :
  issue (self s) !! "instance_id" = Some instance_id ->
  issue (self s) !! "problem_statement" = None ->
  exists s' evs,
    run s = (Ok false, s')
    /\ trace s' = trace s ++ evs
    /\ completions evs = 0%nat /\ writes evs = [] /\ reads evs = [].
Proof.
  intros Hid Hps.
  destruct (run s) as [r s'] eqn:Hrun.
  unfold run, try_except_finally, run_body, _reproduce_bug, _get_file_tree,
    sandbox_cleanup in Hrun.
  unfold bind at 1 in Hrun. unfold issue_item at 1 in Hrun. rewrite Hid in Hrun.
  run_method Hrun.
  all: try congruence.
  all: injection Hrun as <- <-; close_trace.
  all: eexists _, _; split; [reflexivity |]; close_trace.
  all: split; [reflexivity |]; simpl; done.
Qed.

(** A file listing that fails does not stop the Reproduce phase: the
    listing command is not retried, and the model is asked with the text
    [Error getting file list] in the place of the file sample. *)
Theorem reproduce_bug_after_failed_listing
    (s : state Sandbox LLMClient) (exit_code : Z) (output issue_text : string)
    (sb : Sandbox) :
  sb_run_command (file_tree_command 100) None (sandbox (self s))
  = (Ok (exit_code, output), sb) ->
  exit_code <> 0 ->
  issue (self s) !! "problem_statement" = Some issue_text ->
  exists res evs,
    trace (snd (_reproduce_bug s))
    = trace s
      ++ [RunCommand (file_tree_command 100) None (Ok (exit_code, output));
          GetCompletion SYSTEM_PROMPT
            (build_reproduce_prompt issue_text
               ("Repository files (sample):" +:+ nl +:+ "Error getting file list"))
            0.3%float None res]
      ++ evs.
Proof.
  intros Hlist Hcode Hissue. apply Z.eqb_neq in Hcode.
  destruct (_reproduce_bug s) as [r s'] eqn:Hrun.
  unfold _reproduce_bug, _get_file_tree in Hrun.
  unfold bind at 1 in Hrun. unfold bind at 1 in Hrun.
  unfold sandbox_run_command at 1, sandbox_call at 1 in Hrun.
  rewrite Hlist in Hrun. cbv beta iota zeta in Hrun. rewrite Hcode in Hrun.
  unfold ret at 1 in Hrun. unfold bind at 1, issue_item at 1 in Hrun.
  cbn [self issue with_sandbox] in Hrun. rewrite Hissue in Hrun.
  change (PyStr.take 1000 "Error getting file list")
    with "Error getting file list" in Hrun.
  run_method Hrun.
  all: injection Hrun as <- <-; close_trace.
  all: eexists _, _; cbn [snd trace]; rewrite <- ?app_assoc; cbn [app].
  all: first [ reflexivity
             | instantiate (1 := []); reflexivity
             | rewrite app_nil_r; reflexivity ].
Qed.

End AgentFacts.

(** *** The statements above on the small world *)


Lemma reproduce_bug_result_witness :
  sb_run_command (file_tree_command 100) None (sandbox (self Demo.initial))
  = (Ok (0, "/testbed/app/models.py" +:+ nl), sandbox (self Demo.initial))
  /\ issue (self Demo.initial) !! "problem_statement"
     = Some "Crash in app/models.py on save"
  /\ llm_get_completion SYSTEM_PROMPT
       (build_reproduce_prompt "Crash in app/models.py on save"
          ("Repository files (sample):" +:+ nl
           +:+ PyStr.take 1000 (file_listing 0 ("/testbed/app/models.py" +:+ nl))))
       0.3%float None (llm (self Demo.initial)) = (Ok "FIXED", tt)
  /\ fst (validate_python_code (extract_python_code "FIXED")) = true
  /\ sb_write_file (repro_script (self Demo.initial)) (extract_python_code "FIXED")
                   (sandbox (self Demo.initial))
     = (Ok tt, sandbox (self Demo.reproduced))
  /\ sb_run_command ("python " +:+ repro_script (self Demo.initial)) (Some 30)
                    (sandbox (self Demo.reproduced))
     = (Ok (1, "TypeError: boom"), sandbox (self Demo.reproduced))
  /\ exists (b : bool) s',
       _reproduce_bug Demo.initial = (Ok b, s')
       /\ (b = true <-> 1 <> 0 \/ extract_error_messages "TypeError: boom" <> [])
       /\ (b = false <-> 1 = 0 /\ extract_error_messages "TypeError: boom" = [])
       /\ trace s'
          = trace Demo.initial
            ++ [RunCommand (file_tree_command 100) None
                           (Ok (0, "/testbed/app/models.py" +:+ nl));
                GetCompletion SYSTEM_PROMPT
                  (build_reproduce_prompt "Crash in app/models.py on save"
                     ("Repository files (sample):" +:+ nl
                      +:+ PyStr.take 1000
                            (file_listing 0 ("/testbed/app/models.py" +:+ nl))))
                  0.3%float None (Ok "FIXED");
                WriteFile (repro_script (self Demo.initial))
                          (extract_python_code "FIXED") (Ok tt);
                RunCommand ("python " +:+ repro_script (self Demo.initial)) (Some 30)
                           (Ok (1, "TypeError: boom"))].
Proof.
  assert (H1 : sb_run_command (file_tree_command 100) None (sandbox (self Demo.initial))
               = (Ok (0, "/testbed/app/models.py" +:+ nl), sandbox (self Demo.initial)))
    by (vm_compute; reflexivity).
  assert (H2 : issue (self Demo.initial) !! "problem_statement"
               = Some "Crash in app/models.py on save") by (vm_compute; reflexivity).
  assert (H3 : llm_get_completion SYSTEM_PROMPT
       (build_reproduce_prompt "Crash in app/models.py on save"
          ("Repository files (sample):" +:+ nl
           +:+ PyStr.take 1000 (file_listing 0 ("/testbed/app/models.py" +:+ nl))))
       0.3%float None (llm (self Demo.initial)) = (Ok "FIXED", tt))
    by (vm_compute; reflexivity).
  assert (H4 : fst (validate_python_code (extract_python_code "FIXED")) = true)
    by (vm_compute; reflexivity).
  assert (H5 : sb_write_file (repro_script (self Demo.initial))
                 (extract_python_code "FIXED") (sandbox (self Demo.initial))
               = (Ok tt, sandbox (self Demo.reproduced)))
    by (vm_compute; reflexivity).
  assert (H6 : sb_run_command ("python " +:+ repro_script (self Demo.initial)) (Some 30)
                 (sandbox (self Demo.reproduced))
               = (Ok (1, "TypeError: boom"), sandbox (self Demo.reproduced)))
    by (vm_compute; reflexivity).
  split; [exact H1 |]. split; [exact H2 |]. split; [exact H3 |]. split; [exact H4 |].
  split; [exact H5 |]. split; [exact H6 |].
  exact (reproduce_bug_result Demo.initial 0 1 _ _ _ _ _ _ _ _ H1 H2 H3 H4 H5 H6).
Defined.

Lemma verify_fix_result_witness :
  sb_run_command ("python " +:+ repro_script (self Demo.fixed)) (Some 30)
                 (sandbox (self Demo.fixed))
  = (Ok (0, "ok"), sandbox (self Demo.fixed))
  /\ exists (b : bool) s',
       _verify_fix Demo.fixed = (Ok b, s')
       /\ (b = true <-> 0 = 0 /\ extract_error_messages "ok" = [])
       /\ (0 = 0 -> extract_error_messages "ok" <> [] -> b = false).
Proof.
  assert (H : sb_run_command ("python " +:+ repro_script (self Demo.fixed)) (Some 30)
                             (sandbox (self Demo.fixed))
              = (Ok (0, "ok"), sandbox (self Demo.fixed)))
    by (vm_compute; reflexivity).
  split; [exact H |]. exact (verify_fix_result _ _ _ _ H).
Defined.

Lemma fix_file_empty_content_skipped_witness :
  sb_read_file "empty.py" (sandbox (self Demo.located))
  = (Ok (Some EmptyString), sandbox (self Demo.located))
  /\ (Some EmptyString = None \/ Some EmptyString = Some EmptyString)
  /\ fix_file "empty.py" false Demo.located
     = (Ok false,
        {| self := with_sandbox (sandbox (self Demo.located)) (self Demo.located);
           trace := trace Demo.located ++ [ReadFile "empty.py" (Ok (Some EmptyString))] |}).
Proof.
  assert (H : sb_read_file "empty.py" (sandbox (self Demo.located))
              = (Ok (Some EmptyString), sandbox (self Demo.located)))
    by (vm_compute; reflexivity).
  split; [exact H |]. split; [right; reflexivity |].
  exact (fix_file_empty_content_skipped Demo.located "empty.py" false _ _ H
           (or_intror eq_refl)).
Defined.

Lemma generate_fix_writes_guarded_witness :
  _generate_fix Demo.located = (Ok true, Demo.fixed)
  /\ exists evs, trace Demo.fixed = trace Demo.located ++ evs /\ writes_guarded evs.
Proof.
  assert (H : _generate_fix Demo.located = (Ok true, Demo.fixed))
    by (vm_compute; reflexivity).
  split; [exact H |]. exact (generate_fix_writes_guarded _ _ _ H).
Defined.

Lemma generate_fix_result_witness :
  fix_phase_spec (target_files (self Demo.crowded_targets)) Demo.crowded_targets
    [FixSkipped Oversized; FixSkipped Unreadable; FixSkipped UnchangedOutput;
     FixWritten "FIXED"]
    Demo.crowded_fixed
  /\ exists (b : bool) evs,
       _generate_fix Demo.crowded_targets = (Ok b, Demo.crowded_fixed)
       /\ trace Demo.crowded_fixed = trace Demo.crowded_targets ++ evs
       /\ reads evs = target_files (self Demo.crowded_targets)
       /\ writes evs
          = written (target_files (self Demo.crowded_targets))
              [FixSkipped Oversized; FixSkipped Unreadable;
               FixSkipped UnchangedOutput; FixWritten "FIXED"]
       /\ (b = true <-> writes evs <> [])
       /\ (b = true <->
           existsb is_written
             [FixSkipped Oversized; FixSkipped Unreadable;
              FixSkipped UnchangedOutput; FixWritten "FIXED"] = true).
Proof.
  assert (H : fix_phase_spec (target_files (self Demo.crowded_targets))
                Demo.crowded_targets
                [FixSkipped Oversized; FixSkipped Unreadable;
                 FixSkipped UnchangedOutput; FixWritten "FIXED"]
                Demo.crowded_fixed).
  { eapply phase_next.
    { apply (skip_oversized "big.py" _ Fixture.big_file Fixture.crowded);
        [reflexivity | vm_compute; reflexivity]. }
    eapply phase_next.
    { apply (skip_unreadable "missing.py" _ None Fixture.crowded);
        [reflexivity | left; reflexivity]. }
    eapply phase_next.
    { apply (skip_unchanged_output "done.py" _ (" FIXED" +:+ nl) "FIXED");
        [| vm_compute; reflexivity].
      exists Fixture.crowded, "Crash in app/models.py on save", tt.
      split; [reflexivity |]. split; [discriminate |].
      split; [vm_compute; discriminate |]. split; [vm_compute; reflexivity |].
      split; reflexivity. }
    eapply phase_next.
    { eapply (@write_fix _ _ _ _ Fixture.tools "app/models.py" _ "BUG" "FIXED" _
                (snd (Fixture.write_file "app/models.py" "FIXED" Fixture.crowded)));
        [ exists Fixture.crowded, "Crash in app/models.py on save", tt;
          split; [reflexivity |]; split; [discriminate |];
          split; [vm_compute; discriminate |]; split; [vm_compute; reflexivity |];
          split; reflexivity
        | discriminate | reflexivity | vm_compute; discriminate | reflexivity ]. }
    apply phase_done. }
  split; [exact H |]. exact (generate_fix_result _ _ _ H).
Defined.

(** C4. The target file set is not capped when it comes from the issue
    text: for an issue that names four files, [_locate_files] succeeds and
    leaves four target files. *)
Theorem locate_files_heuristic_exceeds_cap :
  fst (_locate_files Demo.four_files) = Ok true
  /\ target_files (self (snd (_locate_files Demo.four_files)))
     = ["a.py"; "b.py"; "c.py"; "d.py"]
  /\ (3 < length (target_files (self (snd (_locate_files Demo.four_files)))))%nat.
Proof. vm_compute. repeat split; lia. Qed.

Lemma locate_files_heuristic_witness :
  issue (self Demo.initial) !! "problem_statement"
  = Some "Crash in app/models.py on save"
  /\ extract_file_paths "Crash in app/models.py on save" <> []
  /\ _locate_files Demo.initial
     = (Ok true,
        {| self := with_target_files
                     (extract_file_paths "Crash in app/models.py on save")
                     (self Demo.initial);
           trace := trace Demo.initial |}).
Proof.
  assert (H1 : issue (self Demo.initial) !! "problem_statement"
               = Some "Crash in app/models.py on save") by (vm_compute; reflexivity).
  assert (H2 : extract_file_paths "Crash in app/models.py on save" <> [])
    by (vm_compute; discriminate).
  split; [exact H1 |]. split; [exact H2 |].
  exact (locate_files_heuristic Demo.initial _ H1 H2).
Defined.

Lemma locate_files_fallback_capped_witness :
  issue (self Demo.vague) !! "problem_statement" = Some "Saving crashes"
  /\ extract_file_paths "Saving crashes" = []
  /\ _locate_files Demo.vague = (Ok true, snd (_locate_files Demo.vague))
  /\ target_files (self (snd (_locate_files Demo.vague))) = ["a.py"; "b.py"; "c.py"]
  /\ (length (target_files (self (snd (_locate_files Demo.vague)))) <= 3)%nat.
Proof.
  assert (H1 : issue (self Demo.vague) !! "problem_statement" = Some "Saving crashes")
    by (vm_compute; reflexivity).
  assert (H2 : extract_file_paths "Saving crashes" = []) by (vm_compute; reflexivity).
  assert (H3 : _locate_files Demo.vague = (Ok true, snd (_locate_files Demo.vague)))
    by (vm_compute; reflexivity).
  split; [exact H1 |]. split; [exact H2 |]. split; [exact H3 |].
  split; [vm_compute; reflexivity |].
  exact (locate_files_fallback_capped Demo.vague _ _ H1 H2 H3).
Defined.

Lemma generate_fix_touches_only_targets_witness :
  _generate_fix Demo.located = (Ok true, Demo.fixed)
  /\ issue (self Demo.fixed) = issue (self Demo.located)
  /\ repro_script (self Demo.fixed) = repro_script (self Demo.located)
  /\ repro_output (self Demo.fixed) = repro_output (self Demo.located)
  /\ target_files (self Demo.fixed) = target_files (self Demo.located)
  /\ exists evs,
       trace Demo.fixed = trace Demo.located ++ evs
       /\ (forall p c, In (p, c) (writes evs) ->
                       In p (target_files (self Demo.located)))
       /\ (completions evs <= length (target_files (self Demo.located)))%nat.
Proof.
  assert (H : _generate_fix Demo.located = (Ok true, Demo.fixed))
    by (vm_compute; reflexivity).
  split; [exact H |]. exact (generate_fix_touches_only_targets _ _ _ H).
Defined.

Lemma reproduce_bug_keeps_output_witness :
  _reproduce_bug Demo.initial = (Ok true, Demo.reproduced)
  /\ exists evs code exit_code output,
       trace Demo.reproduced
       = trace Demo.initial ++ evs
         ++ [WriteFile (repro_script (self Demo.initial)) code (Ok tt);
             RunCommand ("python " +:+ repro_script (self Demo.initial)) (Some 30)
                        (Ok (exit_code, output))]
       /\ writes evs = []
       /\ fst (validate_python_code code) = true
       /\ repro_output (self Demo.reproduced) = output.
Proof.
  assert (H : _reproduce_bug Demo.initial = (Ok true, Demo.reproduced))
    by (vm_compute; reflexivity).
  split; [exact H |]. exact (reproduce_bug_keeps_output _ _ true H).
Defined.

Lemma run_success_means_verified_witness :
  run Demo.initial = (Ok true, Demo.finished)
  /\ exists evs output,
       trace Demo.finished
       = trace Demo.initial ++ evs
         ++ [RunCommand ("python " +:+ repro_script (self Demo.initial)) (Some 30)
                        (Ok (0, output));
             Cleanup]
       /\ extract_error_messages output = []
       /\ exists p c, In (p, c) (writes evs)
                      /\ In p (target_files (self Demo.finished)).
Proof.
  assert (H : run Demo.initial = (Ok true, Demo.finished))
    by (vm_compute; reflexivity).
  split; [exact H |]. exact (run_success_means_verified _ _ H).
Defined.

Lemma run_touches_only_its_files_witness :
  run Demo.initial = (Ok true, Demo.finished)
  /\ issue (self Demo.finished) = issue (self Demo.initial)
  /\ repro_script (self Demo.finished) = repro_script (self Demo.initial)
  /\ exists evs,
       trace Demo.finished = trace Demo.initial ++ evs
       /\ (forall p c, In (p, c) (writes evs) ->
                       p = repro_script (self Demo.initial)
                       \/ In p (target_files (self Demo.finished)))
       /\ (completions evs <= 2 + length (target_files (self Demo.finished)))%nat.
Proof.
  assert (H : run Demo.initial = (Ok true, Demo.finished))
    by (vm_compute; reflexivity).
  split; [exact H |]. exact (run_touches_only_its_files _ _ _ H).
Defined.

Lemma run_when_start_fails_witness :
  issue (self Demo.broken_start) !! "instance_id" = Some "broken"
  /\ sb_start (sandbox (self Demo.broken_start))
     = (Raise (Exn "SandboxStartError" "no container"),
        sandbox (self Demo.broken_start))
  /\ run Demo.broken_start
     = (Ok false,
        {| self := with_sandbox (sb_cleanup (sandbox (self Demo.broken_start)))
                                (self Demo.broken_start);
           trace := trace Demo.broken_start
                    ++ [Start (Raise (Exn "SandboxStartError" "no container"));
                        Cleanup] |}).
Proof.
  assert (H1 : issue (self Demo.broken_start) !! "instance_id" = Some "broken")
    by (vm_compute; reflexivity).
  assert (H2 : sb_start (sandbox (self Demo.broken_start))
               = (Raise (Exn "SandboxStartError" "no container"),
                  sandbox (self Demo.broken_start))) by (vm_compute; reflexivity).
  split; [exact H1 |]. split; [exact H2 |].
  exact (run_when_start_fails Demo.broken_start _ _ _ H1 H2).
Defined.

Lemma run_without_problem_statement_witness :
  issue (self Demo.bare) !! "instance_id" = Some "demo__demo-3"
  /\ issue (self Demo.bare) !! "problem_statement" = None
  /\ exists s' evs,
       run Demo.bare = (Ok false, s')
       /\ trace s' = trace Demo.bare ++ evs
       /\ completions evs = 0%nat /\ writes evs = [] /\ reads evs = [].
Proof.
  assert (H1 : issue (self Demo.bare) !! "instance_id" = Some "demo__demo-3")
    by (vm_compute; reflexivity).
  assert (H2 : issue (self Demo.bare) !! "problem_statement" = None)
    by (vm_compute; reflexivity).
  split; [exact H1 |]. split; [exact H2 |].
  exact (run_without_problem_statement Demo.bare _ H1 H2).
Defined.

Lemma reproduce_bug_after_failed_listing_witness :
  sb_run_command (file_tree_command 100) None (sandbox (self Demo.offline_agent))
  = (Ok (127, "command not found"), Fixture.Offline)
  /\ 127 <> 0
  /\ issue (self Demo.offline_agent) !! "problem_statement"
     = Some "Crash in app/models.py on save"
  /\ exists res evs,
       trace (snd (_reproduce_bug Demo.offline_agent))
       = trace Demo.offline_agent
         ++ [RunCommand (file_tree_command 100) None (Ok (127, "command not found"));
             GetCompletion SYSTEM_PROMPT
               (build_reproduce_prompt "Crash in app/models.py on save"
                  ("Repository files (sample):" +:+ nl +:+ "Error getting file list"))
               0.3%float None res]
         ++ evs.
Proof.
  assert (H1 : sb_run_command (file_tree_command 100) None
                 (sandbox (self Demo.offline_agent))
               = (Ok (127, "command not found"), Fixture.Offline))
    by (vm_compute; reflexivity).
  assert (H2 : 127 <> 0) by lia.
  assert (H3 : issue (self Demo.offline_agent) !! "problem_statement"
               = Some "Crash in app/models.py on save") by (vm_compute; reflexivity).
  split; [exact H1 |]. split; [exact H2 |]. split; [exact H3 |].
  exact (reproduce_bug_after_failed_listing Demo.offline_agent _ _ _ _ H1 H2 H3).
Defined.

Lemma fix_file_rejected_output_skipped_witness :
  sb_read_file "app/models.py" (sandbox (self Demo.fixed))
  = (Ok (Some "FIXED"), sandbox (self Demo.fixed))
  /\ "FIXED" <> EmptyString
  /\ PyStr.len "FIXED" <= MAX_FILE_CHARS
  /\ issue (self Demo.fixed) !! "problem_statement"
     = Some "Crash in app/models.py on save"
  /\ llm_get_completion SYSTEM_PROMPT
       (build_fix_prompt "Crash in app/models.py on save" "FIXED" "app/models.py"
                         (repro_output (self Demo.fixed)))
       0.2%float (Some 8192) (llm (self Demo.fixed)) = (Ok "FIXED", tt)
  /\ PyStr.strip (extract_python_code "FIXED") = PyStr.strip "FIXED"
  /\ fix_file "app/models.py" false Demo.fixed
     = (Ok false,
        {| self := with_llm tt (with_sandbox (sandbox (self Demo.fixed))
                                             (self Demo.fixed));
           trace := trace Demo.fixed
                    ++ [ReadFile "app/models.py" (Ok (Some "FIXED"));
                        GetCompletion SYSTEM_PROMPT
                          (build_fix_prompt "Crash in app/models.py on save" "FIXED"
                             "app/models.py" (repro_output (self Demo.fixed)))
                          0.2%float (Some 8192) (Ok "FIXED")] |}).
Proof.
  assert (H1 : sb_read_file "app/models.py" (sandbox (self Demo.fixed))
               = (Ok (Some "FIXED"), sandbox (self Demo.fixed)))
    by (vm_compute; reflexivity).
  assert (H2 : "FIXED" <> EmptyString) by discriminate.
  assert (H3 : PyStr.len "FIXED" <= MAX_FILE_CHARS) by (vm_compute; discriminate).
  assert (H4 : issue (self Demo.fixed) !! "problem_statement"
               = Some "Crash in app/models.py on save") by (vm_compute; reflexivity).
  assert (H5 : llm_get_completion SYSTEM_PROMPT
       (build_fix_prompt "Crash in app/models.py on save" "FIXED" "app/models.py"
                         (repro_output (self Demo.fixed)))
       0.2%float (Some 8192) (llm (self Demo.fixed)) = (Ok "FIXED", tt))
    by reflexivity.
  assert (H6 : PyStr.strip (extract_python_code "FIXED") = PyStr.strip "FIXED")
    by reflexivity.
  split; [exact H1 |]. split; [exact H2 |]. split; [exact H3 |].
  split; [exact H4 |]. split; [exact H5 |]. split; [exact H6 |].
  exact (fix_file_rejected_output_skipped Demo.fixed "app/models.py" false
           "FIXED" _ "FIXED" _ tt H1 H2 H3 H4 H5 (or_intror (or_intror H6))).
Defined.

(** * Properties of the matcher *)

Lemma star_continues {R} (cls : ascii -> bool) (s : string)
    (k : string -> option R) (x : R) :
  Re.star cls s k = Some x ->
  exists rest, k rest = Some x /\ (String.length rest <= String.length s)%nat.
Proof.
  induction s as [| c s' IH]; simpl.
  - intros H. exists EmptyString. split; [exact H | reflexivity].
  - destruct (cls c).
    + destruct (Re.star cls s' k) as [y |] eqn:E.
      * intros [= ->]. destruct (IH eq_refl) as (rest & Hk & Hlen).
        exists rest. split; [exact Hk | lia].
      * intros H. exists (String c s'). split; [exact H | reflexivity].
    + intros H. exists (String c s'). split; [exact H | reflexivity].
Qed.

Lemma take_not_empty (n : nat) (s : string) :
  (1 <= n)%nat -> (1 <= String.length s)%nat -> PyStr.take n s <> EmptyString.
Proof.
  destruct n as [| n']; [lia |]. destruct s as [| c s']; simpl; [lia | done].
Qed.

(** A successful match hands the continuation the rest of the input, at
    least [min_len r] characters shorter, and the captures extended by one
    non-empty text per group of [r]. *)
Lemma go_continues {R} (r : Re.t) :
  Re.groups_consume r ->
  forall (s : string) (caps : Re.captures)
         (k : string -> Re.captures -> option R) (x : R),
    Re.go r s caps k = Some x ->
    exists rest new,
      k rest (caps ++ new) = Some x
      /\ (String.length rest + Re.min_len r <= String.length s)%nat
      /\ length new = Re.groups r
      /\ Forall (fun g => g <> EmptyString) new.
Proof.
  induction r as [| c | cls | r1 IH1 r2 IH2 | r' IH]; simpl; intros Hg s caps k x H.
  - exists s, []. rewrite app_nil_r. repeat split; [exact H | lia | constructor].
  - destruct s as [| c' s']; [done |]. destruct (Ascii.eqb c' c); [| done].
    exists s', []. rewrite app_nil_r. simpl.
    repeat split; [exact H | lia | constructor].
  - destruct s as [| c' s']; [done |]. destruct (cls c'); [| done].
    apply star_continues in H as (rest & Hk & Hlen).
    exists rest, []. rewrite app_nil_r. simpl.
    repeat split; [exact Hk | lia | constructor].
  - destruct Hg as [Hg1 Hg2].
    apply (IH1 Hg1) in H as (rest1 & new1 & H & Hlen1 & Hn1 & Hf1).
    apply (IH2 Hg2) in H as (rest2 & new2 & H & Hlen2 & Hn2 & Hf2).
    exists rest2, (new1 ++ new2). rewrite app_assoc.
    repeat split; [exact H | lia | rewrite length_app; lia | by apply Forall_app].
  - destruct Hg as [Hg Hmin].
    apply (IH Hg) in H as (rest & new & H & Hlen & Hn & Hf).
    exists rest, (new ++ [PyStr.take (String.length s - String.length rest) s]).
    rewrite app_assoc.
    repeat split; [exact H | lia | rewrite length_app; simpl; lia |].
    apply Forall_app. split; [exact Hf |].
    constructor; [| constructor]. apply take_not_empty; lia.
Qed.

(** What [re.search] returns has one non-empty text per group. *)
Lemma search_groups (r : Re.t) (s : string) (m : Re.captures) :
  Re.groups_consume r ->
  Re.search r s = Some m ->
  length m = Re.groups r /\ Forall (fun g => g <> EmptyString) m.
Proof.
  intros Hg. induction s as [| c s' IH]; simpl; unfold Re.match_here.
  - destruct (Re.go r EmptyString [] (fun _ caps => Some caps)) as [caps |] eqn:E;
      [| done].
    intros [= <-]. apply (go_continues r Hg) in E as (rest & new & [= <-] & _ & Hn & Hf).
    done.
  - destruct (Re.go r (String c s') [] (fun _ caps => Some caps)) as [caps |] eqn:E.
    + intros [= <-].
      apply (go_continues r Hg) in E as (rest & new & [= <-] & _ & Hn & Hf).
      done.
    + exact IH.
Qed.

Lemma lit_groups_consume (s : string) : Re.groups_consume (Re.lit s).
Proof. induction s; simpl; done. Qed.

(** * Properties of the feedback loop *)

Module FeedbackLoopFacts.
Import FeedbackLoop.

Lemma exception_pattern_groups_consume : Re.groups_consume exception_pattern.
Proof.
  unfold exception_pattern. simpl. repeat split; lia.
Qed.

(** The classification finds nothing, or a kind, which is not the empty
    string, together with a message. *)
Lemma classify_shape (error : string) (ty msg : option string) :
  classify error_patterns error = (ty, msg) ->
  (ty = None /\ msg = None)
  \/ (exists kind m, ty = Some kind /\ msg = Some m /\ kind <> EmptyString).
Proof.
  unfold error_patterns. cbn [classify].
  destruct (Re.search exception_pattern error) as [m |] eqn:E1.
  - intros [= <- <-]. right. exists (Re.group m 1), (Re.group m 2).
    repeat split.
    apply (search_groups _ _ _ exception_pattern_groups_consume) in E1 as [Hn Hf].
    destruct m as [| g1 [| g2 [| g3 m']]]; try discriminate Hn.
    apply Forall_cons in Hf as [Hg1 _]. exact Hg1.
  - destruct (Re.search assertion_pattern error) as [m |].
    + intros [= <- <-]. right. exists "AssertionError", (Re.group m 1). done.
    + destruct (Re.search test_failure_pattern error) as [m |].
      * intros [= <- <-]. right. exists "TestFailure", (Re.group m 1). done.
      * intros [= <- <-]. left. done.
Qed.

Lemma kind_suggestions_total (analysis : Analysis) (self : t) (kind m : string) :
  error_type analysis = Some kind ->
  error_message analysis = Some m ->
  exists l, kind_suggestions analysis self = (Ok l, self).
Proof.
  intros Hk Hm. unfold kind_suggestions. rewrite Hk, Hm.
  repeat match goal with
         | |- context [if ?b then _ else _] => destruct b
         end;
    try (eexists; reflexivity).
  all: unfold bind, in_opt, ret; destruct (PyStr.contains "Django" m);
    eexists; reflexivity.
Qed.

(** [_generate_suggestions] on an analysis with a kind and a message: it
    returns, leaves the object alone, and with more than one attempt
    recorded it adds the suggestion to change approach when the kind occurs
    in the transcript of the last attempt. *)
Lemma generate_suggestions_spec (analysis : Analysis) (self : t) (kind m : string) :
  error_type analysis = Some kind ->
  error_message analysis = Some m ->
  exists l,
    _generate_suggestions analysis self = (Ok l, self)
    /\ ((1 < length (attempts_history self))%nat ->
        forall previous,
          last (attempts_history self) = Some previous ->
          PyStr.contains kind (error_output previous) = true ->
          In same_error_suggestion l).
Proof.
  intros Hk Hm. unfold _generate_suggestions, bind, get.
  destruct (kind_suggestions_total analysis self kind m Hk Hm) as [l0 ->].
  destruct (1 <? Z.of_nat (length (attempts_history self))) eqn:Elen.
  - destruct (last (attempts_history self)) as [previous |] eqn:Elast.
    + rewrite Hk. unfold py_in, ret.
      destruct (PyStr.contains kind (error_output previous)) eqn:Ec.
      * eexists. split; [reflexivity |]. intros _ p [= <-] _.
        apply in_or_app. right. left. reflexivity.
      * eexists. split; [reflexivity |]. intros _ p [= <-] Hc. congruence.
    + eexists. split; [reflexivity |]. intros _ p [=].
  - eexists. split; [reflexivity |]. intros Hlen. apply Z.ltb_ge in Elen. lia.
Qed.

Lemma truthy_some (kind : string) : kind <> EmptyString -> truthy (Some kind) = true.
Proof. destruct kind; simpl; done. Qed.

Lemma find_failed_line_state (error : string) (self : t) :
  exists r, find_failed_line error self = (r, self).
Proof.
  unfold find_failed_line, bind, PyStr.to_int, ret, raise.
  destruct (Re.search line_pattern error) as [m |]; [| eexists; reflexivity].
  destruct (PyStr.int_max_str_digits <? String.length (Re.group m 1))%nat;
    eexists; reflexivity.
Qed.

(** [analyze_errors] leaves the object as it was, whatever it returns. *)
Lemma analyze_errors_unchanged (error : string) (self : t) :
  exists r, analyze_errors error self = (r, self).
Proof.
  unfold analyze_errors.
  destruct (classify error_patterns error) as [ty msg] eqn:Ec.
  unfold bind. destruct (find_failed_line_state error self) as [[line | e] ->];
    [| eexists; reflexivity].
  destruct (classify_shape _ _ _ Ec) as [[-> ->] | (kind & m & -> & -> & Hne)].
  - simpl. eexists. reflexivity.
  - rewrite (truthy_some _ Hne).
    edestruct (generate_suggestions_spec) as (l & -> & _);
      [| | eexists; reflexivity]; reflexivity.
Qed.

(** It returns an analysis unless the line number found in the transcript
    is too long for [int]. *)
Lemma analyze_errors_returns (error : string) (self : t) (e : exn) :
  fst (analyze_errors error self) = Raise e ->
  exists m, Re.search line_pattern error = Some m
            /\ (PyStr.int_max_str_digits < String.length (Re.group m 1))%nat.
Proof.
  unfold analyze_errors.
  destruct (classify error_patterns error) as [ty msg] eqn:Ec.
  unfold bind, find_failed_line, PyStr.to_int, bind, ret, raise.
  destruct (Re.search line_pattern error) as [m |].
  - destruct (PyStr.int_max_str_digits <? String.length (Re.group m 1))%nat eqn:El.
    + intros _. exists m. split; [reflexivity |]. by apply Nat.ltb_lt.
    + destruct (classify_shape _ _ _ Ec) as [[-> ->] | (kind & k & -> & -> & Hne)];
        [done |].
      rewrite (truthy_some _ Hne).
      edestruct (generate_suggestions_spec) as (l & -> & _); [| | done]; reflexivity.
  - destruct (classify_shape _ _ _ Ec) as [[-> ->] | (kind & k & -> & -> & Hne)];
      [done |].
    rewrite (truthy_some _ Hne).
    edestruct (generate_suggestions_spec) as (l & -> & _); [| | done]; reflexivity.
Qed.

(** C9. For every object and transcript, two calls of [analyze_errors] in
    a row give the same outcome, so the same error type, message, failed
    line and suggestions, and each of them leaves the object, with its
    recorded attempts, as it was. *)
Theorem analyze_errors_pure (error : string) (self : t) :
  exists r,
    analyze_errors error self = (r, self)
    /\ analyze_twice error self = ((r, self), (r, self)).
Proof.
  destruct (analyze_errors_unchanged error self) as [r H].
  exists r. split; [exact H |].
  unfold analyze_twice. rewrite H. simpl. rewrite H. reflexivity.
Qed.

(** C7, as the code has it. With at least two attempts recorded, when the
    error kind found in the transcript occurs in the transcript of the last
    recorded attempt, the analysis carries the suggestion
    [same_error_suggestion]. *)
Theorem same_error_flagged_after_two_attempts
    (self self' : t) (error : string) (analysis : Analysis)
    (previous : Attempt) (kind : string) :
  (1 < length (attempts_history self))%nat ->
  analyze_errors error self = (Ok analysis, self') ->
  last (attempts_history self) = Some previous ->
  error_type analysis = Some kind ->
  PyStr.contains kind (error_output previous) = true ->
  In same_error_suggestion (suggestions analysis).
Proof.
  intros Hlen Hrun Hlast Hkind Hin. unfold analyze_errors in Hrun.
  destruct (classify error_patterns error) as [ty msg] eqn:Ec.
  unfold bind in Hrun.
  destruct (find_failed_line_state error self) as [[line | e] Hline];
    rewrite Hline in Hrun; [| discriminate Hrun].
  destruct (classify_shape _ _ _ Ec) as [[-> ->] | (k & m & -> & -> & Hne)].
  - simpl in Hrun. injection Hrun as <- <-. discriminate Hkind.
  - rewrite (truthy_some _ Hne) in Hrun.
    edestruct (generate_suggestions_spec) as (l & Hl & Hflag);
      [| | rewrite Hl in Hrun]; [reflexivity | reflexivity |].
    injection Hrun as <- <-. simpl in Hkind |- *. injection Hkind as <-.
    exact (Hflag Hlen previous Hlast Hin).
Qed.

Lemma same_error_flagged_after_two_attempts_witness :
  (1 < length (attempts_history Demo.two_attempts))%nat
  /\ exists analysis previous,
       analyze_errors Demo.type_error Demo.two_attempts
       = (Ok analysis, Demo.two_attempts)
       /\ last (attempts_history Demo.two_attempts) = Some previous
       /\ error_type analysis = Some "TypeError"
       /\ PyStr.contains "TypeError" (error_output previous) = true
       /\ In same_error_suggestion (suggestions analysis).
Proof.
  assert (Hlen : (1 < length (attempts_history Demo.two_attempts))%nat)
    by (vm_compute; lia).
  split; [exact Hlen |].
  destruct (analyze_errors Demo.type_error Demo.two_attempts) as [r s] eqn:Hrun.
  vm_compute in Hrun. injection Hrun as <- <-.
  eexists _, _.
  assert (Hrun : analyze_errors Demo.type_error Demo.two_attempts
                 = (Ok _, Demo.two_attempts)) by (vm_compute; reflexivity).
  assert (Hlast : last (attempts_history Demo.two_attempts) = Some _)
    by (vm_compute; reflexivity).
  split; [exact Hrun |]. split; [exact Hlast |].
  split; [reflexivity |]. split; [vm_compute; reflexivity |].
  apply (same_error_flagged_after_two_attempts _ _ _ _ _ "TypeError" Hlen Hrun Hlast);
    vm_compute; reflexivity.
Defined.

(** C7, as it is worded, fails with one attempt recorded: the transcript
    of that attempt and the analysed transcript both hold [TypeError], and
    the suggestion is not made. *)
Lemma same_error_not_flagged_after_one_attempt :
  ~ repeats_flagged Demo.one_attempt Demo.type_error.
Proof.
  intros H.
  pose (analysis :=
          {| error_type := Some "TypeError";
             error_message := Some "unsupported operand";
             failed_line := Some 7;
             suggestions := ["Check function arguments and type compatibility"] |}).
  pose (previous :=
          {| attempt := 1; file_path := "app/models.py"; code_applied := "FIXED";
             error_output := Demo.type_error; success := false;
             timestamp := 0%float |}).
  assert (Hin : In same_error_suggestion (suggestions analysis)).
  { apply (H analysis Demo.one_attempt previous "TypeError");
      vm_compute; reflexivity. }
  destruct Hin as [Heq | []]. discriminate Heq.
Qed.

(** *** The retry ceiling *)

Lemma should_retry_spec (n : Z) (self : t) :
  should_retry n self = (Ok (n <? max_attempts self), self).
Proof. reflexivity. Qed.

Lemma analyze_errors_state (error : string) (self : t) :
  snd (analyze_errors error self) = self.
Proof. destruct (analyze_errors_unchanged error self) as [r ->]. reflexivity. Qed.

Lemma step_max_attempts (o : op) (self : t) :
  max_attempts (step o self) = max_attempts self.
Proof.
  destruct o; simpl; [reflexivity | reflexivity |].
  rewrite analyze_errors_state. reflexivity.
Qed.

Lemma run_ops_max_attempts (ops : list op) (self : t) :
  max_attempts (run_ops ops self) = max_attempts self.
Proof.
  revert self. induction ops as [| o rest IH]; intros self; simpl; [reflexivity |].
  unfold run_ops in IH. rewrite IH. apply step_max_attempts.
Qed.

(** [add_attempt] stores one more record for its file and none for the
    others, whatever [max_attempts] is. *)
Lemma records_for_add_attempt (n : Z) (path applied error : string) (ok : bool)
    (now : float) (self : t) (p : string) :
  records_for p (snd (add_attempt n path applied error ok now self))
  = records_for p self + (if decide (path = p) then 1 else 0).
Proof.
  unfold records_for, add_attempt, modify. simpl.
  rewrite filter_app, length_app. simpl.
  rewrite filter_cons, filter_nil. simpl.
  destruct (decide (path = p)); simpl; lia.
Qed.

Lemma guarded_records_bounded (ops : list op) (self : t) :
  (forall p, records_for p self <= max_attempts self) ->
  guarded ops self ->
  forall p, records_for p (run_ops ops self) <= max_attempts self.
Proof.
  revert self. induction ops as [| o rest IH]; intros self Hinv Hg p; simpl.
  - apply Hinv.
  - destruct Hg as [Hstep Hrest]. unfold run_ops in IH.
    rewrite <- (step_max_attempts o self). apply IH; [| exact Hrest].
    intros q. rewrite step_max_attempts.
    destruct o as [n path applied error ok now | n | error]; cbn [step].
    + rewrite records_for_add_attempt.
      rewrite should_retry_spec in Hstep. simpl in Hstep.
      injection Hstep as Hlt. apply Z.ltb_lt in Hlt.
      destruct (decide (path = q)) as [<- |]; [lia |].
      specialize (Hinv q). lia.
    + apply Hinv.
    + rewrite analyze_errors_state. apply Hinv.
Qed.

(** C8, as the code has it. [add_attempt] itself refuses nothing; the
    records of one file stay within a non-negative [max_attempts] for every
    sequence of calls in which an attempt for a file is recorded only after
    [should_retry] answered true for the number of records already stored
    for it; and [should_retry n] is true exactly when [n < max_attempts]. *)
Theorem records_bounded_when_guarded
    (limit : Z) (ops : list op) (path : string) (n : Z) :
  0 <= limit ->
  guarded ops (__init__ limit) ->
  records_bounded limit ops path
  /\ (fst (should_retry n (run_ops ops (__init__ limit))) = Ok true <-> n < limit).
Proof.
  intros Hlimit Hg. split.
  - unfold records_bounded.
    apply (guarded_records_bounded ops (__init__ limit)); [| exact Hg].
    intros p. unfold records_for. simpl. exact Hlimit.
  - rewrite should_retry_spec, run_ops_max_attempts. simpl.
    split.
    + intros [= H]. by apply Z.ltb_lt.
    + intros H. apply Z.ltb_lt in H. rewrite H. reflexivity.
Qed.

Lemma records_bounded_when_guarded_witness :
  0 <= 3
  /\ guarded Demo.three_failures (__init__ 3)
  /\ records_bounded 3 Demo.three_failures "app/models.py"
  /\ (fst (should_retry 2 (run_ops Demo.three_failures (__init__ 3))) = Ok true <-> 2 < 3).
Proof.
  assert (H0 : 0 <= 3) by lia.
  assert (Hg : guarded Demo.three_failures (__init__ 3))
    by (vm_compute; repeat split).
  split; [exact H0 |]. split; [exact Hg |].
  exact (records_bounded_when_guarded 3 Demo.three_failures "app/models.py" 2 H0 Hg).
Defined.

(** C8, as it is worded, fails: four calls of [add_attempt] for one file
    on an object with [max_attempts = 3] leave four records. *)
Lemma records_exceed_max_attempts :
  ~ records_bounded 3 Demo.four_failures "app/models.py".
Proof.
  unfold records_bounded. vm_compute. intros H. apply H. reflexivity.
Qed.

End FeedbackLoopFacts.

(** * What a match is *)

Lemma append_cons (c : ascii) (s t : string) :
  String c s +:+ t = String c (s +:+ t).
Proof. reflexivity. Qed.

Lemma append_nil_r (s : string) : s +:+ EmptyString = s.
Proof. induction s as [| c s IH]; [reflexivity |]. rewrite append_cons, IH. reflexivity. Qed.

Lemma append_assoc (a b c : string) : (a +:+ b) +:+ c = a +:+ (b +:+ c).
Proof.
  induction a as [| x a IH]; [reflexivity |]. rewrite !append_cons, IH. reflexivity.
Qed.

Lemma length_append (a b : string) :
  String.length (a +:+ b) = (String.length a + String.length b)%nat.
Proof.
  induction a as [| x a IH]; [reflexivity |]. rewrite append_cons. simpl.
  rewrite IH. reflexivity.
Qed.

Lemma take_append (a b : string) : PyStr.take (String.length a) (a +:+ b) = a.
Proof.
  induction a as [| x a IH].
  - simpl. destruct b; reflexivity.
  - change (String x a +:+ b) with (String x (a +:+ b)).
    change (String.length (String x a)) with (S (String.length a)).
    cbn [PyStr.take]. rewrite IH. reflexivity.
Qed.

(** The text a group records is the text consumed: what was there before,
    less what is left. *)
Lemma take_consumed (w rest : string) :
  PyStr.take (String.length (w +:+ rest) - String.length rest) (w +:+ rest) = w.
Proof.
  rewrite length_append.
  replace (String.length w + String.length rest - String.length rest)%nat
    with (String.length w) by lia.
  apply take_append.
Qed.

Lemma star_sound {R} (cls : ascii -> bool) (s : string)
    (k : string -> option R) (x : R) :
  Re.star cls s k = Some x ->
  exists w rest, s = w +:+ rest /\ Re.all_in cls w = true /\ k rest = Some x.
Proof.
  induction s as [| c s' IH]; simpl.
  - intros H. exists EmptyString, EmptyString. done.
  - destruct (cls c) eqn:Ec.
    + destruct (Re.star cls s' k) as [y |] eqn:E.
      * intros [= ->]. destruct (IH eq_refl) as (w & rest & -> & Hw & Hk).
        exists (String c w), rest. simpl. rewrite Ec, Hw. done.
      * intros H. exists EmptyString, (String c s'). done.
    + intros H. exists EmptyString, (String c s'). done.
Qed.

(** Soundness of the matcher: when [go] succeeds, the input splits into a
    text that [r] matches and a rest, and the continuation succeeded on
    that rest with the groups of the match added. *)
Lemma go_sound {R} (r : Re.t) :
  forall (s : string) (caps : Re.captures)
         (k : string -> Re.captures -> option R) (x : R),
    Re.go r s caps k = Some x ->
    exists w rest new,
      s = w +:+ rest /\ Re.matches r w new /\ k rest (caps ++ new) = Some x.
Proof.
  induction r as [| c | cls | r1 IH1 r2 IH2 | r' IH]; simpl; intros s caps k x H.
  - exists EmptyString, s, []. rewrite app_nil_r.
    repeat split; [constructor | exact H].
  - destruct s as [| c' s']; [done |].
    destruct (Ascii.eqb c' c) eqn:Ec; [| done]. apply Ascii.eqb_eq in Ec as ->.
    exists (String c EmptyString), s', []. rewrite app_nil_r.
    repeat split; [constructor | exact H].
  - destruct s as [| c' s']; [done |]. destruct (cls c') eqn:Ec; [| done].
    apply star_sound in H as (w & rest & -> & Hw & Hk).
    exists (String c' w), rest, []. rewrite app_nil_r.
    repeat split; [| exact Hk].
    constructor; [done | simpl; rewrite Ec, Hw; reflexivity].
  - apply IH1 in H as (w1 & rest1 & new1 & -> & M1 & H).
    apply IH2 in H as (w2 & rest2 & new2 & -> & M2 & H).
    exists (w1 +:+ w2), rest2, (new1 ++ new2).
    rewrite append_assoc, app_assoc.
    repeat split; [by constructor | exact H].
  - apply IH in H as (w & rest & new & -> & M & H).
    rewrite take_consumed in H.
    exists w, rest, (new ++ [w]). rewrite app_assoc.
    repeat split; [by constructor | exact H].
Qed.

(** What [re.search] returns are the groups of a match of some stretch of
    the text. *)
Lemma search_sound (r : Re.t) (s : string) (m : Re.captures) :
  Re.search r s = Some m ->
  exists before w after, s = before +:+ w +:+ after /\ Re.matches r w m.
Proof.
  induction s as [| c s' IH]; simpl; unfold Re.match_here.
  - destruct (Re.go r EmptyString [] (fun _ caps => Some caps)) as [caps |] eqn:E;
      [| done].
    intros [= <-]. apply go_sound in E as (w & rest & new & Hs & M & [= <-]).
    exists EmptyString, w, rest. done.
  - destruct (Re.go r (String c s') [] (fun _ caps => Some caps)) as [caps |] eqn:E.
    + intros [= <-]. apply go_sound in E as (w & rest & new & Hs & M & [= <-]).
      exists EmptyString, w, rest. done.
    + intros H. destruct (IH H) as (before & w & after & -> & M).
      exists (String c before), w, after. done.
Qed.

Lemma matches_lit_inv (text w : string) (caps : Re.captures) :
  Re.matches (Re.lit text) w caps -> w = text /\ caps = [].
Proof.
  revert w caps. induction text as [| c text IH]; simpl; intros w caps M.
  - inversion M. done.
  - inversion M as [| | | ? ? w1 w2 caps1 caps2 M1 M2 |]; subst.
    inversion M1; subst. apply IH in M2 as [-> ->]. done.
Qed.

Lemma matches_plus_inv (cls : ascii -> bool) (w : string) (caps : Re.captures) :
  Re.matches (Re.Plus cls) w caps ->
  w <> EmptyString /\ Re.all_in cls w = true /\ caps = [].
Proof. intros M. inversion M; subst. done. Qed.


Lemma prefix_append (a b : string) : String.prefix a (a +:+ b) = true.
Proof.
  induction a as [| x a IH].
  - simpl. destruct b; reflexivity.
  - change (String x a +:+ b) with (String x (a +:+ b)). simpl.
    destruct (ascii_dec x x); [exact IH | done].
Qed.

Lemma contains_prefix (sub s : string) :
  String.prefix sub s = true -> PyStr.contains sub s = true.
Proof. intros H. destruct s; cbn [PyStr.contains]; rewrite H; reflexivity. Qed.

(** A text contains each of its stretches. *)
Lemma contains_append (before sub after : string) :
  PyStr.contains sub (before +:+ sub +:+ after) = true.
Proof.
  induction before as [| x before IH].
  - change (EmptyString +:+ sub +:+ after) with (sub +:+ after).
    apply contains_prefix, prefix_append.
  - change (String x before +:+ sub +:+ after)
      with (String x (before +:+ sub +:+ after)).
    cbn [PyStr.contains]. rewrite IH. apply orb_true_r.
Qed.

(** The longest run first: when the continuation accepts what follows the
    whole run of [cls], that is the answer. *)
Lemma star_longest {R} (cls : ascii -> bool) (s : string)
    (k : string -> option R) (x : R) :
  k (Re.skip cls s) = Some x -> Re.star cls s k = Some x.
Proof.
  induction s as [| c s' IH]; simpl; [done |].
  destruct (cls c); [| done]. intros H. rewrite (IH H). reflexivity.
Qed.

(** A longer run is tried before a shorter one. *)
Lemma star_prefix {R} (cls : ascii -> bool) (u v : string)
    (k : string -> option R) (x : R) :
  Re.all_in cls u = true ->
  Re.star cls v k = Some x -> Re.star cls (u +:+ v) k = Some x.
Proof.
  induction u as [| c u IH]; intros Hu Hv; [exact Hv |].
  change (String c u +:+ v) with (String c (u +:+ v)).
  simpl in Hu |- *. apply andb_true_iff in Hu as [-> Hu].
  rewrite (IH Hu Hv). reflexivity.
Qed.

Lemma span_skip (cls : ascii -> bool) (s : string) :
  s = Re.span cls s +:+ Re.skip cls s.
Proof.
  induction s as [| c s' IH]; simpl; [reflexivity |].
  destruct (cls c); [| reflexivity].
  change (String c (Re.span cls s') +:+ Re.skip cls s')
    with (String c (Re.span cls s' +:+ Re.skip cls s')).
  rewrite <- IH. reflexivity.
Qed.

Lemma take_consumed_eq (s w rest : string) :
  s = w +:+ rest ->
  PyStr.take (String.length s - String.length rest) s = w.
Proof. intros ->. apply take_consumed. Qed.

Lemma match_here_exception_line (u : string) (c : ascii) (rest : string) :
  u <> EmptyString -> Re.all_in Re.word u = true -> Re.dot c = true ->
  Re.match_here FeedbackLoop.exception_pattern
    (u +:+ "Error: " +:+ String c rest)
  = Some [u +:+ "Error"; String c (Re.span Re.dot rest)].
Proof.
  intros Hne Hu Hc. destruct u as [| u0 u]; [done |].
  simpl in Hu. apply andb_true_iff in Hu as [Hu0 Hu].
  unfold Re.match_here, FeedbackLoop.exception_pattern.
  change (String u0 u +:+ "Error: " +:+ String c rest)
    with (String u0 (u +:+ "Error: " +:+ String c rest)).
  cbn [Re.go Re.lit]. rewrite Hu0.
  apply star_prefix; [exact Hu |].
  change ("Error: " +:+ String c rest)
    with (String "E" (String "r" (String "r" (String "o" (String "r"
           (String ":" (String " " (String c rest)))))))).
  cbn [Re.star].
  repeat match goal with
         | |- context [Re.word (Ascii ?b0 ?b1 ?b2 ?b3 ?b4 ?b5 ?b6 ?b7)] =>
             let ch := constr:(Ascii b0 b1 b2 b3 b4 b5 b6 b7) in
             let v := eval vm_compute in (Re.word ch) in
             change (Re.word ch) with v
         | |- context [Ascii.eqb (Ascii ?b0 ?b1 ?b2 ?b3 ?b4 ?b5 ?b6 ?b7)
                                 (Ascii ?d0 ?d1 ?d2 ?d3 ?d4 ?d5 ?d6 ?d7)] =>
             let x := constr:(Ascii b0 b1 b2 b3 b4 b5 b6 b7) in
             let y := constr:(Ascii d0 d1 d2 d3 d4 d5 d6 d7) in
             let v := eval vm_compute in (Ascii.eqb x y) in
             change (Ascii.eqb x y) with v
         end.
  cbv beta iota. rewrite Hc.
  apply star_longest. cbn [app].
  rewrite (take_consumed_eq _ (String u0 u +:+ "Error")
             (String ":" (String " " (String c rest))))
    by (rewrite append_assoc; reflexivity).
  rewrite (take_consumed_eq (String c rest) (String c (Re.span Re.dot rest))
             (Re.skip Re.dot rest)); [reflexivity |].
  change (String c (Re.span Re.dot rest) +:+ Re.skip Re.dot rest)
      with (String c (Re.span Re.dot rest +:+ Re.skip Re.dot rest)).
    rewrite <- span_skip. reflexivity.
Qed.

Lemma search_here (r : Re.t) (s : string) (m : Re.captures) :
  Re.match_here r s = Some m -> Re.search r s = Some m.
Proof. intros H. destruct s; simpl; rewrite H; reflexivity. Qed.

(** A match further on is found, unless an earlier one is. *)
Lemma search_later (r : Re.t) (before s : string) (m : Re.captures) :
  Re.match_here r s = Some m ->
  exists m', Re.search r (before +:+ s) = Some m'.
Proof.
  intros H. induction before as [| c before IH].
  - exists m. by apply search_here.
  - change (String c before +:+ s) with (String c (before +:+ s)).
    cbn [Re.search].
    destruct (Re.match_here r (String c (before +:+ s))) as [m0 |].
    + exists m0. reflexivity.
    + exact IH.
Qed.

Lemma all_in_append (cls : ascii -> bool) (a b : string) :
  Re.all_in cls (a +:+ b) = Re.all_in cls a && Re.all_in cls b.
Proof.
  induction a as [| c a IH]; [reflexivity |].
  change (String c a +:+ b) with (String c (a +:+ b)). simpl.
  rewrite IH. apply andb_assoc.
Qed.

(** * What the analysis finds *)

Module AnalysisFacts.
Import FeedbackLoop FeedbackLoopFacts.

(** A match of the exception rule: a run of word characters ending in
    [Error], a colon and a space, and the rest of the line. *)
Lemma exception_match_shape (w : string) (m : Re.captures) :
  Re.matches exception_pattern w m ->
  exists u message,
    m = [u +:+ "Error"; message]
    /\ w = (u +:+ "Error") +:+ ": " +:+ message
    /\ u <> EmptyString /\ Re.all_in Re.word u = true
    /\ message <> EmptyString /\ Re.all_in Re.dot message = true.
Proof.
  unfold exception_pattern. intros M.
  inversion M as [| | | ? ? w1 w2 c1 c2 M1 M2 |]; subst.
  inversion M1 as [| | | | ? ? c1' M1']; subst.
  inversion M1' as [| | | ? ? u e cu ce Mu Me |]; subst.
  apply matches_plus_inv in Mu as (Hu & Hau & ->).
  apply (matches_lit_inv "Error") in Me as [-> ->].
  inversion M2 as [| | | ? ? sep g cs cg Ms Mg |]; subst.
  apply (matches_lit_inv ": ") in Ms as [-> ->].
  inversion Mg as [| | | | ? ? cg' Mg']; subst.
  apply matches_plus_inv in Mg' as (Hg & Hag & ->).
  exists u, g. done.
Qed.

(** A match of a rule made of a fixed text and the rest of the line. *)
Lemma marker_match_shape (marker w : string) (m : Re.captures) :
  Re.matches (Re.Cat (Re.lit marker) (Re.Group (Re.Plus Re.dot))) w m ->
  exists message,
    m = [message] /\ w = marker +:+ message
    /\ message <> EmptyString /\ Re.all_in Re.dot message = true.
Proof.
  intros M. inversion M as [| | | ? ? w1 w2 c1 c2 M1 M2 |]; subst.
  apply matches_lit_inv in M1 as [-> ->].
  inversion M2 as [| | | | ? ? cg Mg]; subst.
  apply matches_plus_inv in Mg as (Hg & Hag & ->).
  exists w2. done.
Qed.

(** The [AssertionError] rule never decides: where it matches, the
    exception rule, which is tried first, matches too. *)
Theorem assertion_rule_never_reached (error : string) :
  classify error_patterns error
  = classify [(exception_pattern, exception); (test_failure_pattern, test_failure)]
             error.
Proof.
  unfold error_patterns. cbn [classify].
  destruct (Re.search exception_pattern error) as [m |] eqn:E1; [reflexivity |].
  destruct (Re.search assertion_pattern error) as [m |] eqn:E2; [| reflexivity].
  exfalso.
  apply search_sound in E2 as (before & w & after & -> & M).
  apply marker_match_shape in M as (g & -> & -> & Hg & Hdot).
  destruct g as [| c g]; [done |]. simpl in Hdot.
  apply andb_true_iff in Hdot as [Hc _].
  assert (Hm : Re.match_here exception_pattern
                 ("Assertion" +:+ "Error: " +:+ String c (g +:+ after))
               = Some ["Assertion" +:+ "Error";
                       String c (Re.span Re.dot (g +:+ after))])
    by (apply match_here_exception_line; done).
  destruct (search_later _ before _ _ Hm) as [m' Hs].
  rewrite append_assoc in E1.
  change (Re.search exception_pattern
            (before +:+ "Assertion" +:+ "Error: " +:+ String c (g +:+ after))
          = None) in E1.
  rewrite Hs in E1. discriminate E1.
Qed.

(** The type and the message of an analysis are those of [classify]. *)
Lemma analyze_errors_fields (error : string) (self self' : t) (a : Analysis) :
  analyze_errors error self = (Ok a, self') ->
  classify error_patterns error = (error_type a, error_message a).
Proof.
  unfold analyze_errors.
  destruct (classify error_patterns error) as [ty msg] eqn:Ec.
  unfold bind. destruct (find_failed_line error self) as [[line | e] s1]; [| done].
  destruct (truthy ty).
  - destruct (_generate_suggestions _ s1) as [[l | e] s2]; [| done].
    intros [= <- <-]. reflexivity.
  - intros [= <- <-]. reflexivity.
Qed.

Lemma classify_found (error kind : string) (msg : option string) :
  classify error_patterns error = (Some kind, msg) ->
  exists message before after,
    msg = Some message
    /\ message <> EmptyString
    /\ Re.all_in Re.dot message = true
    /\ ((exists u, kind = u +:+ "Error" /\ u <> EmptyString
                   /\ Re.all_in Re.word u = true
                   /\ error = before +:+ (kind +:+ ": " +:+ message) +:+ after)
        \/ (kind = "TestFailure"
            /\ error = before +:+ ("FAILED " +:+ message) +:+ after)).
Proof.
  unfold error_patterns. cbn [classify].
  destruct (Re.search exception_pattern error) as [m |] eqn:E1.
  - intros [= Hk Hm].
    apply search_sound in E1 as (before & w & after & -> & M).
    apply exception_match_shape in M as (u & g & -> & -> & Hu & Hau & Hg & Hag).
    exists g, before, after. cbn in Hk, Hm. subst kind.
    repeat split; [done | done | done |].
    left. exists u. split; [reflexivity |]. split; [exact Hu |].
    split; [exact Hau |]. rewrite !append_assoc. reflexivity.
  - destruct (Re.search assertion_pattern error) as [m |] eqn:E2.
    + intros [= Hk Hm].
      apply search_sound in E2 as (before & w & after & -> & M).
      apply (marker_match_shape "AssertionError: ") in M
        as (g & -> & -> & Hg & Hag).
      exists g, before, after. cbn in Hm. subst kind.
      repeat split; [done | done | done |].
      left. exists "Assertion". split; [reflexivity |]. split; [discriminate |].
      split; reflexivity.
    + destruct (Re.search test_failure_pattern error) as [m |] eqn:E3; [| done].
      intros [= Hk Hm].
      apply search_sound in E3 as (before & w & after & -> & M).
      apply (marker_match_shape "FAILED ") in M as (g & -> & -> & Hg & Hag).
      exists g, before, after. cbn in Hm.
      repeat split; [done | done | done |]. right. done.
Qed.

(** What was found is in the transcript: the message is the rest of a
    line, not empty, and stands after the kind and a colon, or after the
    [FAILED] marker when the kind is [TestFailure]; a kind other than
    [TestFailure] is a run of word characters ending in [Error]. *)
Theorem analysis_found_in_transcript
    (error : string) (self self' : t) (a : Analysis) (kind : string) :
  analyze_errors error self = (Ok a, self') ->
  error_type a = Some kind ->
  exists message before after,
    error_message a = Some message
    /\ message <> EmptyString
    /\ Re.all_in Re.dot message = true
    /\ ((exists u, kind = u +:+ "Error" /\ u <> EmptyString
                   /\ Re.all_in Re.word u = true
                   /\ error = before +:+ (kind +:+ ": " +:+ message) +:+ after)
        \/ (kind = "TestFailure"
            /\ error = before +:+ ("FAILED " +:+ message) +:+ after)).
Proof.
  intros Hrun Hkind. apply analyze_errors_fields in Hrun.
  rewrite Hkind in Hrun. exact (classify_found _ _ _ Hrun).
Qed.

Lemma analysis_found_in_transcript_witness :
  analyze_errors Demo.type_error Demo.one_attempt
  = (Ok {| error_type := Some "TypeError";
           error_message := Some "unsupported operand";
           failed_line := Some 7;
           suggestions := ["Check function arguments and type compatibility"] |},
     Demo.one_attempt)
  /\ exists message before after,
       Some "unsupported operand" = Some message
       /\ message <> EmptyString
       /\ Re.all_in Re.dot message = true
       /\ ((exists u, "TypeError" = u +:+ "Error" /\ u <> EmptyString
                      /\ Re.all_in Re.word u = true
                      /\ Demo.type_error
                         = before +:+ ("TypeError" +:+ ": " +:+ message) +:+ after)
           \/ ("TypeError" = "TestFailure"
               /\ Demo.type_error = before +:+ ("FAILED " +:+ message) +:+ after)).
Proof.
  assert (H : analyze_errors Demo.type_error Demo.one_attempt
              = (Ok {| error_type := Some "TypeError";
                       error_message := Some "unsupported operand";
                       failed_line := Some 7;
                       suggestions :=
                         ["Check function arguments and type compatibility"] |},
                 Demo.one_attempt)) by (vm_compute; reflexivity).
  split; [exact H |].
  exact (analysis_found_in_transcript _ _ _ _ "TypeError" H eq_refl).
Defined.

Lemma analyze_errors_suggestions
    (error : string) (self self' : t) (a : Analysis) (kind : string) :
  analyze_errors error self = (Ok a, self') ->
  error_type a = Some kind ->
  exists a0,
    error_type a0 = Some kind
    /\ error_message a0 = error_message a
    /\ _generate_suggestions a0 self = (Ok (suggestions a), self).
Proof.
  intros Hrun Hkind. unfold analyze_errors in Hrun.
  destruct (classify error_patterns error) as [ty msg] eqn:Ec.
  unfold bind in Hrun.
  destruct (find_failed_line_state error self) as [[line | e] Hline];
    rewrite Hline in Hrun; [| discriminate Hrun].
  destruct (classify_shape _ _ _ Ec) as [[-> ->] | (k & m & -> & -> & Hne)].
  - simpl in Hrun. injection Hrun as <- <-. discriminate Hkind.
  - rewrite (truthy_some _ Hne) in Hrun.
    edestruct (generate_suggestions_spec) as (l & Hl & _);
      [| | rewrite Hl in Hrun]; [reflexivity | reflexivity |].
    injection Hrun as <- <-. simpl in Hkind. injection Hkind as <-.
    eexists. split; [| split; [| exact Hl]]; reflexivity.
Qed.

Lemma kind_suggestions_plain (analysis : Analysis) (self self' : t) (l : list string) :
  kind_suggestions analysis self = (Ok l, self') ->
  ~ In same_error_suggestion l /\ (length l <= 1)%nat.
Proof.
  unfold kind_suggestions.
  repeat match goal with
         | |- context [if ?b then _ else _] => destruct b
         end;
    try (intros [= <- <-]; split; [intros [H | []]; discriminate H | simpl; lia]).
  unfold bind, in_opt. destruct (error_message analysis) as [m |]; [| done].
  unfold ret. destruct (PyStr.contains "Django" m); intros [= <- <-].
  - split; [intros [H | []]; discriminate H | simpl; lia].
  - split; [intros [] | simpl; lia].
Qed.

(** The suggestion to change approach is made only with at least two
    attempts recorded and the error kind present in the transcript of the
    last of them; and an analysis carries at most two suggestions. *)
Theorem same_error_suggestion_only_when_repeating
    (error : string) (self self' : t) (a : Analysis) :
  analyze_errors error self = (Ok a, self') ->
  (length (suggestions a) <= 2)%nat
  /\ (In same_error_suggestion (suggestions a) ->
      (1 < length (attempts_history self))%nat
      /\ exists previous kind,
           last (attempts_history self) = Some previous
           /\ error_type a = Some kind
           /\ PyStr.contains kind (error_output previous) = true).
Proof.
  intros Hrun.
  destruct (error_type a) as [kind |] eqn:Hkind.
  - destruct (analyze_errors_suggestions _ _ _ _ _ Hrun Hkind)
      as (a0 & Hk0 & _ & Hgen).
    unfold _generate_suggestions, bind, get in Hgen.
    destruct (kind_suggestions a0 self) as [[l0 | e] s1] eqn:Ek; [| done].
    destruct (kind_suggestions_plain _ _ _ _ Ek) as [Hnot Hlen].
    destruct (1 <? Z.of_nat (length (attempts_history s1))) eqn:Elen.
    + destruct (last (attempts_history s1)) as [previous |] eqn:Elast.
      * rewrite Hk0 in Hgen. unfold py_in, ret in Hgen.
        destruct (PyStr.contains kind (error_output previous)) eqn:Ec;
          injection Hgen as <- <-.
        -- split; [rewrite length_app; simpl; lia |]. intros _.
           apply Z.ltb_lt in Elen. split; [lia |]. by exists previous, kind.
        -- split; [lia | done].
      * injection Hgen as <- <-. split; [lia | done].
    + injection Hgen as <- <-. split; [lia | done].
  - unfold analyze_errors in Hrun.
    destruct (classify error_patterns error) as [ty msg] eqn:Ec.
    unfold bind in Hrun.
    destruct (find_failed_line error self) as [[line | e] s1]; [| done].
    destruct (classify_shape _ _ _ Ec) as [[-> ->] | (k & m & -> & -> & Hne)].
    + simpl in Hrun. injection Hrun as <- <-. simpl. split; [lia | done].
    + rewrite (truthy_some _ Hne) in Hrun.
      destruct (_generate_suggestions _ s1) as [[l | e] s2]; [| done].
      injection Hrun as <- <-. discriminate Hkind.
Qed.

Lemma same_error_suggestion_only_when_repeating_witness :
  analyze_errors Demo.type_error Demo.two_attempts
  = (Ok {| error_type := Some "TypeError";
           error_message := Some "unsupported operand";
           failed_line := Some 7;
           suggestions := ["Check function arguments and type compatibility";
                           same_error_suggestion] |},
     Demo.two_attempts)
  /\ (length ["Check function arguments and type compatibility";
              same_error_suggestion] <= 2)%nat
  /\ (In same_error_suggestion
         ["Check function arguments and type compatibility"; same_error_suggestion] ->
      (1 < length (attempts_history Demo.two_attempts))%nat
      /\ exists previous kind,
           last (attempts_history Demo.two_attempts) = Some previous
           /\ Some "TypeError" = Some kind
           /\ PyStr.contains kind (error_output previous) = true).
Proof.
  assert (H : analyze_errors Demo.type_error Demo.two_attempts
              = (Ok {| error_type := Some "TypeError";
                       error_message := Some "unsupported operand";
                       failed_line := Some 7;
                       suggestions :=
                         ["Check function arguments and type compatibility";
                          same_error_suggestion] |},
                 Demo.two_attempts)) by (vm_compute; reflexivity).
  split; [exact H |].
  exact (same_error_suggestion_only_when_repeating _ _ _ _ H).
Defined.

(** When no rule matches, the analysis has no kind, no message and no
    suggestion; and an analysis has a kind exactly when it has a message. *)
Theorem analysis_without_kind
    (error : string) (self self' : t) (a : Analysis) :
  analyze_errors error self = (Ok a, self') ->
  (error_type a = None <-> error_message a = None)
  /\ (error_type a = None -> suggestions a = []).
Proof.
  intros Hrun. pose proof (analyze_errors_fields _ _ _ _ Hrun) as Hf.
  destruct (classify_shape _ _ _ Hf) as [[Ht Hm] | (k & m & Ht & Hm & _)].
  - split; [rewrite Ht, Hm; done |]. intros _.
    unfold analyze_errors in Hrun. rewrite Hf, Ht in Hrun.
    unfold bind in Hrun.
    destruct (find_failed_line error self) as [[line | e] s1]; [| done].
    simpl in Hrun. injection Hrun as <- _. reflexivity.
  - rewrite Ht, Hm. split; [split; discriminate | discriminate].
Qed.

Lemma analysis_without_kind_witness :
  analyze_errors "all tests passed on line 3" Demo.two_attempts
  = (Ok {| error_type := None; error_message := None;
           failed_line := Some 3; suggestions := [] |},
     Demo.two_attempts)
  /\ (@None string = None <-> @None string = None)
  /\ (@None string = None -> @nil string = []).
Proof.
  assert (H : analyze_errors "all tests passed on line 3" Demo.two_attempts
              = (Ok {| error_type := None; error_message := None;
                       failed_line := Some 3; suggestions := [] |},
                 Demo.two_attempts)) by (vm_compute; reflexivity).
  split; [exact H |]. exact (analysis_without_kind _ _ _ _ H).
Defined.

(** In the usual sequence, where the failed attempt is recorded before its
    transcript is analysed, the comparison is of the transcript with
    itself: from the second recorded attempt on, every analysis that finds
    an exception kind carries the suggestion to change approach. *)
Theorem recorded_transcript_always_repeats
    (error : string) (self self' : t) (a : Analysis)
    (previous : Attempt) (kind : string) :
  analyze_errors error self = (Ok a, self') ->
  (1 < length (attempts_history self))%nat ->
  last (attempts_history self) = Some previous ->
  error_output previous = error ->
  error_type a = Some kind ->
  kind <> "TestFailure" ->
  In same_error_suggestion (suggestions a).
Proof.
  intros Hrun Hlen Hlast Hsame Hkind Hnot.
  pose proof (analyze_errors_fields _ _ _ _ Hrun) as Hf. rewrite Hkind in Hf.
  destruct (classify_found _ _ _ Hf)
    as (m & before & after & Hm & _ & _ & [(u & _ & _ & _ & Herr) | [Hk _]]);
    [| done].
  destruct (analyze_errors_suggestions _ _ _ _ _ Hrun Hkind)
    as (a0 & Hk0 & Hm0 & Hgen).
  rewrite Hm in Hm0.
  destruct (generate_suggestions_spec a0 self kind m Hk0 Hm0) as (l & Hl & Hflag).
  rewrite Hl in Hgen. injection Hgen as <-.
  apply (Hflag Hlen previous Hlast).
  rewrite Hsame, Herr, append_assoc. apply contains_append.
Qed.

Lemma recorded_transcript_always_repeats_witness :
  analyze_errors Demo.type_error Demo.two_attempts
  = (Ok {| error_type := Some "TypeError";
           error_message := Some "unsupported operand";
           failed_line := Some 7;
           suggestions := ["Check function arguments and type compatibility";
                           same_error_suggestion] |},
     Demo.two_attempts)
  /\ (1 < length (attempts_history Demo.two_attempts))%nat
  /\ last (attempts_history Demo.two_attempts)
     = Some {| attempt := 2; file_path := "app/models.py"; code_applied := "FIXED";
               error_output := Demo.type_error; success := false;
               timestamp := 0%float |}
  /\ "TypeError" <> "TestFailure"
  /\ In same_error_suggestion
        ["Check function arguments and type compatibility"; same_error_suggestion].
Proof.
  assert (H : analyze_errors Demo.type_error Demo.two_attempts
              = (Ok {| error_type := Some "TypeError";
                       error_message := Some "unsupported operand";
                       failed_line := Some 7;
                       suggestions :=
                         ["Check function arguments and type compatibility";
                          same_error_suggestion] |},
                 Demo.two_attempts)) by (vm_compute; reflexivity).
  assert (Hlen : (1 < length (attempts_history Demo.two_attempts))%nat)
    by (vm_compute; lia).
  assert (Hlast : last (attempts_history Demo.two_attempts)
     = Some {| attempt := 2; file_path := "app/models.py"; code_applied := "FIXED";
               error_output := Demo.type_error; success := false;
               timestamp := 0%float |}) by (vm_compute; reflexivity).
  assert (Hne : "TypeError" <> "TestFailure") by discriminate.
  split; [exact H |]. split; [exact Hlen |]. split; [exact Hlast |].
  split; [exact Hne |].
  exact (recorded_transcript_always_repeats _ _ _ _ _ "TypeError"
           H Hlen Hlast eq_refl eq_refl Hne).
Defined.

Lemma classify_leading_line (u : string) (c : ascii) (rest : string) :
  u <> EmptyString -> Re.all_in Re.word u = true -> Re.dot c = true ->
  classify error_patterns (u +:+ "Error: " +:+ String c rest)
  = (Some (u +:+ "Error"), Some (String c (Re.span Re.dot rest))).
Proof.
  intros Hne Hu Hc. unfold error_patterns. cbn [classify].
  rewrite (search_here _ _ _ (match_here_exception_line u c rest Hne Hu Hc)).
  reflexivity.
Qed.

(** A transcript that begins with an exception line, a name of word
    characters ending in [Error], a colon, a space and some text: the kind
    is that name and the message is the text up to the end of the line. *)
Theorem analysis_of_leading_exception_line
    (u : string) (c : ascii) (rest : string) (self self' : t) (a : Analysis) :
  u <> EmptyString -> Re.all_in Re.word u = true -> Re.dot c = true ->
  analyze_errors (u +:+ "Error: " +:+ String c rest) self = (Ok a, self') ->
  error_type a = Some (u +:+ "Error")
  /\ error_message a = Some (String c (Re.span Re.dot rest)).
Proof.
  intros Hne Hu Hc Hrun. apply analyze_errors_fields in Hrun.
  rewrite (classify_leading_line u c rest Hne Hu Hc) in Hrun.
  injection Hrun as <- <-. done.
Qed.

Lemma analysis_of_leading_exception_line_witness :
  "Value" <> EmptyString
  /\ Re.all_in Re.word "Value" = true
  /\ Re.dot "b" = true
  /\ analyze_errors ("Value" +:+ "Error: " +:+ String "b" ("ad input" +:+ nl +:+ "more"))
                    Demo.one_attempt
     = (Ok {| error_type := Some "ValueError"; error_message := Some "bad input";
              failed_line := None; suggestions := [] |},
        Demo.one_attempt)
  /\ Some "ValueError" = Some ("Value" +:+ "Error")
  /\ Some "bad input"
     = Some (String "b" (Re.span Re.dot ("ad input" +:+ nl +:+ "more"))).
Proof.
  assert (H1 : "Value" <> EmptyString) by discriminate.
  assert (H2 : Re.all_in Re.word "Value" = true) by reflexivity.
  assert (H3 : Re.dot "b" = true) by reflexivity.
  assert (H4 : analyze_errors
                 ("Value" +:+ "Error: " +:+ String "b" ("ad input" +:+ nl +:+ "more"))
                 Demo.one_attempt
               = (Ok {| error_type := Some "ValueError";
                        error_message := Some "bad input";
                        failed_line := None; suggestions := [] |},
                  Demo.one_attempt)) by (vm_compute; reflexivity).
  split; [exact H1 |]. split; [exact H2 |]. split; [exact H3 |]. split; [exact H4 |].
  exact (analysis_of_leading_exception_line _ _ _ _ _ _ H1 H2 H3 H4).
Defined.

(** A transcript that begins with [NameError: ] and some text is analysed
    as a [NameError] whose first suggestion is to check for undefined
    variables or missing imports. *)
Theorem name_error_analysis
    (c : ascii) (rest : string) (self self' : t) (a : Analysis) :
  Re.dot c = true ->
  analyze_errors ("NameError: " +:+ String c rest) self = (Ok a, self') ->
  error_type a = Some "NameError"
  /\ error_message a = Some (String c (Re.span Re.dot rest))
  /\ hd_error (suggestions a)
     = Some "Check for undefined variables or missing imports".
Proof.
  intros Hc Hrun.
  assert (Hcl : classify error_patterns ("NameError: " +:+ String c rest)
                = (Some "NameError", Some (String c (Re.span Re.dot rest))))
    by (apply (classify_leading_line "Name" c rest); done).
  pose proof (analyze_errors_fields _ _ _ _ Hrun) as Hf. rewrite Hcl in Hf.
  injection Hf as Ht Hm. split; [done |]. split; [done |].
  destruct (analyze_errors_suggestions _ _ _ _ "NameError" Hrun (eq_sym Ht))
    as (a0 & Hk0 & _ & Hgen).
  unfold _generate_suggestions, bind, kind_suggestions, get in Hgen.
  rewrite Hk0 in Hgen. cbn [is_str String.eqb Ascii.eqb Bool.eqb] in Hgen.
  unfold ret, py_in in Hgen.
  destruct (1 <? Z.of_nat (length (attempts_history self)));
    [destruct (last (attempts_history self)) as [previous |];
      [destruct (PyStr.contains "NameError" (error_output previous)) |] |];
    injection Hgen as <-; reflexivity.
Qed.

Lemma name_error_analysis_witness :
  Re.dot "x" = true
  /\ analyze_errors ("NameError: " +:+ String "x" " is not defined") Demo.two_attempts
     = (Ok {| error_type := Some "NameError";
              error_message := Some "x is not defined";
              failed_line := None;
              suggestions := ["Check for undefined variables or missing imports"] |},
        Demo.two_attempts)
  /\ Some "NameError" = Some "NameError"
  /\ Some "x is not defined" = Some (String "x" (Re.span Re.dot " is not defined"))
  /\ hd_error ["Check for undefined variables or missing imports"]
     = Some "Check for undefined variables or missing imports".
Proof.
  assert (H1 : Re.dot "x" = true) by reflexivity.
  assert (H2 : analyze_errors ("NameError: " +:+ String "x" " is not defined")
                              Demo.two_attempts
     = (Ok {| error_type := Some "NameError";
              error_message := Some "x is not defined";
              failed_line := None;
              suggestions := ["Check for undefined variables or missing imports"] |},
        Demo.two_attempts)) by (vm_compute; reflexivity).
  split; [exact H1 |]. split; [exact H2 |].
  exact (name_error_analysis _ _ _ _ _ H1 H2).
Defined.

End AnalysisFacts.

(** * The history and the retry prompt *)

Module RetryFacts.
Import FeedbackLoop FeedbackLoopFacts.

Lemma take_length (n : nat) (s : string) : (String.length (PyStr.take n s) <= n)%nat.
Proof.
  revert s. induction n as [| n IH]; intros [| c s]; simpl; try lia.
  specialize (IH s). lia.
Qed.

Lemma take_length_le (n : nat) (s : string) :
  (String.length (PyStr.take n s) <= String.length s)%nat.
Proof.
  revert s. induction n as [| n IH]; intros [| c s]; simpl; try lia.
  specialize (IH s). lia.
Qed.

Lemma take_take (n : nat) (s : string) : PyStr.take n (PyStr.take n s) = PyStr.take n s.
Proof.
  revert s. induction n as [| n IH]; intros [| c s]; simpl; try reflexivity.
  rewrite IH. reflexivity.
Qed.

(** The history only grows, by one record for each call of [add_attempt]
    and by nothing for the other calls, and each record added holds at most
    500 characters of the code applied. *)
Theorem history_append_only (ops : list op) (self : t) :
  exists added,
    attempts_history (run_ops ops self) = attempts_history self ++ added
    /\ length added = length (List.filter is_add_attempt ops)
    /\ Forall (fun r => (String.length (code_applied r) <= 500)%nat) added.
Proof.
  revert self. induction ops as [| o rest IH]; intros self.
  - exists []. simpl. rewrite app_nil_r. repeat split. constructor.
  - cbn [run_ops fold_left]. destruct (IH (step o self)) as (added & Hh & Hn & Hf).
    unfold run_ops in Hh. rewrite Hh.
    destruct o as [n path applied error ok now | n | error];
      cbn [step List.filter is_add_attempt].
    + eexists (_ :: added). cbn [add_attempt modify snd attempts_history].
      rewrite <- app_assoc. split; [reflexivity |]. split; [simpl; lia |].
      constructor; [apply take_length | exact Hf].
    + exists added. done.
    + exists added. rewrite analyze_errors_state. done.
Qed.

Lemma split_parts (sep : ascii) (s : string) :
  PyStr.split sep s <> []
  /\ Forall (fun x => Re.all_in (fun c => negb (Ascii.eqb c sep)) x = true
                      /\ (String.length x <= String.length s)%nat)
            (PyStr.split sep s).
Proof.
  induction s as [| c s [Hne IH]]; simpl.
  - split; [done |]. constructor; [done | constructor].
  - destruct (Ascii.eqb c sep) eqn:Ec.
    + split; [done |]. constructor; [simpl; split; [done | lia] |].
      eapply Forall_impl; [exact IH |]. simpl. intros x [Hx Hl]. split; [done | lia].
    + destruct (PyStr.split sep s) as [| h t]; [done |].
      split; [done |]. apply Forall_cons in IH as [[Hh Hl] Ht].
      constructor.
      * simpl. rewrite Ec, Hh. split; [done | lia].
      * eapply Forall_impl; [exact Ht |]. simpl. intros x [Hx Hl']. split; [done | lia].
Qed.

Lemma last_in_forall {A} (P : A -> Prop) (l : list A) (d : A) :
  l <> [] -> Forall P l -> P (List.last l d).
Proof.
  induction l as [| x [| y l] IH]; intros Hne Hf; [done | |].
  - apply Forall_cons in Hf as [Hx _]. exact Hx.
  - apply Forall_cons in Hf as [_ Hf]. apply IH; done.
Qed.

(** The error shown for an earlier attempt is one line of at most 200
    characters. *)
Theorem brief_error_one_short_line (a : Attempt) :
  (String.length (brief_error a) <= 200)%nat
  /\ Re.all_in Re.dot (brief_error a) = true.
Proof.
  unfold brief_error.
  destruct (split_parts nl_char (PyStr.take 200 (error_output a))) as [Hne Hf].
  pose proof (last_in_forall _ _ EmptyString Hne Hf) as [Hdot Hlen].
  split; [| exact Hdot].
  pose proof (take_length 200 (error_output a)). lia.
Qed.

(** The prompt depends on the first 1000 characters of the issue and on
    the first 10000 characters of the file only. *)
Theorem build_retry_prompt_truncates
    (original_issue file_content path current_error : string) (self : t) :
  build_retry_prompt original_issue file_content path current_error self
  = build_retry_prompt (PyStr.take 1000 original_issue)
                       (PyStr.take 10000 file_content) path current_error self.
Proof.
  unfold build_retry_prompt, retry_opening. rewrite !take_take. reflexivity.
Qed.

Lemma last_of_last_two {A} (l : list A) : last (last_two l) = last l.
Proof.
  unfold last_two. rewrite !last_lookup, lookup_drop, length_drop.
  destruct l as [| x l]; [reflexivity |]. f_equal. simpl. lia.
Qed.

Lemma kind_suggestions_reads_nothing (analysis : Analysis) (self self' : t) :
  fst (kind_suggestions analysis self) = fst (kind_suggestions analysis self').
Proof.
  unfold kind_suggestions.
  repeat match goal with
         | |- context [if ?b then _ else _] => destruct b
         end; try reflexivity.
  unfold bind, in_opt. destruct (error_message analysis) as [m |]; [| reflexivity].
  unfold ret. destruct (PyStr.contains "Django" m); reflexivity.
Qed.

Lemma kind_suggestions_state (analysis : Analysis) (self : t) :
  snd (kind_suggestions analysis self) = self.
Proof.
  unfold kind_suggestions.
  repeat match goal with
         | |- context [if ?b then _ else _] => destruct b
         end; try reflexivity.
  unfold bind, in_opt. destruct (error_message analysis) as [m |]; [| reflexivity].
  unfold ret. destruct (PyStr.contains "Django" m); reflexivity.
Qed.

Lemma generate_suggestions_reads (analysis : Analysis) (self self' : t) :
  length (attempts_history self) = length (attempts_history self') ->
  last (attempts_history self) = last (attempts_history self') ->
  fst (_generate_suggestions analysis self) = fst (_generate_suggestions analysis self').
Proof.
  intros Hlen Hlast. unfold _generate_suggestions, bind.
  pose proof (kind_suggestions_reads_nothing analysis self self') as Hk.
  pose proof (kind_suggestions_state analysis self) as Hs.
  pose proof (kind_suggestions_state analysis self') as Hs'.
  destruct (kind_suggestions analysis self) as [[l | e] s1];
    destruct (kind_suggestions analysis self') as [[l' | e'] s1'];
    simpl in Hk, Hs, Hs'; try discriminate Hk; subst s1 s1'; [| done].
  injection Hk as <-. unfold get. rewrite Hlen, Hlast.
  destruct (1 <? Z.of_nat (length (attempts_history self'))); [| reflexivity].
  destruct (last (attempts_history self')) as [previous |]; [| reflexivity].
  unfold py_in. destruct (error_type analysis) as [k |]; [| reflexivity].
  unfold ret. destruct (PyStr.contains k (error_output previous)); reflexivity.
Qed.

Lemma find_failed_line_reads_nothing (error : string) (self self' : t) :
  fst (find_failed_line error self) = fst (find_failed_line error self').
Proof.
  unfold find_failed_line, bind, PyStr.to_int, ret, raise.
  destruct (Re.search line_pattern error) as [m |]; [| reflexivity].
  destruct (PyStr.int_max_str_digits <? String.length (Re.group m 1))%nat;
    reflexivity.
Qed.

Lemma analyze_errors_reads (error : string) (self self' : t) :
  length (attempts_history self) = length (attempts_history self') ->
  last (attempts_history self) = last (attempts_history self') ->
  fst (analyze_errors error self) = fst (analyze_errors error self').
Proof.
  intros Hlen Hlast. unfold analyze_errors.
  destruct (classify error_patterns error) as [ty msg]. unfold bind.
  pose proof (find_failed_line_reads_nothing error self self') as Hl.
  destruct (find_failed_line_state error self) as [r Hr].
  destruct (find_failed_line_state error self') as [r' Hr'].
  rewrite Hr, Hr' in Hl |- *. simpl in Hl. subst r'.
  destruct r as [line | e]; [| reflexivity].
  destruct (truthy ty); [| reflexivity].
  pose proof (generate_suggestions_reads
                {| error_type := ty; error_message := msg;
                   failed_line := line; suggestions := [] |}
                self self' Hlen Hlast) as Hg.
  destruct (_generate_suggestions _ self) as [[l | e] s1];
    destruct (_generate_suggestions _ self') as [[l' | e'] s1'];
    simpl in Hg; try discriminate Hg; injection Hg as <-; reflexivity.
Qed.

(** Of the recorded attempts, the prompt shows their number and the last
    two: two objects with as many attempts and the same last two give the
    same prompt. *)
Theorem build_retry_prompt_reads_last_two
    (original_issue file_content path current_error : string) (self self' : t) :
  length (attempts_history self) = length (attempts_history self') ->
  last_two (attempts_history self) = last_two (attempts_history self') ->
  fst (build_retry_prompt original_issue file_content path current_error self)
  = fst (build_retry_prompt original_issue file_content path current_error self').
Proof.
  intros Hlen Htwo.
  assert (Hlast : last (attempts_history self) = last (attempts_history self'))
    by (rewrite <- (last_of_last_two (attempts_history self)), Htwo;
        apply last_of_last_two).
  unfold build_retry_prompt, bind.
  pose proof (analyze_errors_reads current_error self self' Hlen Hlast) as Ha.
  destruct (analyze_errors_unchanged current_error self) as [r Hr].
  destruct (analyze_errors_unchanged current_error self') as [r' Hr'].
  rewrite Hr, Hr' in Ha |- *. cbn [fst] in Ha. subst r'.
  destruct r as [a | e]; [| reflexivity].
  unfold get, ret, add_previous_attempts. cbn [fst]. rewrite Hlen, Htwo. reflexivity.
Qed.

Lemma build_retry_prompt_reads_last_two_witness :
  length (attempts_history
            (run_ops [Demo.record_failure 1; Demo.record_failure 2;
                      Demo.record_failure 3] (__init__ 3)))
  = length (attempts_history
              (run_ops [Demo.record_failure 7; Demo.record_failure 2;
                        Demo.record_failure 3] (__init__ 5)))
  /\ last_two (attempts_history
                 (run_ops [Demo.record_failure 1; Demo.record_failure 2;
                           Demo.record_failure 3] (__init__ 3)))
     = last_two (attempts_history
                   (run_ops [Demo.record_failure 7; Demo.record_failure 2;
                             Demo.record_failure 3] (__init__ 5)))
  /\ fst (build_retry_prompt "Crash on save" "x = 1" "app/models.py" Demo.type_error
            (run_ops [Demo.record_failure 1; Demo.record_failure 2;
                      Demo.record_failure 3] (__init__ 3)))
     = fst (build_retry_prompt "Crash on save" "x = 1" "app/models.py" Demo.type_error
              (run_ops [Demo.record_failure 7; Demo.record_failure 2;
                        Demo.record_failure 3] (__init__ 5))).
Proof.
  split; [vm_compute; reflexivity |]. split; [vm_compute; reflexivity |].
  apply build_retry_prompt_reads_last_two; vm_compute; reflexivity.
Defined.

End RetryFacts.

(** * The first version of the agent *)

Module StubAgentFacts.
Import StubAgent.

(** The first version of [run] makes two calls, the start of the sandbox
    and the cleanup, whatever the start does, and returns [None]. *)
Theorem run_starts_and_cleans_up
    {Sandbox LLMClient : Type} `{SandboxAPI Sandbox} `{LLMAPI LLMClient}
    (s : state Sandbox LLMClient) (instance_id : string) :
  issue (self s) !! "instance_id" = Some instance_id ->
  exists res,
    fst (run s) = Ok tt
    /\ trace (snd (run s)) = trace s ++ [Start res; Cleanup].
Proof.
  intros Hid. unfold run, bind, issue_item, try_except_finally, sandbox_start,
    sandbox_cleanup.
  rewrite Hid. destruct (sb_start (sandbox (self s))) as [[[] | e] sb];
    eexists; cbn [fst snd ret trace]; rewrite <- app_assoc; split; reflexivity.
Qed.

Lemma run_starts_and_cleans_up_witness :
  issue (self Demo.stub) !! "instance_id" = Some "demo__demo-1"
  /\ exists res,
       fst (run Demo.stub) = Ok tt
       /\ trace (snd (run Demo.stub)) = trace Demo.stub ++ [Start res; Cleanup].
Proof.
  assert (H1 : issue (self Demo.stub) !! "instance_id" = Some "demo__demo-1")
    by (vm_compute; reflexivity).
  split; [exact H1 |]. exact (run_starts_and_cleans_up Demo.stub _ H1).
Defined.

End StubAgentFacts.

(** * The loggers *)

Module LoggerFacts.
Import Logger.

Lemma getLogger_update (name : string) (f : logger -> logger) (reg : registry) :
  getLogger name (update name f reg) = f (getLogger name reg).
Proof.
  unfold update, getLogger. destruct (is_root name) eqn:E; cbn [root loggers].
  - reflexivity.
  - rewrite lookup_insert_eq. reflexivity.
Qed.

Lemma update_update (name : string) (f g : logger -> logger) (reg : registry) :
  update name g (update name f reg) = update name (fun l => g (f l)) reg.
Proof.
  pose proof (getLogger_update name f reg) as Hg. revert Hg.
  unfold update, getLogger. destruct (is_root name) eqn:E; cbn [root loggers].
  - reflexivity.
  - intros ->. rewrite insert_insert_eq. reflexivity.
Qed.

Lemma update_ext (name : string) (f g : logger -> logger) (reg : registry) :
  f (getLogger name reg) = g (getLogger name reg) ->
  update name f reg = update name g reg.
Proof.
  unfold update, getLogger. destruct (is_root name); intros ->; reflexivity.
Qed.

Lemma setup_logger_update (name : string) (reg : registry) :
  setup_logger name reg = update name configured reg.
Proof.
  unfold setup_logger. rewrite update_update, getLogger_update.
  change (handlers (setLevel INFO (getLogger name reg)))
    with (handlers (getLogger name reg)).
  destruct (handlers (getLogger name reg)) as [| h hs] eqn:Eh.
  - rewrite update_update. apply update_ext.
    unfold configured, addHandler, setLevel. cbn [handlers level].
    rewrite Eh. reflexivity.
  - apply update_ext. unfold configured, setLevel. rewrite Eh. reflexivity.
Qed.

(** [setup_logger] may be called any number of times: a second call for
    the same name changes nothing, so no handler is added twice. *)
Theorem setup_logger_idempotent (name : string) (reg : registry) :
  setup_logger name (setup_logger name reg) = setup_logger name reg.
Proof.
  rewrite !setup_logger_update, update_update. apply update_ext.
  destruct (getLogger name reg) as [lvl [| h hs]]; reflexivity.
Qed.

(** After [setup_logger], the logger has level [INFO]; it has the one
    handler to standard output when it had none, and the handlers it had
    otherwise. *)
Theorem setup_logger_configures (name : string) (reg : registry) :
  level (getLogger name (setup_logger name reg)) = INFO
  /\ handlers (getLogger name (setup_logger name reg))
     = match handlers (getLogger name reg) with
       | [] => [stdout_handler]
       | hs => hs
       end.
Proof.
  rewrite setup_logger_update, getLogger_update. unfold configured.
  destruct (handlers (getLogger name reg)); split; reflexivity.
Qed.

End LoggerFacts.
